(** * Personal Library Tracker: the book store, its hooks and its routes

    A shallow embedding of the tracker:
    - the Book model (schema validators, the pre-save hook that stamps the
      reading dates, the post hooks that recompute the owner's statistics);
    - the User model's [updateStats];
    - the upload middleware (file filter, size limit, error handler,
      [deleteUploadedFile]);
    - the two routers that the repository carries for [/api/books]: the
      validated router (Joi schema, upload clean-up, internal search,
      [/search-external]) and the older router kept under
      [backend/routes/books.js];
    - the [auth] middleware and the order in which the GET routes are
      registered;
    - of the client, the dashboard page's filter and counters and the
      book form with the calls that submit it.

    Conventions.  Dates are milliseconds since the epoch, in [Z].  Strings
    are ASCII.  Identifiers of books and users are natural numbers, and
    an identifier that a request names is one that casts to an
    [ObjectId].  The document store is a list of book documents in insertion
    order together with the users' statistics snapshots; the upload
    directory is the finite set of the file names it holds.  Mongoose
    dispatches middleware by the name of the operation it was registered
    for: a hook registered for ['save'] runs on [Document.save], and a hook
    registered for ['findOneAndDelete'] runs on that query; neither runs on
    [findOneAndUpdate]. *)

From Stdlib Require Import ZArith QArith String Ascii List Bool Lia Permutation Sorted.
From stdpp Require Import base decidable option list gmap strings sorting pretty.

Open Scope string_scope.

(** ** Strings as the routes use them *)

Module Str.

(** White space removed by [String.prototype.trim] (ASCII part). *)
Definition is_space (c : ascii) : bool :=
  let n := nat_of_ascii c in
  Nat.eqb n 32 || (Nat.leb 9 n && Nat.leb n 13).

Fixpoint trim_start (s : string) : string :=
  match s with
  | EmptyString => EmptyString
  | String c r => if is_space c then trim_start r else s
  end.

(** [trim_end] keeps a character when it is not a space or when something
    that is kept follows it. *)
Fixpoint trim_end (s : string) : string :=
  match s with
  | EmptyString => EmptyString
  | String c r =>
      match trim_end r with
      | EmptyString => if is_space c then EmptyString else String c EmptyString
      | r' => String c r'
      end
  end.

Definition trim (s : string) : string := trim_end (trim_start s).

(** [s.startsWith(p)] *)
Fixpoint startsWith (p s : string) : bool :=
  match p, s with
  | EmptyString, _ => true
  | String a p', String b s' => Ascii.eqb a b && startsWith p' s'
  | String _ _, EmptyString => false
  end.

(** The rest of [s] after [length p] characters: what
    [s.replace(p, '')] leaves when [s] starts with [p]. *)
Fixpoint drop (n : nat) (s : string) : string :=
  match n, s with
  | O, _ => s
  | S n', String _ r => drop n' r
  | S _, EmptyString => EmptyString
  end.

(** JavaScript truthiness of a string value. *)
Definition truthy (s : string) : bool :=
  match s with EmptyString => false | _ => true end.

(** ASCII case folding, as the [i] flag of a regular expression does. *)
Definition lower (c : ascii) : ascii :=
  let n := nat_of_ascii c in
  if Nat.leb 65 n && Nat.leb n 90 then ascii_of_nat (n + 32) else c.

Definition is_digit (c : ascii) : bool :=
  let n := nat_of_ascii c in Nat.leb 48 n && Nat.leb n 57.

Fixpoint forallb (f : ascii -> bool) (s : string) : bool :=
  match s with
  | EmptyString => true
  | String c r => f c && forallb f r
  end.

Fixpoint filter (f : ascii -> bool) (s : string) : string :=
  match s with
  | EmptyString => EmptyString
  | String c r => if f c then String c (filter f r) else filter f r
  end.

End Str.

(** ** The Book model *)

Definition MS_PER_DAY : Z := 1000 * 3600 * 24.

(** [Math.ceil(x / d)] for an integer [x] and a positive integer [d].  The
    source divides in double precision; for differences of two [Date]
    values of less than 2^27 days the rounded quotient has the ceiling of
    the exact one. *)
Definition Math_ceil_div (x d : Z) : Z := (- ((- x) / d))%Z.

Record Book : Type := mkBook {
  _id : nat;
  user : nat;
  title : option string;
  author : option string;
  genre : option string;
  status : string;
  description : option string;
  isbn : option string;
  publishedDate : option string;
  pageCount : option Q;
  rating : option Q;
  notes : option string;
  coverImage : option string;
  tags : list string;
  dateStarted : option Z;
  dateFinished : option Z;
  readingDuration : option Z;
  createdAt : Z
}.

Definition set_dateStarted (d : option Z) (b : Book) : Book :=
  mkBook (_id b) (user b) (title b) (author b) (genre b) (status b)
    (description b) (isbn b) (publishedDate b) (pageCount b) (rating b)
    (notes b) (coverImage b) (tags b) d (dateFinished b)
    (readingDuration b) (createdAt b).

Definition set_dateFinished (d : option Z) (b : Book) : Book :=
  mkBook (_id b) (user b) (title b) (author b) (genre b) (status b)
    (description b) (isbn b) (publishedDate b) (pageCount b) (rating b)
    (notes b) (coverImage b) (tags b) (dateStarted b) d
    (readingDuration b) (createdAt b).

Definition set_readingDuration (d : option Z) (b : Book) : Book :=
  mkBook (_id b) (user b) (title b) (author b) (genre b) (status b)
    (description b) (isbn b) (publishedDate b) (pageCount b) (rating b)
    (notes b) (coverImage b) (tags b) (dateStarted b) (dateFinished b)
    d (createdAt b).

Definition set_status (s : string) (b : Book) : Book :=
  mkBook (_id b) (user b) (title b) (author b) (genre b) s
    (description b) (isbn b) (publishedDate b) (pageCount b) (rating b)
    (notes b) (coverImage b) (tags b) (dateStarted b) (dateFinished b)
    (readingDuration b) (createdAt b).

(** [this.status === s] *)
Definition status_is (s : string) (b : Book) : bool :=
  String.eqb (status b) s.

(** [!d] for a field that holds a [Date] or nothing. *)
Definition unset {A} (d : option A) : bool :=
  match d with Some _ => false | None => true end.

(** [bookSchema.pre('save', ...)].  [modifiedStatus] is
    [this.isModified('status')]; [now] is [new Date()]. *)
Definition pre_save (now : Z) (modifiedStatus : bool) (this : Book) : Book :=
  if modifiedStatus then
    let this1 :=
      if status_is "Reading" this && unset (dateStarted this)
      then set_dateStarted (Some now) this
      else this in
    if status_is "Read" this1 && unset (dateFinished this1) then
      let this2 := set_dateFinished (Some now) this1 in
      match dateStarted this2 with
      | Some started =>
          let timeDiff := (now - started)%Z in
          set_readingDuration (Some (Math_ceil_div timeDiff MS_PER_DAY)) this2
      | None => this2
      end
    else this1
  else this.

(** ** The User model: the statistics snapshot *)

Record Stats : Type := mkStats {
  totalBooks : nat;
  booksRead : nat;
  currentlyReading : nat;
  toRead : nat
}.

(** The schema defaults of [stats]. *)
Definition stats_default : Stats := mkStats 0 0 0 0.

(** One output document of the [$group] stage: [{ _id, count }]. *)
Definition Group : Type := (string * nat)%type.

(** [{ $group: { _id: '$status', count: { $sum: 1 } } }] over a stream of
    status values: a status already seen has its counter incremented, a
    new one opens a group. *)
Fixpoint group_add (k : string) (acc : list Group) : list Group :=
  match acc with
  | [] => [(k, 1)]
  | (k', c) :: rest =>
      if String.eqb k' k then (k', S c) :: rest
      else (k', c) :: group_add k rest
  end.

Definition group_by_status (docs : list Book) : list Group :=
  fold_left (fun acc b => group_add (status b) acc) docs [].

(** [Book.aggregate([{ $match: { user: this._id } }, { $group: ... }])] *)
Definition aggregate_status (uid : nat) (books : list Book) : list Group :=
  group_by_status (List.filter (fun b => Nat.eqb (user b) uid) books).

(** The body of the [stats.forEach] callback of [updateStats]. *)
Definition updateStats_step (st : Stats) (stat : Group) : Stats :=
  let '(sid, count) := stat in
  let st := mkStats (totalBooks st + count) (booksRead st)
              (currentlyReading st) (toRead st) in
  if String.eqb sid "Read" then
    mkStats (totalBooks st) count (currentlyReading st) (toRead st)
  else if String.eqb sid "Reading" then
    mkStats (totalBooks st) (booksRead st) count (toRead st)
  else if String.eqb sid "To Read" then
    mkStats (totalBooks st) (booksRead st) (currentlyReading st) count
  else st.

(** [userSchema.methods.updateStats], up to the final [this.save()]: the
    four counters are reset, then rebuilt from the aggregation.  The
    previous snapshot [old] is an argument because the method mutates
    [this.stats] in place. *)
Definition updateStats (old : Stats) (uid : nat) (books : list Book) : Stats :=
  let reset := mkStats 0 0 0 0 in
  fold_left updateStats_step (aggregate_status uid books) reset.

(** The number of [uid]'s books whose status is [s]. *)
Definition count_status (uid : nat) (s : string) (books : list Book) : nat :=
  length (List.filter (fun b => Nat.eqb (user b) uid && String.eqb (status b) s) books).

Definition count_books (uid : nat) (books : list Book) : nat :=
  length (List.filter (fun b => Nat.eqb (user b) uid) books).

(** The values of the schema's [enum] for [status]. *)
Definition status_enum : list string := ["To Read"; "Reading"; "Read"].

Definition in_status_enum (s : string) : bool :=
  existsb (String.eqb s) status_enum.

(** ** Request bodies and validation *)

(** A rule broken by a submitted value: the path and the rule's name. *)
Definition Violation : Type := (string * string)%type.

(** A numeric field of a multipart body, by its text: no such field, the
    empty text, a text that is no numeral, or a decimal numeral with the
    number it denotes. *)
Inductive NumField : Type :=
| NumAbsent
| NumEmpty
| NumInvalid
| NumNum (q : Q).

(** [Number.isInteger] *)
Definition is_integer (q : Q) : bool := (Qnum q mod Z.pos (Qden q) =? 0)%Z.

(** The integer that an integral [q] is. *)
Definition to_integer (q : Q) : Z := (Qnum q / Z.pos (Qden q))%Z.

(** The fields of [req.body] that the schemas know.  The last three are
    paths of the Mongoose schema that the Joi schema does not list. *)
Record Body : Type := mkBody {
  b_title : option string;
  b_author : option string;
  b_genre : option string;
  b_status : option string;
  b_description : option string;
  b_isbn : option string;
  b_publishedDate : option string;
  b_pageCount : NumField;
  b_rating : NumField;
  b_notes : option string;
  b_tags : option (list string);
  b_dateStarted : option Z;
  b_dateFinished : option Z;
  b_readingDuration : option Z
}.

(** The value a successful Joi validation returns (converted, unknown keys
    stripped). *)
Record Value : Type := mkValue {
  v_title : string;
  v_author : string;
  v_genre : option string;
  v_status : string;
  v_description : option string;
  v_isbn : option string;
  v_publishedDate : option string;
  v_pageCount : option Z;
  v_rating : option Z;
  v_notes : option string;
  v_tags : option (list string)
}.

Module Joi.

(** [Joi.string().trim()...]: the value is trimmed first; the empty
    string is accepted only where the schema has [allow('')]. *)
Definition string_rule (path : string) (required allowEmpty : bool)
    (max : option nat) (pattern : string -> bool) (v : option string)
    : list Violation * option string :=
  match v with
  | None => if required then ([(path, "any.required")], None) else ([], None)
  | Some raw =>
      let s := Str.trim raw in
      match s with
      | EmptyString =>
          if allowEmpty then ([], Some s) else ([(path, "string.empty")], None)
      | _ =>
          match max with
          | Some m =>
              if Nat.ltb m (String.length s) then ([(path, "string.max")], None)
              else if pattern s then ([], Some s)
              else ([(path, "string.pattern.base")], None)
          | None =>
              if pattern s then ([], Some s)
              else ([(path, "string.pattern.base")], None)
          end
      end
  end.

Definition any_string (_ : string) : bool := true.

(** [/^[0-9-]{10,17}$/] *)
Definition isbn_pattern (s : string) : bool :=
  Str.forallb (fun c => Str.is_digit c || Ascii.eqb c "-"%char) s
  && Nat.leb 10 (String.length s) && Nat.leb (String.length s) 17.

(** [Joi.string().valid('To Read', 'Reading', 'Read').default('To Read')] *)
Definition status_rule (v : option string) : list Violation * string :=
  match v with
  | None => ([], "To Read")
  | Some s => if in_status_enum s then ([], s) else ([("status", "any.only")], s)
  end.

(** [Joi.number().integer().min(lo).max(hi).allow(null)]: a text is
    converted when it is a numeral; the rules run in the order in which
    the schema lists them. *)
Definition number_rule (path : string) (lo hi : Z) (v : NumField)
    : list Violation * option Z :=
  match v with
  | NumAbsent => ([], None)
  | NumEmpty | NumInvalid => ([(path, "number.base")], None)
  | NumNum q =>
      if negb (is_integer q) then ([(path, "number.integer")], None)
      else
        let z := to_integer q in
        if (z <? lo)%Z then ([(path, "number.min")], None)
        else if (hi <? z)%Z then ([(path, "number.max")], None)
        else ([], Some z)
  end.

(** [Joi.array().items(Joi.string().trim().max(30)).max(10)] *)
Fixpoint tag_items (l : list string) : list Violation * list string :=
  match l with
  | [] => ([], [])
  | t :: r =>
      match string_rule "tags" true false (Some 30) any_string (Some t) with
      | ([], Some t') => let '(e, r') := tag_items r in (e, t' :: r')
      | (e, _) => (e, [])
      end
  end.

Definition tags_rule (v : option (list string))
    : list Violation * option (list string) :=
  match v with
  | None => ([], None)
  | Some l =>
      match tag_items l with
      | ([], l') =>
          if Nat.ltb 10 (length l') then ([("tags", "array.max")], None)
          else ([], Some l')
      | (e, _) => (e, None)
      end
  end.

Inductive Result : Type :=
| Error (details : list Violation)
| Ok (value : Value).

(** [bookValidationSchema.validate(req.body, { allowUnknown: true,
    stripUnknown: true })]; validation stops at the first broken rule
    ([abortEarly] is on by default). *)
Definition validate (b : Body) : Result :=
  let '(e1, t) := string_rule "title" true false (Some 200) any_string (b_title b) in
  let '(e2, a) := string_rule "author" true false (Some 100) any_string (b_author b) in
  let '(e3, g) := string_rule "genre" false true (Some 50) any_string (b_genre b) in
  let '(e4, s) := status_rule (b_status b) in
  let '(e5, d) := string_rule "description" false true (Some 2000) any_string (b_description b) in
  let '(e6, i) := string_rule "isbn" false true None isbn_pattern (b_isbn b) in
  let '(e7, p) := string_rule "publishedDate" false true None any_string (b_publishedDate b) in
  let '(e8, pc) := number_rule "pageCount" 1 50000 (b_pageCount b) in
  let '(e9, r) := number_rule "rating" 1 5 (b_rating b) in
  let '(e10, n) := string_rule "notes" false true (Some 1000) any_string (b_notes b) in
  let '(e11, tg) := tags_rule (b_tags b) in
  match (e1 ++ e2 ++ e3 ++ e4 ++ e5 ++ e6 ++ e7 ++ e8 ++ e9 ++ e10 ++ e11)%list, t, a with
  | [], Some t, Some a => Ok (mkValue t a g s d i p pc r n tg)
  | errs, _, _ => Error (firstn 1 errs)
  end.

End Joi.

(** ** Schema validators of the Book model *)

Module Schema.

(** Validators of one path run in order and stop at the first failure. *)
Definition orElse (e1 e2 : list Violation) : list Violation :=
  match e1 with [] => e2 | _ => e1 end.

Definition required (path : string) (v : option string) : list Violation :=
  match v with
  | Some s => if Str.truthy s then [] else [(path, "required")]
  | None => [(path, "required")]
  end.

Definition maxlength (path : string) (m : nat) (v : option string) : list Violation :=
  match v with
  | Some s => if Nat.ltb m (String.length s) then [(path, "maxlength")] else []
  | None => []
  end.

Definition enum (path : string) (v : option string) : list Violation :=
  match v with
  | Some s => if in_status_enum s then [] else [(path, "enum")]
  | None => []
  end.

(** The [isbn] validator: empty passes; otherwise the hyphens are
    removed and [/^[0-9]{10}$|^[0-9]{13}$/] is tested. *)
Definition isbn_validator (v : string) : bool :=
  if negb (Str.truthy v) then true
  else
    let cleanISBN := Str.filter (fun c => negb (Ascii.eqb c "-"%char)) v in
    Str.forallb Str.is_digit cleanISBN
    && (Nat.eqb (String.length cleanISBN) 10 || Nat.eqb (String.length cleanISBN) 13).

Definition isbn_rule (v : option string) : list Violation :=
  match v with
  | Some s => if isbn_validator s then [] else [("isbn", "user defined")]
  | None => []
  end.

(** [min] and [max] of a [Number] path. *)
Definition range (path : string) (lo : Z) (hi : option Z) (v : option Q) : list Violation :=
  match v with
  | Some q =>
      if negb (Qle_bool (inject_Z lo) q) then [(path, "min")]
      else match hi with
           | Some h => if negb (Qle_bool q (inject_Z h)) then [(path, "max")] else []
           | None => []
           end
  | None => []
  end.

Definition tags_rule (l : list string) : list Violation :=
  flat_map (fun t => maxlength "tags" 30 (Some t)) l.

Definition title_path (v : option string) :=
  orElse (required "title" v) (maxlength "title" 200 v).
Definition author_path (v : option string) :=
  orElse (required "author" v) (maxlength "author" 100 v).
Definition status_path (v : option string) :=
  orElse (required "status" v) (enum "status" v).

(** [doc.validate()]: every path of the document. *)
Definition validate_doc (b : Book) : list Violation :=
  (title_path (title b) ++ author_path (author b)
   ++ maxlength "genre" 50 (genre b)
   ++ status_path (Some (status b))
   ++ maxlength "description" 2000 (description b)
   ++ isbn_rule (isbn b)
   ++ range "pageCount" 1 (Some 50000%Z) (pageCount b)
   ++ range "rating" 1 (Some 5%Z) (rating b)
   ++ maxlength "notes" 1000 (notes b)
   ++ tags_rule (tags b)
   ++ range "readingDuration" 0 None (option_map inject_Z (readingDuration b)))%list.

End Schema.

(** The paths of a [$set] update; [Some] marks a key that is present.
    The value of a numeric key or of [coverImage] may be [null]. *)
Record Update : Type := mkUpdate {
  u_title : option string;
  u_author : option string;
  u_genre : option string;
  u_status : option string;
  u_description : option string;
  u_isbn : option string;
  u_publishedDate : option string;
  u_pageCount : option (option Q);
  u_rating : option (option Q);
  u_notes : option string;
  u_tags : option (list string);
  u_coverImage : option (option string);
  u_dateStarted : option Z;
  u_dateFinished : option Z;
  u_readingDuration : option Z
}.

(** Update validators ([runValidators: true]): the validators of the paths
    that the update sets. *)
Definition validate_update (u : Update) : list Violation :=
  let on {A} (v : option A) (f : A -> list Violation) : list Violation :=
    match v with Some x => f x | None => [] end in
  (on (u_title u) (fun s => Schema.title_path (Some s))
   ++ on (u_author u) (fun s => Schema.author_path (Some s))
   ++ on (u_genre u) (fun s => Schema.maxlength "genre" 50 (Some s))
   ++ on (u_status u) (fun s => Schema.status_path (Some s))
   ++ on (u_description u) (fun s => Schema.maxlength "description" 2000 (Some s))
   ++ on (u_isbn u) (fun s => Schema.isbn_rule (Some s))
   ++ on (u_pageCount u) (Schema.range "pageCount" 1 (Some 50000%Z))
   ++ on (u_rating u) (Schema.range "rating" 1 (Some 5%Z))
   ++ on (u_notes u) (fun s => Schema.maxlength "notes" 1000 (Some s))
   ++ on (u_tags u) Schema.tags_rule
   ++ on (u_readingDuration u)
        (fun z => Schema.range "readingDuration" 0 None (Some (inject_Z z))))%list.

(** Casting of an update: string paths with [trim: true] go through the
    setter ([status] has none). *)
Definition cast_update (u : Update) : Update :=
  let tr := option_map Str.trim in
  mkUpdate (tr (u_title u)) (tr (u_author u)) (tr (u_genre u)) (u_status u)
    (tr (u_description u)) (tr (u_isbn u)) (tr (u_publishedDate u))
    (u_pageCount u) (u_rating u) (tr (u_notes u))
    (option_map (map Str.trim) (u_tags u)) (u_coverImage u)
    (u_dateStarted u) (u_dateFinished u) (u_readingDuration u).

(** [{ $set: u }]: a key of the update replaces the stored value. *)
Definition apply_set (u : Update) (b : Book) : Book :=
  let keep {A} (new : option A) (old : option A) :=
    match new with Some x => Some x | None => old end in
  mkBook (_id b) (user b)
    (keep (u_title u) (title b))
    (keep (u_author u) (author b))
    (keep (u_genre u) (genre b))
    (match u_status u with Some s => s | None => status b end)
    (keep (u_description u) (description b))
    (keep (u_isbn u) (isbn b))
    (keep (u_publishedDate u) (publishedDate b))
    (match u_pageCount u with Some v => v | None => pageCount b end)
    (match u_rating u with Some v => v | None => rating b end)
    (keep (u_notes u) (notes b))
    (match u_coverImage u with Some c => c | None => coverImage b end)
    (match u_tags u with Some l => l | None => tags b end)
    (keep (u_dateStarted u) (dateStarted b))
    (keep (u_dateFinished u) (dateFinished b))
    (keep (u_readingDuration u) (readingDuration b))
    (createdAt b).

(** ** The document store and the model's middleware *)

(** What one request meets: the clock, the random part of a generated file
    name, whether the store refuses to commit a write, whether the
    statistics recomputation fails, and the process environment. *)
Record Env : Type := mkEnv {
  now : Z;
  random : Z;
  writeFault : bool;
  statsFault : bool;
  MAX_FILE_SIZE : option Z;
  GOOGLE_BOOKS_API_KEY : option string
}.

Record Db : Type := mkDb {
  books : list Book;
  users : gmap nat Stats;
  nextId : nat
}.

Inductive Thrown : Type :=
| ValidationError (errors : list Violation)
| StoreError.

(** The operations of the Book model that the routes call. *)
Inductive Op : Type := OpSave | OpFindOneAndUpdate | OpFindOneAndDelete.

(** The body shared by [bookSchema.post('save')] and
    [bookSchema.post('findOneAndDelete')]: look the owner up and, if found,
    call [updateStats]; any exception is caught and logged. *)
Definition post_updateStats (env : Env) (doc : Book) (db : Db) : Db :=
  match users db !! user doc with
  | Some old =>
      if statsFault env then db
      else mkDb (books db)
                (<[user doc := updateStats old (user doc) (books db)]> (users db))
                (nextId db)
  | None => db
  end.

(** [bookSchema.pre(op, ...)]: the hooks registered for each operation. *)
Definition bookSchema_pre (op : Op) : list (Z -> bool -> Book -> Book) :=
  match op with
  | OpSave => [pre_save]
  | OpFindOneAndUpdate => []
  | OpFindOneAndDelete => []
  end.

(** [bookSchema.post(op, ...)] *)
Definition bookSchema_post (op : Op) : list (Env -> Book -> Db -> Db) :=
  match op with
  | OpSave => [post_updateStats]
  | OpFindOneAndUpdate => []
  | OpFindOneAndDelete => [post_updateStats]
  end.

Definition run_pre (op : Op) (t : Z) (modifiedStatus : bool) (doc : Book) : Book :=
  fold_left (fun d hook => hook t modifiedStatus d) (bookSchema_pre op) doc.

Definition run_post (op : Op) (env : Env) (doc : Book) (db : Db) : Db :=
  fold_left (fun d hook => hook env doc d) (bookSchema_post op) db.

(** [Book.findOne({ _id: id, user: uid })] *)
Definition findOne (id uid : nat) (db : Db) : option Book :=
  List.find (fun b => Nat.eqb (_id b) id && Nat.eqb (user b) uid) (books db).

Definition replace_book (b' : Book) (l : list Book) : list Book :=
  map (fun b => if Nat.eqb (_id b) (_id b') then b' else b) l.

Definition remove_book (id : nat) (l : list Book) : list Book :=
  List.filter (fun b => negb (Nat.eqb (_id b) id)) l.

(** [new Book(fields)] for the fields a route passes; the document gets a
    fresh [_id] and, from [timestamps], its [createdAt]. *)
Definition new_Book (env : Env) (db : Db) (uid : nat) (u : Update)
    (cover : option string) : Book :=
  let c := cast_update u in
  mkBook (nextId db) uid (u_title c) (u_author c) (u_genre c)
    (match u_status c with Some s => s | None => "To Read" end)
    (u_description c) (u_isbn c) (u_publishedDate c)
    (match u_pageCount c with Some v => v | None => None end)
    (match u_rating c with Some v => v | None => None end)
    (u_notes c) cover
    (match u_tags c with Some l => l | None => [] end)
    (u_dateStarted c) (u_dateFinished c) (u_readingDuration c) (now env).

(** [doc.save()] of a new document: validation, the pre hooks of ['save'],
    the insert, the post hooks of ['save'].  [statusGiven] tells whether
    [status] was among the constructor's fields, which is what
    [isModified('status')] answers for a new document. *)
Definition Book_save (env : Env) (statusGiven : bool) (doc : Book) (db : Db)
    : Thrown + (Book * Db) :=
  match Schema.validate_doc doc with
  | _ :: _ as errs => inl (ValidationError errs)
  | [] =>
      let doc' := run_pre OpSave (now env) statusGiven doc in
      if writeFault env then inl StoreError
      else
        let db' := mkDb (books db ++ [doc']) (users db) (S (nextId db)) in
        inr (doc', run_post OpSave env doc' db')
  end.

(** [Book.findOneAndUpdate({ _id: id, user: uid }, { $set: u },
    { new: true, runValidators })] *)
Definition Book_findOneAndUpdate (env : Env) (id uid : nat) (u : Update)
    (runValidators : bool) (db : Db) : Thrown + (option Book * Db) :=
  let c := cast_update u in
  match (if runValidators then validate_update c else []) with
  | _ :: _ as errs => inl (ValidationError errs)
  | [] =>
      match findOne id uid db with
      | None => inr (None, db)
      | Some b =>
          if writeFault env then inl StoreError
          else
            let b' := run_pre OpFindOneAndUpdate (now env) true (apply_set c b) in
            let db' := mkDb (replace_book b' (books db)) (users db) (nextId db) in
            inr (Some b', run_post OpFindOneAndUpdate env b' db')
      end
  end.

(** [Book.findOneAndDelete({ _id: id, user: uid })] *)
Definition Book_findOneAndDelete (env : Env) (id uid : nat) (db : Db)
    : Thrown + (option Book * Db) :=
  match findOne id uid db with
  | None => inr (None, db)
  | Some b =>
      if writeFault env then inl StoreError
      else
        let db' := mkDb (remove_book id (books db)) (users db) (nextId db) in
        inr (Some b, run_post OpFindOneAndDelete env b db')
  end.

(** ** The upload middleware *)

Abbreviation Disk := (gset string).

Record FilePart : Type := mkFilePart {
  fieldname : string;
  originalname : string;
  mimetype : string;
  size : Z
}.

(** What the middleware hands to [next(err)]. *)
Inductive UploadError : Type :=
| MulterError (code : string)
| PlainError (message : string).

(** A result of the external search in the shape of a book submission. *)
Record ExternalBook : Type := mkExternalBook {
  e_title : string;
  e_author : string;
  e_genre : option string;
  e_description : string;
  e_isbn : option string;
  e_publishedDate : string;
  e_pageCount : option Z;
  e_coverImage : option string;
  e_language : string
}.

Inductive Payload : Type :=
| Message (message : string)
| ExternalBooks (l : list ExternalBook)
| ValidationDetails (message : string) (details : list Violation)
| BookCreated (message : string) (book : Book)
| BookUpdated (message : string) (book : Book)
| BookJson (book : Book)
| BookNull
| BookList (l : list Book)
| BookDeleted (message : string) (id : nat) (t a : option string).

Record Response : Type := mkResponse {
  code : nat;
  json : Payload
}.

Module Upload.

Fixpoint rindex (c : ascii) (s : string) : option nat :=
  match s with
  | EmptyString => None
  | String a r =>
      match rindex c r with
      | Some i => Some (S i)
      | None => if Ascii.eqb a c then Some 0 else None
      end
  end.

Definition basename (s : string) : string :=
  match rindex "/"%char s with
  | Some i => Str.drop (S i) s
  | None => s
  end.

(** [path.extname]: from the last dot of the base name, unless that dot
    opens the base name. *)
Definition extname (s : string) : string :=
  let base := basename s in
  if String.eqb base ".." then ""
  else match rindex "."%char base with
       | Some (S i) => Str.drop (S i) base
       | _ => ""
       end.

(** The [filename] callback of the disk storage. *)
Definition filename (env : Env) (file : FilePart) : string :=
  let uniqueSuffix := pretty (now env) ++ "-" ++ pretty (random env) in
  let extension := extname (originalname file) in
  "book-cover-" ++ uniqueSuffix ++ extension.

(** [fileFilter]: [true] accepts, [false] is the error branch. *)
Definition fileFilter (file : FilePart) : bool :=
  Str.startsWith "image/" (mimetype file).

(** [parseInt(process.env.MAX_FILE_SIZE) || 5 * 1024 * 1024];
    [MAX_FILE_SIZE] holds what [parseInt] returns, [None] for [NaN]. *)
Definition fileSize (env : Env) : Z :=
  match MAX_FILE_SIZE env with
  | Some n => if (n =? 0)%Z then 5 * 1024 * 1024 else n
  | None => 5 * 1024 * 1024
  end%Z.

(** [upload.single('coverImage')] on a request with at most one file
    part.  Multer checks the field name, then calls the file filter, then
    streams the file to the disk storage under the generated name; a
    stream that passes the size limit aborts the request and the file
    written so far is removed.  The result is what goes to [next] (an
    error, or [req.file.filename] if a file came) and the upload
    directory. *)
Definition uploadSingle (env : Env) (part : option FilePart) (disk : Disk)
    : (UploadError + option string) * Disk :=
  match part with
  | None => (inr None, disk)
  | Some file =>
      if negb (String.eqb (fieldname file) "coverImage")
      then (inl (MulterError "LIMIT_UNEXPECTED_FILE"), disk)
      else if negb (fileFilter file)
      then (inl (PlainError "Only image files are allowed!"), disk)
      else
        let written := {[ filename env file ]} ∪ disk in
        if (fileSize env <? size file)%Z
        then (inl (MulterError "LIMIT_FILE_SIZE"), written ∖ {[ filename env file ]})
        else (inr (Some (filename env file)), written)
  end.

(** [optimizeImage] replaces the stored file by its resized version under
    the same name, or leaves it when the resize fails: the names in the
    directory do not change. *)
Definition optimizeImage (file : option string) (disk : Disk) : Disk := disk.

(** [handleUploadError]; an error it does not know goes to [next(err)],
    where the framework's default handler answers 500. *)
Definition handleUploadError (err : UploadError) : Response :=
  match err with
  | MulterError "LIMIT_FILE_SIZE" =>
      mkResponse 400 (Message "File too large. Maximum size is 5MB.")
  | MulterError "LIMIT_FILE_COUNT" =>
      mkResponse 400 (Message "Too many files. Only one file allowed.")
  | MulterError "LIMIT_UNEXPECTED_FILE" =>
      mkResponse 400 (Message "Unexpected file field.")
  | PlainError "Only image files are allowed!" =>
      mkResponse 400 (Message "Only image files (JPEG, PNG, GIF, WebP) are allowed.")
  | _ => mkResponse 500 (Message "Internal Server Error")
  end.

(** [deleteUploadedFile] *)
Definition deleteUploadedFile (name : string) (disk : Disk) : Disk :=
  if Str.truthy name then disk ∖ {[ name ]} else disk.

End Upload.

(** ** The routes *)

Record World : Type := mkWorld {
  db : Db;
  disk : Disk
}.

(** A request that has passed the [auth] gate: [req.user._id],
    [req.params.id], the file part of the multipart body and its text
    fields. *)
Record Request : Type := mkRequest {
  req_user : nat;
  req_id : nat;
  req_part : option FilePart;
  req_body : Body
}.

(** [if (req.file) { deleteUploadedFile(req.file.filename); }] *)
Definition cleanup (file : option string) (d : Disk) : Disk :=
  match file with
  | Some name => Upload.deleteUploadedFile name d
  | None => d
  end.

(** [req.file ? `/uploads/${req.file.filename}` : null] *)
Definition cover_path (file : option string) : option string :=
  match file with
  | Some name => Some ("/uploads/" ++ name)
  | None => None
  end.

(** Removal of the cover file a stored book points to. *)
Definition delete_cover (b : Book) (d : Disk) : Disk :=
  match coverImage b with
  | Some c =>
      if Str.truthy c && Str.startsWith "/uploads/" c
      then Upload.deleteUploadedFile (Str.drop (String.length "/uploads/") c) d
      else d
  | None => d
  end.

(** The validated router. *)
Module Router.

(** [{ ...value }] as the fields of a document or of a [$set]. *)
Definition fields_of_value (v : Value) : Update :=
  mkUpdate (Some (v_title v)) (Some (v_author v)) (v_genre v)
    (Some (v_status v)) (v_description v) (v_isbn v) (v_publishedDate v)
    (option_map (fun z => Some (inject_Z z)) (v_pageCount v))
    (option_map (fun z => Some (inject_Z z)) (v_rating v))
    (v_notes v) (v_tags v) None None None None.

(** The handler of [router.post('/')]. *)
Definition post_handler (env : Env) (uid : nat) (file : option string)
    (body : Body) (w : World) : World * Response :=
  match Joi.validate body with
  | Joi.Error details =>
      (mkWorld (db w) (cleanup file (disk w)),
       mkResponse 400 (ValidationDetails "Validation error" details))
  | Joi.Ok value =>
      let coverImage := cover_path file in
      let book := new_Book env (db w) uid (fields_of_value value) coverImage in
      match Book_save env true book (db w) with
      | inr (book', db') =>
          (mkWorld db' (disk w),
           mkResponse 201 (BookCreated "Book added successfully" book'))
      | inl (ValidationError errors) =>
          (mkWorld (db w) (cleanup file (disk w)),
           mkResponse 400 (ValidationDetails "Validation error" errors))
      | inl StoreError =>
          (mkWorld (db w) (cleanup file (disk w)),
           mkResponse 500 (Message "Server error while adding book"))
      end
  end.

(** [router.get('/:id')] *)
Definition get_handler (uid id : nat) (w : World) : Response :=
  match findOne id uid (db w) with
  | None => mkResponse 404 (Message "Book not found")
  | Some book => mkResponse 200 (BookJson book)
  end.

(** The handler of [router.put('/:id')]. *)
Definition put_handler (env : Env) (uid id : nat) (file : option string)
    (body : Body) (w : World) : World * Response :=
  match Joi.validate body with
  | Joi.Error details =>
      (mkWorld (db w) (cleanup file (disk w)),
       mkResponse 400 (ValidationDetails "Validation error" details))
  | Joi.Ok value =>
      match findOne id uid (db w) with
      | None =>
          (mkWorld (db w) (cleanup file (disk w)),
           mkResponse 404 (Message "Book not found"))
      | Some existingBook =>
          let updateData := fields_of_value value in
          let '(updateData, disk1) :=
            match file with
            | Some name =>
                (mkUpdate (u_title updateData) (u_author updateData)
                   (u_genre updateData) (u_status updateData)
                   (u_description updateData) (u_isbn updateData)
                   (u_publishedDate updateData) (u_pageCount updateData)
                   (u_rating updateData) (u_notes updateData)
                   (u_tags updateData) (Some (cover_path file)) None None None,
                 delete_cover existingBook (disk w))
            | None => (updateData, disk w)
            end in
          match Book_findOneAndUpdate env id uid updateData true (db w) with
          | inr (Some book, db') =>
              (mkWorld db' disk1,
               mkResponse 200 (BookUpdated "Book updated successfully" book))
          | inr (None, db') =>
              (mkWorld db' disk1, mkResponse 200 BookNull)
          | inl (ValidationError errors) =>
              (mkWorld (db w) (cleanup file disk1),
               mkResponse 400 (ValidationDetails "Validation error" errors))
          | inl StoreError =>
              (mkWorld (db w) (cleanup file disk1),
               mkResponse 500 (Message "Server error while updating book"))
          end
      end
  end.

(** [router.delete('/:id')] *)
Definition delete_handler (env : Env) (uid id : nat) (w : World)
    : World * Response :=
  match Book_findOneAndDelete env id uid (db w) with
  | inr (None, _) => (w, mkResponse 404 (Message "Book not found"))
  | inr (Some book, db') =>
      (mkWorld db' (delete_cover book (disk w)),
       mkResponse 200 (BookDeleted "Book deleted successfully"
                         (_id book) (title book) (author book)))
  | inl _ => (w, mkResponse 500 (Message "Server error while deleting book"))
  end.

(** A route with the upload chain in front:
    [auth, uploadSingle, optimizeImage, handler], with
    [handleUploadError] taking what the chain passes to [next(err)]. *)
Definition with_upload (env : Env) (part : option FilePart)
    (handler : option string -> World -> World * Response) (w : World)
    : World * Response :=
  match Upload.uploadSingle env part (disk w) with
  | (inl err, d) => (mkWorld (db w) d, Upload.handleUploadError err)
  | (inr file, d) => handler file (mkWorld (db w) (Upload.optimizeImage file d))
  end.

Definition POST (env : Env) (req : Request) (w : World) : World * Response :=
  with_upload env (req_part req)
    (fun file => post_handler env (req_user req) file (req_body req)) w.

Definition PUT (env : Env) (req : Request) (w : World) : World * Response :=
  with_upload env (req_part req)
    (fun file => put_handler env (req_user req) (req_id req) file (req_body req)) w.

Definition GET (req : Request) (w : World) : Response :=
  get_handler (req_user req) (req_id req) w.

Definition DELETE (env : Env) (req : Request) (w : World) : World * Response :=
  delete_handler env (req_user req) (req_id req) w.

End Router.

(** The older router, [backend/routes/books.js]: the bodies of its
    handlers.  Its create and update routes are registered with
    [upload.single('coverImage')], where [upload] is the export of the
    upload module, whose [single] is the middleware that the module has
    built already: the call hands that middleware a string in place of a
    request and builds none.  The handlers take the file as given. *)
Module LegacyRouter.

(** Mongoose casts the value of a [Number] path: the empty text becomes
    [null], a numeral becomes its number, whole or not, and any other
    text is a cast error ([None]).  A field that is absent gives no
    key. *)
Definition cast_num (v : NumField) : option (option (option Q)) :=
  match v with
  | NumAbsent => Some None
  | NumEmpty => Some (Some None)
  | NumInvalid => None
  | NumNum q => Some (Some (Some q))
  end.

(** [{ title, author, genre, status, coverImage, ...others }]: every
    field of the body is passed on; a key whose value is [undefined] is
    left out. *)
Definition fields_of_body (b : Body) (coverImage : option string) : option Update :=
  match cast_num (b_pageCount b), cast_num (b_rating b) with
  | Some pc, Some r =>
      Some (mkUpdate (b_title b) (b_author b) (b_genre b) (b_status b)
              (b_description b) (b_isbn b) (b_publishedDate b) pc r
              (b_notes b) (b_tags b) (Some coverImage)
              (b_dateStarted b) (b_dateFinished b) (b_readingDuration b))
  | _, _ => None
  end.

(** The handler of [router.post('/')]; [file] is [req.file.filename]. *)
Definition post_handler (env : Env) (uid : nat) (file : option string)
    (body : Body) (w : World) : World * Response :=
  let coverImage := cover_path file in
  match fields_of_body body coverImage with
  | None => (w, mkResponse 500 (Message "Server error"))
  | Some fields =>
      let book := new_Book env (db w) uid fields coverImage in
      match Book_save env (negb (unset (b_status body))) book (db w) with
      | inr (book', db') => (mkWorld db' (disk w), mkResponse 201 (BookJson book'))
      | inl _ => (w, mkResponse 500 (Message "Server error"))
      end
  end.

(** [router.get('/:id')] *)
Definition get_handler (uid id : nat) (w : World) : Response :=
  match findOne id uid (db w) with
  | None => mkResponse 404 (Message "Book not found")
  | Some book => mkResponse 200 (BookJson book)
  end.

(** The handler of [router.put('/:id')]. *)
Definition put_handler (env : Env) (uid id : nat) (file : option string)
    (body : Body) (w : World) : World * Response :=
  let coverImage := cover_path file in
  match fields_of_body body coverImage with
  | None => (w, mkResponse 500 (Message "Server error"))
  | Some fields =>
      match Book_findOneAndUpdate env id uid fields false (db w) with
      | inr (None, _) => (w, mkResponse 404 (Message "Book not found"))
      | inr (Some book, db') => (mkWorld db' (disk w), mkResponse 200 (BookJson book))
      | inl _ => (w, mkResponse 500 (Message "Server error"))
      end
  end.

(** [router.delete('/:id')] *)
Definition delete_handler (env : Env) (uid id : nat) (w : World)
    : World * Response :=
  match Book_findOneAndDelete env id uid (db w) with
  | inr (None, _) => (w, mkResponse 404 (Message "Book not found"))
  | inr (Some _, db') => (mkWorld db' (disk w), mkResponse 200 (Message "Book removed"))
  | inl _ => (w, mkResponse 500 (Message "Server error"))
  end.

End LegacyRouter.

(** ** Search over the caller's books *)

Module RegExp.

(** [new RegExp(query, 'i')] and the match of the pattern against a
    stored string.  The pattern syntax that is modelled: characters that
    stand for themselves, [.], the escapes [\d \D \w \W \s \S], the
    escape of a character that is neither a letter nor a digit, groups
    [( )] and [(?: )], alternatives, the quantifiers [* + ?] with or
    without a lazy [?], and the assertions [^] and [$].  A query with a
    character class, a brace, another escaped letter or digit, or a group
    that opens with [(?] and is not [(?: )] is outside the model.  On the
    modelled part the store's engine and JavaScript's agree, but for a
    carriage return under [.] and a last line feed before [$], which are
    taken here as JavaScript takes them. *)
Inductive Class : Type := Digit | Word | Space.

Inductive Re : Type :=
| Empty
| Char (c : ascii)
| AnyChar
| ClassEscape (k : Class) (complement : bool)
| Bol
| Eol
| Seq (a b : Re)
| Alt (a b : Re)
| Star (a : Re).

(** What the constructor does with a query: a pattern, a [SyntaxError],
    or a query outside the modelled syntax. *)
Inductive Compiled : Type :=
| Pattern (r : Re)
| SyntaxError
| Unsupported.

Definition syntax_chars : string := "\^$.|?*+()[]{}".

Fixpoint mem (c : ascii) (s : string) : bool :=
  match s with
  | EmptyString => false
  | String a r => Ascii.eqb a c || mem c r
  end.

(** What the parser holds of the group it is in: the alternatives that
    are complete and the terms of the current one, latest first. *)
Record Frame : Type := mkFrame {
  alts : list Re;
  terms : list Re
}.

(** What the last term lets follow: nothing that repeats, a quantifier,
    a lazy mark, or neither. *)
Inductive Prev : Type := NoAtom | Atom | Quantified | Lazy.

(** Where the parser is: between terms, after a backslash, after the
    parenthesis that opens a group, after [(?]. *)
Inductive Mode : Type := Plain | Escaped | Opened | OpenedQ.

Record State : Type := mkState {
  outer : list Frame;
  top : Frame;
  prev : Prev;
  mode : Mode
}.

Definition seq_of (ts : list Re) : Re :=
  fold_left (fun acc t => Seq t acc) ts Empty.

Definition alt_of (f : Frame) : Re :=
  fold_left (fun acc a => Alt a acc) (alts f) (seq_of (terms f)).

Definition push (t : Re) (p : Prev) (st : State) : State :=
  mkState (outer st) (mkFrame (alts (top st)) (t :: terms (top st))) p Plain.

Definition set_mode (m : Mode) (st : State) : State :=
  mkState (outer st) (top st) (prev st) m.

(** A quantifier applies to the atom before it; with no atom there, there
    is nothing to repeat. *)
Definition quantify (f : Re -> Re) (st : State) : State + Compiled :=
  match prev st, terms (top st) with
  | Atom, t :: rest =>
      inl (mkState (outer st) (mkFrame (alts (top st)) (f t :: rest)) Quantified Plain)
  | _, _ => inr SyntaxError
  end.

Definition is_alnum (c : ascii) : bool :=
  let n := nat_of_ascii c in
  Str.is_digit c || (Nat.leb 65 n && Nat.leb n 90) || (Nat.leb 97 n && Nat.leb n 122).

(** One character of the query. *)
Definition feed (st : State) (c : ascii) : State + Compiled :=
  match mode st with
  | Escaped =>
      if Ascii.eqb "d" c then inl (push (ClassEscape Digit false) Atom st)
      else if Ascii.eqb "D" c then inl (push (ClassEscape Digit true) Atom st)
      else if Ascii.eqb "w" c then inl (push (ClassEscape Word false) Atom st)
      else if Ascii.eqb "W" c then inl (push (ClassEscape Word true) Atom st)
      else if Ascii.eqb "s" c then inl (push (ClassEscape Space false) Atom st)
      else if Ascii.eqb "S" c then inl (push (ClassEscape Space true) Atom st)
      else if is_alnum c then inr Unsupported
      else inl (push (Char c) Atom st)
  | OpenedQ =>
      if Ascii.eqb ":" c then inl (set_mode Plain st) else inr Unsupported
  | Opened | Plain =>
      if Ascii.eqb "\" c then inl (set_mode Escaped st)
      else if Ascii.eqb "(" c then
        inl (mkState (top st :: outer st) (mkFrame [] []) NoAtom Opened)
      else if Ascii.eqb ")" c then
        match outer st with
        | [] => inr SyntaxError
        | f :: fs =>
            inl (mkState fs (mkFrame (alts f) (alt_of (top st) :: terms f)) Atom Plain)
        end
      else if Ascii.eqb "|" c then
        inl (mkState (outer st)
               (mkFrame (seq_of (terms (top st)) :: alts (top st)) []) NoAtom Plain)
      else if Ascii.eqb "*" c then quantify Star st
      else if Ascii.eqb "+" c then quantify (fun t => Seq t (Star t)) st
      else if Ascii.eqb "?" c then
        match mode st, prev st with
        | Opened, _ => inl (set_mode OpenedQ st)
        | _, Quantified => inl (mkState (outer st) (top st) Lazy Plain)
        | _, _ => quantify (fun t => Alt t Empty) st
        end
      else if Ascii.eqb "^" c then inl (push Bol NoAtom st)
      else if Ascii.eqb "$" c then inl (push Eol NoAtom st)
      else if Ascii.eqb "." c then inl (push AnyChar Atom st)
      else if Ascii.eqb "[" c || Ascii.eqb "{" c then inr Unsupported
      else inl (push (Char c) Atom st)
  end.

(** The end of the query: a backslash with nothing after it and a group
    that is still open are errors. *)
Definition finish (st : State) : Compiled :=
  match mode st, outer st with
  | Plain, [] => Pattern (alt_of (top st))
  | _, _ => SyntaxError
  end.

Fixpoint parse (st : State) (query : string) : Compiled :=
  match query with
  | EmptyString => finish st
  | String c r =>
      match feed st c with
      | inl st' => parse st' r
      | inr e => e
      end
  end.

(** [new RegExp(query, 'i')] *)
Definition compile (query : string) : Compiled :=
  parse (mkState [] (mkFrame [] []) NoAtom Plain) query.

Definition line_terminator (c : ascii) : bool :=
  let n := nat_of_ascii c in Nat.eqb n 10 || Nat.eqb n 13.

Definition class_has (k : Class) (c : ascii) : bool :=
  match k with
  | Digit => Str.is_digit c
  | Word => is_alnum c || Ascii.eqb "_" c
  | Space => Str.is_space c
  end.

(** The pattern matches a prefix of [s], and [k] accepts what follows.
    [bol] tells whether [s] is the whole string.  An iteration of a star
    that takes no character is not repeated. *)
Fixpoint match_at (r : Re) (bol : bool) (s : string)
    (k : bool -> string -> bool) : bool :=
  match r with
  | Empty => k bol s
  | Char x =>
      match s with
      | String c s' => Ascii.eqb (Str.lower x) (Str.lower c) && k false s'
      | EmptyString => false
      end
  | AnyChar =>
      match s with
      | String c s' => negb (line_terminator c) && k false s'
      | EmptyString => false
      end
  | ClassEscape cl complement =>
      match s with
      | String c s' => xorb complement (class_has cl c) && k false s'
      | EmptyString => false
      end
  | Bol => bol && k bol s
  | Eol =>
      match s with
      | EmptyString => k bol s
      | String _ _ => false
      end
  | Seq a b => match_at a bol s (fun bol' s' => match_at b bol' s' k)
  | Alt a b => match_at a bol s k || match_at b bol s k
  | Star a =>
      (fix loop (fuel : nat) (bol : bool) (s : string) : bool :=
         k bol s
         || match fuel with
            | O => false
            | S fuel' =>
                match_at a bol s
                  (fun bol' s' =>
                     Nat.ltb (String.length s') (String.length s)
                     && loop fuel' bol' s')
            end) (String.length s) bol s
  end.

Fixpoint search (r : Re) (bol : bool) (s : string) : bool :=
  match_at r bol s (fun _ _ => true)
  || match s with
     | EmptyString => false
     | String _ s' => search r false s'
     end.

(** [re.test(s)]: the pattern matches somewhere in [s]. *)
Definition test (r : Re) (s : string) : bool := search r true s.

End RegExp.

(** [createdAt: -1] *)
Definition newer_first (a b : Book) : Prop := (createdAt b <= createdAt a)%Z.

#[global] Instance newer_first_dec (a b : Book) : Decision (newer_first a b).
Proof. unfold newer_first. apply _. Defined.

Module Search.

Definition field_matches (re : RegExp.Re) (v : option string) : bool :=
  match v with
  | Some s => RegExp.test re s
  | None => false
  end.

(** The [$or] of the six conditions. *)
Definition book_matches (re : RegExp.Re) (b : Book) : bool :=
  field_matches re (title b)
  || field_matches re (author b)
  || field_matches re (genre b)
  || field_matches re (description b)
  || field_matches re (notes b)
  || existsb (RegExp.test re) (tags b).

(** [Book.find({ user, $or: [...] }).sort({ createdAt: -1 })] *)
Definition find (uid : nat) (re : RegExp.Re) (l : list Book) : list Book :=
  merge_sort newer_first
    (List.filter (fun b => Nat.eqb (user b) uid && book_matches re b) l).

(** [router.get('/search')]; [query] is [req.query.query].  The
    constructor's [SyntaxError] is caught by the route's [catch] block.
    [None] marks a query outside the modelled pattern syntax. *)
Definition search_handler (uid : nat) (query : option string) (w : World)
    : option Response :=
  match query with
  | None => Some (mkResponse 400 (Message "Query is required"))
  | Some q =>
      if negb (Str.truthy q)
      then Some (mkResponse 400 (Message "Query is required"))
      else match RegExp.compile q with
           | RegExp.Pattern searchRegex =>
               Some (mkResponse 200 (BookList (find uid searchRegex (books (db w)))))
           | RegExp.SyntaxError =>
               Some (mkResponse 500 (Message "Server error during search"))
           | RegExp.Unsupported => None
           end
  end.

End Search.

(** ** The list route *)

Module Collection.

(** [router.get('/')]: [Book.find({ user }).sort({ createdAt: -1 })]. *)
Definition list_handler (uid : nat) (w : World) : Response :=
  mkResponse 200
    (BookList (merge_sort newer_first
                 (List.filter (fun b => Nat.eqb (user b) uid) (books (db w))))).

End Collection.

(** ** The external search route *)

Module External.

(** [item.volumeInfo] of the catalogue's answer. *)
Record VolumeInfo : Type := mkVolumeInfo {
  vi_title : option string;
  vi_authors : option (list string);
  vi_categories : option (list string);
  vi_description : option string;
  vi_industryIdentifiers : option (list (string * string));
  vi_publishedDate : option string;
  vi_pageCount : option Z;
  vi_imageLinks : option (option string * option string);
  vi_language : option string
}.

(** The outbound request: the query, [maxResults] and the key of the
    URL. *)
Record Lookup : Type := mkLookup {
  q : string;
  maxResults : nat;
  key : string
}.

(** What the catalogue does with a lookup: the call throws ([None]), or
    answers with or without [items]. *)
Definition Upstream : Type := Lookup -> option (option (list VolumeInfo)).

(** [v || d] on strings. *)
Definition or_else (v : option string) (d : string) : string :=
  match v with
  | Some s => if Str.truthy s then s else d
  | None => d
  end.

Definition truthy_opt (v : option string) : option string :=
  match v with
  | Some s => if Str.truthy s then Some s else None
  | None => None
  end.

(** [l.join(', ')] *)
Fixpoint join (l : list string) : string :=
  match l with
  | [] => ""
  | [x] => x
  | x :: r => x ++ ", " ++ join r
  end.

(** [ids.find(id => id.type === 'ISBN_13')?.identifier ||
    ids[0]?.identifier] on (type, identifier) pairs. *)
Definition pick_isbn (ids : list (string * string)) : option string :=
  match truthy_opt (option_map snd (List.find (fun id => String.eqb (fst id) "ISBN_13") ids)) with
  | Some i => Some i
  | None => option_map snd (hd_error ids)
  end.

(** The callback of [response.data.items.map]. *)
Definition normalize (book : VolumeInfo) : ExternalBook :=
  mkExternalBook
    (or_else (vi_title book) "Unknown Title")
    (match vi_authors book with Some a => join a | None => "Unknown Author" end)
    (match vi_categories book with Some c => hd_error c | None => Some "" end)
    (or_else (vi_description book) "")
    (match vi_industryIdentifiers book with Some ids => pick_isbn ids | None => Some "" end)
    (or_else (vi_publishedDate book) "")
    (match vi_pageCount book with
     | Some n => if (n =? 0)%Z then None else Some n
     | None => None
     end)
    (match vi_imageLinks book with
     | Some (thumbnail, smallThumbnail) =>
         match truthy_opt thumbnail with
         | Some t => Some t
         | None => smallThumbnail
         end
     | None => None
     end)
    (or_else (vi_language book) "en").

(** [router.get('/search-external')]: the response and the lookups sent
    to the catalogue. *)
Definition search_external (env : Env) (upstream : Upstream)
    (query : option string) : Response * list Lookup :=
  if negb (Str.truthy (or_else query ""))
  then (mkResponse 400 (Message "Query is required"), [])
  else
    match truthy_opt (GOOGLE_BOOKS_API_KEY env) with
    | None => (mkResponse 500 (Message "Google Books API not configured"), [])
    | Some k =>
        let call := mkLookup (or_else query "") 10 k in
        match upstream call with
        | None =>
            (mkResponse 500 (Message "Error searching external book database"), [call])
        | Some None => (mkResponse 200 (ExternalBooks []), [call])
        | Some (Some items) =>
            (mkResponse 200 (ExternalBooks (map normalize items)), [call])
        end
    end.

End External.

(** ** Histories of requests *)

(** A call of one of the mutating routes, with what it meets. *)
Inductive Call : Type :=
| CallPost (env : Env) (req : Request)
| CallPut (env : Env) (req : Request)
| CallDelete (env : Env) (req : Request)
| CallLegacyPost (env : Env) (uid : nat) (file : option string) (body : Body)
| CallLegacyPut (env : Env) (uid id : nat) (file : option string) (body : Body)
| CallLegacyDelete (env : Env) (uid id : nat).

Definition step (w : World) (c : Call) : World :=
  match c with
  | CallPost env req => fst (Router.POST env req w)
  | CallPut env req => fst (Router.PUT env req w)
  | CallDelete env req => fst (Router.DELETE env req w)
  | CallLegacyPost env uid file body => fst (LegacyRouter.post_handler env uid file body w)
  | CallLegacyPut env uid id file body => fst (LegacyRouter.put_handler env uid id file body w)
  | CallLegacyDelete env uid id => fst (LegacyRouter.delete_handler env uid id w)
  end.

Definition run (w : World) (cs : list Call) : World := fold_left step cs w.

(** The body of an update through the older router carries the path. *)
Definition sets_dateStarted (c : Call) : bool :=
  match c with
  | CallLegacyPut _ _ _ _ body => negb (unset (b_dateStarted body))
  | _ => false
  end.

Definition sets_dateFinished (c : Call) : bool :=
  match c with
  | CallLegacyPut _ _ _ _ body => negb (unset (b_dateFinished body))
  | _ => false
  end.

(** The body of an update through the older router, which runs no
    validators, carries a status outside the enum. *)
Definition sets_foreign_status (c : Call) : bool :=
  match c with
  | CallLegacyPut _ _ _ _ body =>
      match b_status body with
      | Some s => negb (in_status_enum s)
      | None => false
      end
  | _ => false
  end.

Definition book_by_id (id : nat) (w : World) : option Book :=
  List.find (fun b => Nat.eqb (_id b) id) (books (db w)).

(** Identifiers are unique and below the next one to be given out. *)
Fixpoint distinct_ids (l : list Book) : bool :=
  match l with
  | [] => true
  | b :: r => negb (existsb (fun x => Nat.eqb (_id x) (_id b)) r) && distinct_ids r
  end.

Definition db_wf (d : Db) : bool :=
  distinct_ids (books d) && forallb (fun b => Nat.ltb (_id b) (nextId d)) (books d).

(** How one call changes the collection: not at all, by one insert of a
    validated document under the next identifier, by a [$set] on a stored
    book, or by a removal.  [Pu] is what is known of the update. *)
Inductive db_change (Pu : Update -> Prop) (d d' : Db) : Prop :=
| change_none
    (Hb : books d' = books d) (Hn : nextId d' = nextId d)
| change_insert (doc : Book)
    (Hid : _id doc = nextId d)
    (Hs : in_status_enum (status doc) = true)
    (Hb : books d' = (books d ++ [doc])%list) (Hn : nextId d' = S (nextId d))
| change_update (b : Book) (u : Update)
    (Hin : In b (books d)) (Hu : Pu u)
    (Hb : books d' = replace_book (apply_set u b) (books d))
    (Hn : nextId d' = nextId d)
| change_remove (id : nat)
    (Hb : books d' = remove_book id (books d)) (Hn : nextId d' = nextId d).

(** A status of an update is absent or one of the enum's values. *)
Definition status_in_enum (v : option string) : Prop :=
  match v with
  | Some s => in_status_enum s = true
  | None => True
  end.

(** What a call's update leaves alone. *)
Definition spares (c : Call) (u : Update) : Prop :=
  (sets_dateStarted c = false -> u_dateStarted u = None)
  /\ (sets_dateFinished c = false -> u_dateFinished u = None)
  /\ (sets_foreign_status c = false -> status_in_enum (u_status u)).

(** Every stored book has one of the enum's values as its status. *)
Definition all_enum (d : Db) : Prop :=
  forall b, In b (books d) -> in_status_enum (status b) = true.

(** Every stored book with identifier [id] satisfies [Q], and [id] has
    been given out. *)
Definition holds_for (id : nat) (Q : Book -> Prop) (d : Db) : Prop :=
  id < nextId d /\ forall b, In b (books d) -> _id b = id -> Q b.

(** A call of the validated router. *)
Definition validated (c : Call) : bool :=
  match c with
  | CallPost _ _ | CallPut _ _ | CallDelete _ _ => true
  | _ => false
  end.

(** How one call of the validated router changes the collection: not at
    all, by one insert of a document that has at most one of the two
    dates and no duration, by the replacement of a stored book by one
    with the same identifier, owner, dates and duration, or by a
    removal. *)
Inductive router_change (d d' : Db) : Prop :=
| router_none
    (Hb : books d' = books d) (Hn : nextId d' = nextId d)
| router_insert (doc : Book)
    (Hid : _id doc = nextId d)
    (Hdates : dateStarted doc = None \/ dateFinished doc = None)
    (Hdur : readingDuration doc = None)
    (Hb : books d' = (books d ++ [doc])%list) (Hn : nextId d' = S (nextId d))
| router_update (b b' : Book)
    (Hin : In b (books d)) (Hid : _id b' = _id b) (Hu : user b' = user b)
    (Hs : dateStarted b' = dateStarted b) (Hf : dateFinished b' = dateFinished b)
    (Hr : readingDuration b' = readingDuration b)
    (Hb : books d' = replace_book b' (books d)) (Hn : nextId d' = nextId d)
| router_remove (id : nat)
    (Hb : books d' = remove_book id (books d)) (Hn : nextId d' = nextId d).


(** ** What the search is compared with *)

Fixpoint lower_string (s : string) : string :=
  match s with
  | EmptyString => EmptyString
  | String c r => String (Str.lower c) (lower_string r)
  end.

(** [q] occurs in [s] as a substring, case-insensitively. *)
Definition occurs_ci (q s : string) : Prop :=
  exists pre post, lower_string s = pre ++ lower_string q ++ post.

Definition occurs_in_field (q : string) (v : option string) : Prop :=
  exists s, v = Some s /\ occurs_ci q s.

Definition occurs_in_book (q : string) (b : Book) : Prop :=
  occurs_in_field q (title b) \/ occurs_in_field q (author b)
  \/ occurs_in_field q (genre b) \/ occurs_in_field q (description b)
  \/ occurs_in_field q (notes b)
  \/ exists t, In t (tags b) /\ occurs_ci q t.

(** The pattern whose terms are the characters of [q], each standing for
    itself. *)
Fixpoint literals (q : string) : RegExp.Re :=
  match q with
  | EmptyString => RegExp.Empty
  | String c r => RegExp.Seq (RegExp.Char c) (literals r)
  end.

(** [q] is a prefix of [s], case-insensitively. *)
Definition prefix_ci (q s : string) : Prop :=
  exists post, lower_string s = lower_string q ++ post.

(** A query without characters of the pattern syntax. *)
Definition literal_query (q : string) : bool :=
  Str.forallb (fun c => negb (RegExp.mem c RegExp.syntax_chars)) q.

(** ** The auth middleware *)

Module Auth.

(** What [jwt.verify(token, secret)] does: it returns the payload, whose
    [userId] may be missing, or throws an error with one of the names the
    middleware tells apart. *)
Inductive VerifyResult : Type :=
| Decoded (userId : option nat)
| TokenExpiredError
| JsonWebTokenError
| OtherError.

Definition denied (message : string) : Response :=
  mkResponse 401 (Message message).

Section Middleware.

(** The token library and [process.env.JWT_SECRET]. *)
Variable jwt_verify : string -> option string -> VerifyResult.
Variable JWT_SECRET : option string.

(** [User.findById(id)]: the identifier of the user document, if
    there is one. *)
Definition findById (id : option nat) (d : Db) : option nat :=
  match id with
  | Some u => match users d !! u with Some _ => Some u | None => None end
  | None => None
  end.

(** [auth]: a response, or [next()] with [req.user] set. *)
Definition auth (authHeader : option string) (d : Db) : Response + nat :=
  match authHeader with
  | None => inl (denied "No token provided, authorization denied")
  | Some h =>
      if negb (Str.truthy h) || negb (Str.startsWith "Bearer " h)
      then inl (denied "No token provided, authorization denied")
      else
        let token := Str.drop 7 h in
        if negb (Str.truthy token)
        then inl (denied "No token provided, authorization denied")
        else
          match jwt_verify token JWT_SECRET with
          | Decoded userId =>
              match findById userId d with
              | Some user => inr user
              | None => inl (denied "User not found, authorization denied")
              end
          | TokenExpiredError => inl (denied "Token has expired")
          | JsonWebTokenError => inl (denied "Invalid token")
          | OtherError => inl (denied "Token verification failed")
          end
  end.

End Middleware.

End Auth.

(** ** The table of GET routes of the validated router *)

Module Routes.

Inductive Handler : Type :=
| SearchExternal
| SearchOwn
| ListOwn
| GetById
| GetStats
| GetGenres
| GetAuthors.

(** A route path: [/], a fixed segment, or [/:id]. *)
Inductive Pattern : Type :=
| Root
| Segment (name : string)
| Param.

(** [router.get(path, ...)] in the order of registration. *)
Definition get_routes : list (Pattern * Handler) :=
  [ (Segment "search-external", SearchExternal);
    (Segment "search", SearchOwn);
    (Root, ListOwn);
    (Param, GetById);
    (Segment "stats", GetStats);
    (Segment "genres", GetGenres);
    (Segment "authors", GetAuthors) ].

(** A request path below the mount point, as its non-empty segments.
    Fixed segments are compared without regard to case, as a router
    made by [express.Router()] does. *)
Definition pattern_matches (p : Pattern) (path : list string) : bool :=
  match p, path with
  | Root, [] => true
  | Segment name, [s] => String.eqb (lower_string s) (lower_string name)
  | Param, [s] => Str.truthy s
  | _, _ => false
  end.

(** The first route that matches handles the request. *)
Definition dispatch (path : list string) : option Handler :=
  option_map snd (List.find (fun r => pattern_matches (fst r) path) get_routes).

End Routes.

(** ** Resubmitting a validated value *)

(** The body that carries exactly the fields of a validated value. *)
Definition body_of_value (v : Value) : Body :=
  mkBody (Some (v_title v)) (Some (v_author v)) (v_genre v) (Some (v_status v))
    (v_description v) (v_isbn v) (v_publishedDate v)
    (match v_pageCount v with Some z => NumNum (inject_Z z) | None => NumAbsent end)
    (match v_rating v with Some z => NumNum (inject_Z z) | None => NumAbsent end)
    (v_notes v) (v_tags v) None None None.


(** ** The dashboard page *)

Module Dashboard.

(** [s.includes(q)] *)
Fixpoint includes (q s : string) : bool :=
  Str.startsWith q s
  || match s with
     | EmptyString => false
     | String _ r => includes q r
     end.

(** The callback of [books.filter] in [filteredBooks].  [None] stands for
    the [TypeError] that [toLowerCase] raises on a title or an author that
    is missing; the second operand of [||] is evaluated only when the
    first is false. *)
Definition keeps (searchTerm statusFilter authorFilter : string) (book : Book)
    : option bool :=
  match title book with
  | None => None
  | Some t =>
      let bySearch :=
        if includes (lower_string searchTerm) (lower_string t) then Some true
        else match author book with
             | Some a => Some (includes (lower_string searchTerm) (lower_string a))
             | None => None
             end in
      match bySearch with
      | None => None
      | Some matchesSearch =>
          let matchesStatus :=
            negb (Str.truthy statusFilter) || String.eqb (status book) statusFilter in
          let byAuthor :=
            if negb (Str.truthy authorFilter) then Some true
            else match author book with
                 | Some a => Some (includes (lower_string authorFilter) (lower_string a))
                 | None => None
                 end in
          match byAuthor with
          | None => None
          | Some matchesAuthor => Some (matchesSearch && matchesStatus && matchesAuthor)
          end
      end
  end.

(** [filteredBooks]: the books the page shows. *)
Fixpoint filteredBooks (searchTerm statusFilter authorFilter : string)
    (books : list Book) : option (list Book) :=
  match books with
  | [] => Some []
  | book :: rest =>
      match keeps searchTerm statusFilter authorFilter book with
      | None => None
      | Some keep =>
          match filteredBooks searchTerm statusFilter authorFilter rest with
          | None => None
          | Some shown => Some (if keep then book :: shown else shown)
          end
      end
  end.

(** [getStatusCounts]: the object that [reduce] builds, as a map from the
    status to its counter. *)
Definition getStatusCounts (books : list Book) : gmap string nat :=
  fold_left
    (fun acc book => <[ status book := default 0 (acc !! status book) + 1 ]> acc)
    books ∅.

(** [statusCounts[s] || 0], the number on a chip. *)
Definition chip (statusCounts : gmap string nat) (s : string) : nat :=
  default 0 (statusCounts !! s).

End Dashboard.

(** ** The book form and the client's create and update calls *)

Module BookForm.

(** [formData].  A number input holds the empty text or a numeral. *)
Record FormData : Type := mkFormData {
  f_title : string;
  f_author : string;
  f_genre : string;
  f_status : string;
  f_description : string;
  f_isbn : string;
  f_publishedDate : string;
  f_pageCount : NumField;
  f_rating : NumField;
  f_notes : string;
  f_coverImage : option FilePart
}.

(** [book?.pageCount || ''] *)
Definition number_or_empty (v : option Q) : NumField :=
  match v with
  | Some q => if Qeq_bool q 0 then NumEmpty else NumNum q
  | None => NumEmpty
  end.

(** The initial state of the form, for a new book or for [book]. *)
Definition initial (book : option Book) : FormData :=
  let text (field : Book -> option string) (d : string) :=
    match book with
    | Some b => External.or_else (field b) d
    | None => d
    end in
  mkFormData (text title "") (text author "") (text genre "")
    (match book with
     | Some b => if Str.truthy (status b) then status b else "To Read"
     | None => "To Read"
     end)
    (text description "") (text isbn "") (text publishedDate "")
    (match book with Some b => number_or_empty (pageCount b) | None => NumEmpty end)
    (match book with Some b => number_or_empty (rating b) | None => NumEmpty end)
    (text notes "") None.

(** What [createBook] and [updateBook] send: every key of the form data
    is appended to the multipart body; a chosen file goes as the file
    part [coverImage], and without one the key carries the text [null],
    which no schema reads. *)
Definition request (uid id : nat) (f : FormData) : Request :=
  mkRequest uid id
    (match f_coverImage f with
     | Some file =>
         Some (mkFilePart "coverImage" (originalname file) (mimetype file) (size file))
     | None => None
     end)
    (mkBody (Some (f_title f)) (Some (f_author f)) (Some (f_genre f))
       (Some (f_status f)) (Some (f_description f)) (Some (f_isbn f))
       (Some (f_publishedDate f)) (f_pageCount f) (f_rating f) (Some (f_notes f))
       None None None None).

End BookForm.

(** ** Sample data *)

Definition env0 : Env := mkEnv 1000 7 false false None None.

Definition no_body : Body :=
  mkBody None None None None None None None NumAbsent NumAbsent None None
    None None None.

Definition body_of (t a s : string) : Body :=
  mkBody (Some t) (Some a) None (Some s) None None None NumAbsent NumAbsent
    None None None None None.

Definition sample_book (id uid : nat) (t s : string) (created : Z) : Book :=
  mkBook id uid (Some t) (Some "Herbert") None s None None None None None None
    None [] None None None created.

Definition empty_db : Db := mkDb [] {[ 1 := stats_default; 2 := stats_default ]} 0.

Definition shelf : list Book :=
  [ sample_book 0 1 "Dune" "Read" 10; sample_book 1 2 "Emma" "Reading" 20;
    sample_book 2 1 "Ulysses" "To Read" 30; sample_book 3 1 "Solaris" "Read" 40 ].

(** A world with one book of user 1, created with status "To Read" through
    the validated router at time 1000. *)
Definition one_book : World :=
  fst (Router.post_handler env0 1 None (body_of "Dune" "Herbert" "To Read")
         (mkWorld empty_db ∅)).

Definition later : Env := mkEnv 5000 7 false false None None.

Definition with_statsFault (f : bool) (env : Env) : Env :=
  mkEnv (now env) (random env) (writeFault env) f (MAX_FILE_SIZE env)
    (GOOGLE_BOOKS_API_KEY env).

(** A world with one book of user 1, created with status "Reading" through
    the validated router at time 1000. *)
Definition reading_book : World :=
  fst (Router.post_handler env0 1 None (body_of "Dune" "Herbert" "Reading")
         (mkWorld empty_db ∅)).

Definition plain_request (uid id : nat) (body : Body) : Request :=
  mkRequest uid id None body.

(** Status changes and other calls through the validated router. *)
Definition sample_history : list Call :=
  [ CallPut later (plain_request 1 0 (body_of "Dune" "Herbert" "Reading"));
    CallPut later (plain_request 1 0 (body_of "Dune" "Herbert" "To Read"));
    CallPost later (plain_request 1 0 (body_of "Emma" "Austen" "Reading"));
    CallPut later (plain_request 1 0 (body_of "Dune" "F. Herbert" "Read"));
    CallDelete later (plain_request 1 1 no_body) ].


(** An image of 8 MB and a text file, both under the field the route
    expects. *)
Definition big_png : FilePart :=
  mkFilePart "coverImage" "cover.png" "image/png" (8 * 1024 * 1024).

Definition text_file : FilePart :=
  mkFilePart "coverImage" "notes.txt" "text/plain" 12.

Definition small_png : FilePart :=
  mkFilePart "coverImage" "cover.png" "image/png" 2048.

Definition upload_request (part : FilePart) : Request :=
  mkRequest 1 0 (Some part) (body_of "Dune" "Herbert" "To Read").

(** An environment with the integration key set, and a catalogue that
    answers every lookup with one volume. *)
Definition env_with_key : Env := mkEnv 1000 7 false false None (Some "k3y").

Definition dune_volume : External.VolumeInfo :=
  External.mkVolumeInfo (Some "Dune") (Some ["Frank Herbert"]) (Some ["Fiction"])
    None (Some [("ISBN_10", "0441013597"); ("ISBN_13", "9780441013593")])
    (Some "1965") (Some 412%Z) None None.

Definition one_volume : External.Upstream := fun _ => Some (Some [dune_volume]).

(** A world with one book of user 1 whose title holds the text [C++]. *)
Definition cpp_shelf : World :=
  fst (Router.post_handler env0 1 None
         (body_of "The C++ Programming Language" "Stroustrup" "To Read")
         (mkWorld empty_db ∅)).

(** ** Reading a list of groups *)

(** The counter of the group of [k], 0 when there is none. *)
Fixpoint group_count (k : string) (gs : list Group) : nat :=
  match gs with
  | [] => 0
  | (k', c) :: rest => if String.eqb k' k then c else group_count k rest
  end.

Definition group_keys (gs : list Group) : list string := map fst gs.

Fixpoint group_total (gs : list Group) : nat :=
  match gs with
  | [] => 0
  | (_, c) :: rest => c + group_total rest
  end.

Definition count_occ_status (s : string) (docs : list Book) : nat :=
  length (List.filter (fun b => String.eqb (status b) s) docs).

(** * Properties *)

(** ** The pre-save hook *)

Lemma Math_ceil_div_spec (x d : Z) :
  (0 < d)%Z ->
  (d * (Math_ceil_div x d - 1) < x <= d * Math_ceil_div x d)%Z.
Proof.
  intros Hd. unfold Math_ceil_div.
  pose proof (Z.div_mod (- x) d ltac:(lia)) as Hdm.
  pose proof (Z.mod_pos_bound (- x) d Hd) as Hb.
  lia.
Qed.

Lemma MS_PER_DAY_pos : (0 < MS_PER_DAY)%Z.
Proof. reflexivity. Qed.

Lemma pre_save_unmodified (t : Z) (b : Book) : pre_save t false b = b.
Proof. reflexivity. Qed.

(** The hook changes nothing but the three derived fields. *)
Lemma pre_save_frame (t : Z) (m : bool) (b : Book) :
  let b' := pre_save t m b in
  _id b' = _id b /\ user b' = user b /\ status b' = status b
  /\ title b' = title b /\ author b' = author b /\ genre b' = genre b
  /\ description b' = description b /\ notes b' = notes b
  /\ tags b' = tags b /\ coverImage b' = coverImage b
  /\ createdAt b' = createdAt b.
Proof.
  unfold pre_save. destruct m; simpl; [|tauto].
  destruct (status_is "Reading" b && unset (dateStarted b)); simpl;
    unfold status_is; simpl;
    destruct (_ && _); simpl; try tauto;
    destruct (dateStarted _); simpl; tauto.
Qed.

(** A start date that is set survives the hook. *)
Lemma pre_save_keeps_dateStarted (t : Z) (m : bool) (b : Book) (d : Z) :
  dateStarted b = Some d -> dateStarted (pre_save t m b) = Some d.
Proof.
  intros H. unfold pre_save. destruct m; [|exact H].
  rewrite H. rewrite andb_false_r. simpl.
  destruct (status_is "Read" b && unset (dateFinished b)); simpl; rewrite ?H; auto.
Qed.

(** A finish date that is set survives the hook. *)
Lemma pre_save_keeps_dateFinished (t : Z) (m : bool) (b : Book) (d : Z) :
  dateFinished b = Some d -> dateFinished (pre_save t m b) = Some d.
Proof.
  intros H. unfold pre_save. destruct m; [|exact H].
  destruct (status_is "Reading" b && unset (dateStarted b)); simpl;
    unfold status_is; simpl; rewrite H, andb_false_r; simpl; exact H.
Qed.

(** The rule as the hook applies it to a document whose status was
    modified. *)
Lemma pre_save_reading (t : Z) (b : Book) :
  status b = "Reading" -> dateStarted b = None ->
  dateStarted (pre_save t true b) = Some t.
Proof.
  intros Hs Hd. unfold pre_save, status_is. rewrite Hs, Hd. simpl.
  rewrite Hs. reflexivity.
Qed.

Lemma pre_save_read (t : Z) (b : Book) :
  status b = "Read" -> dateFinished b = None ->
  dateFinished (pre_save t true b) = Some t
  /\ match dateStarted b with
     | Some s => readingDuration (pre_save t true b)
                 = Some (Math_ceil_div (t - s) MS_PER_DAY)
     | None => readingDuration (pre_save t true b) = readingDuration b
     end.
Proof.
  intros Hs Hd. unfold pre_save, status_is. rewrite Hs. simpl.
  rewrite Hs, Hd. simpl.
  destruct (dateStarted b); simpl; auto.
Qed.

(** The hook leaves [readingDuration] alone when [dateFinished] is set. *)
Lemma pre_save_keeps_duration (t : Z) (m : bool) (b : Book) :
  dateFinished b <> None ->
  readingDuration (pre_save t m b) = readingDuration b.
Proof.
  intros Hset. destruct (dateFinished b) as [f|] eqn:Hf; [|congruence].
  unfold pre_save. destruct m; [|reflexivity].
  destruct (status_is "Reading" b && unset (dateStarted b)); simpl;
    unfold status_is; simpl; rewrite Hf, andb_false_r; reflexivity.
Qed.

(** What the hook does to [readingDuration], in full: it writes the field
    exactly when it stamps [dateFinished] on a document that has a
    [dateStarted], and then with the ceiling of (finish - start) in whole
    days. *)
Lemma pre_save_duration (t : Z) (m : bool) (b : Book) :
  readingDuration (pre_save t m b)
  = (if m && status_is "Read" b && unset (dateFinished b)
     then match dateStarted b with
          | Some s => Some (Math_ceil_div (t - s) MS_PER_DAY)
          | None => readingDuration b
          end
     else readingDuration b).
Proof.
  unfold pre_save. destruct m; [|reflexivity]. cbn [andb].
  destruct (status_is "Reading" b) eqn:E1; cbn [andb].
  - assert (E2 : status_is "Read" b = false).
    { unfold status_is in *. apply String.eqb_eq in E1. rewrite E1. reflexivity. }
    rewrite E2. cbn [andb].
    destruct (unset (dateStarted b)); unfold status_is in *; simpl;
      rewrite E2; reflexivity.
  - destruct (status_is "Read" b && unset (dateFinished b)); [|reflexivity].
    simpl. destruct (dateStarted b); reflexivity.
Qed.


(** A new document without dates leaves the hook with at most one date
    and without a duration. *)
Lemma pre_save_new (t : Z) (m : bool) (b : Book) :
  dateStarted b = None -> dateFinished b = None -> readingDuration b = None ->
  (dateStarted (pre_save t m b) = None \/ dateFinished (pre_save t m b) = None)
  /\ readingDuration (pre_save t m b) = None.
Proof.
  intros Hs Hf Hr. split.
  - unfold pre_save. destruct m; [|auto].
    destruct (status_is "Reading" b) eqn:E1; cbn [andb].
    + assert (E2 : status_is "Read" b = false).
      { unfold status_is in *. apply String.eqb_eq in E1. rewrite E1. reflexivity. }
      rewrite Hs. simpl. unfold status_is in *. simpl. rewrite E2. simpl. auto.
    + destruct (status_is "Read" b && unset (dateFinished b)); [|auto].
      simpl. rewrite Hs. simpl. auto.
  - rewrite pre_save_duration, Hs, Hr. destruct (_ && _); reflexivity.
Qed.

(** ** The statistics snapshot *)

Section Groups.

Implicit Types (k : string) (gs : list Group) (docs : list Book).

Lemma group_count_add k k' gs :
  group_count k' (group_add k gs)
  = if String.eqb k k' then S (group_count k' gs) else group_count k' gs.
Proof.
  induction gs as [|[k0 c] rest IH]; simpl.
  - destruct (String.eqb k k'); reflexivity.
  - destruct (String.eqb k0 k) eqn:E0; simpl.
    + apply String.eqb_eq in E0. subst k0.
      destruct (String.eqb k k'); reflexivity.
    + destruct (String.eqb k0 k') eqn:E1.
      * apply String.eqb_eq in E1. subst k0.
        rewrite String.eqb_sym in E0. rewrite E0. reflexivity.
      * exact IH.
Qed.

Lemma group_keys_add k gs :
  group_keys (group_add k gs)
  = if existsb (String.eqb k) (group_keys gs) then group_keys gs
    else (group_keys gs ++ [k])%list.
Proof.
  unfold group_keys.
  induction gs as [|[k0 c] rest IH]; simpl; [reflexivity|].
  destruct (String.eqb k0 k) eqn:E0; simpl.
  - rewrite String.eqb_sym in E0. rewrite E0. reflexivity.
  - rewrite String.eqb_sym in E0. rewrite E0. simpl.
    rewrite IH.
    destruct (existsb _ _); reflexivity.
Qed.

Lemma group_keys_add_NoDup k gs :
  List.NoDup (group_keys gs) -> List.NoDup (group_keys (group_add k gs)).
Proof.
  intros H. rewrite group_keys_add.
  destruct (existsb (String.eqb k) (group_keys gs)) eqn:E; [exact H|].
  apply NoDup_app_remove_l with (l := []). simpl.
  apply Permutation_NoDup with (l := k :: group_keys gs).
  - apply Permutation_cons_append.
  - constructor; [|exact H].
    intros Hin. apply not_true_iff_false in E. apply E.
    apply existsb_exists. exists k. split; [exact Hin|apply String.eqb_refl].
Qed.

Lemma group_total_add k gs : group_total (group_add k gs) = S (group_total gs).
Proof.
  induction gs as [|[k0 c] rest IH]; simpl; [reflexivity|].
  destruct (String.eqb k0 k); simpl; [reflexivity|].
  rewrite IH. lia.
Qed.

Lemma fold_group_add docs acc :
  let gs := fold_left (fun a b => group_add (status b) a) docs acc in
  (forall k, group_count k gs = group_count k acc + count_occ_status k docs)
  /\ (List.NoDup (group_keys acc) -> List.NoDup (group_keys gs))
  /\ group_total gs = group_total acc + length docs.
Proof.
  revert acc. induction docs as [|b rest IH]; intros acc; simpl.
  - repeat split; auto.
  - destruct (IH (group_add (status b) acc)) as (Hc & Hn & Ht).
    repeat split.
    + intros k. rewrite Hc, group_count_add. unfold count_occ_status. simpl.
      destruct (String.eqb (status b) k); simpl; lia.
    + intros H. apply Hn, group_keys_add_NoDup, H.
    + rewrite Ht, group_total_add. lia.
Qed.

Lemma group_count_absent k gs :
  ~ In k (group_keys gs) -> group_count k gs = 0.
Proof.
  induction gs as [|[k0 c] rest IH]; simpl; [reflexivity|].
  intros H. destruct (String.eqb k0 k) eqn:E.
  - apply String.eqb_eq in E. tauto.
  - apply IH. tauto.
Qed.

End Groups.

(** The loop of [updateStats] over groups with distinct keys: each of the
    three counters ends as the counter of its group if there is one, and
    [totalBooks] grows by the sum of all counters. *)
Lemma updateStats_fold (gs : list Group) (st : Stats) :
  List.NoDup (group_keys gs) ->
  forall r, r = fold_left updateStats_step gs st ->
  totalBooks r = totalBooks st + group_total gs
  /\ booksRead r = (if existsb (String.eqb "Read") (group_keys gs)
                    then group_count "Read" gs else booksRead st)
  /\ currentlyReading r = (if existsb (String.eqb "Reading") (group_keys gs)
                           then group_count "Reading" gs else currentlyReading st)
  /\ toRead r = (if existsb (String.eqb "To Read") (group_keys gs)
                 then group_count "To Read" gs else toRead st).
Proof.
  revert st. induction gs as [|[k c] rest IH]; intros st Hnd r ->.
  - simpl. repeat split; lia.
  - inversion Hnd as [|? ? Hnotin Hnd']; subst.
    change (fold_left updateStats_step ((k, c) :: rest) st)
      with (fold_left updateStats_step rest (updateStats_step st (k, c))).
    destruct (IH (updateStats_step st (k, c)) Hnd' _ eq_refl) as (Ht & Hr & Hg & Hq).
    assert (Hex : forall s, String.eqb k s = true ->
                  existsb (String.eqb s) (group_keys rest) = false).
    { intros s E. apply String.eqb_eq in E. subst s.
      apply not_true_iff_false. intros Hx. apply existsb_exists in Hx.
      destruct Hx as (x & Hin & Hx). apply String.eqb_eq in Hx. subst x. tauto. }
    rewrite Ht, Hr, Hg, Hq. clear Ht Hr Hg Hq IH.
    cbn [group_keys map fst existsb group_count group_total].
    fold (group_keys rest).
    rewrite (String.eqb_sym "Read" k), (String.eqb_sym "Reading" k),
      (String.eqb_sym "To Read" k).
    unfold updateStats_step.
    destruct (String.eqb k "Read") eqn:E1.
    { rewrite (Hex _ E1). apply String.eqb_eq in E1. subst k. simpl.
      repeat split; try lia; destruct (existsb _ _); reflexivity. }
    destruct (String.eqb k "Reading") eqn:E2.
    { rewrite (Hex _ E2). apply String.eqb_eq in E2. subst k. simpl.
      repeat split; try lia; destruct (existsb _ _); reflexivity. }
    destruct (String.eqb k "To Read") eqn:E3.
    { rewrite (Hex _ E3). apply String.eqb_eq in E3. subst k. simpl.
      repeat split; try lia; destruct (existsb _ _); reflexivity. }
    simpl. repeat split; try lia; destruct (existsb _ _); reflexivity.
Qed.

Lemma count_status_filter (uid : nat) (s : string) (l : list Book) :
  count_status uid s l
  = count_occ_status s (List.filter (fun b => Nat.eqb (user b) uid) l).
Proof.
  unfold count_status, count_occ_status.
  induction l as [|b r IH]; simpl; [reflexivity|].
  destruct (Nat.eqb (user b) uid); simpl; [|exact IH].
  destruct (String.eqb (status b) s); simpl; rewrite IH; reflexivity.
Qed.

(** What [updateStats] computes, whatever the statuses are: the counters
    of the three statuses and the number of the user's books. *)
Lemma updateStats_exact (old : Stats) (uid : nat) (l : list Book) :
  totalBooks (updateStats old uid l) = count_books uid l
  /\ booksRead (updateStats old uid l) = count_status uid "Read" l
  /\ currentlyReading (updateStats old uid l) = count_status uid "Reading" l
  /\ toRead (updateStats old uid l) = count_status uid "To Read" l.
Proof.
  unfold updateStats, aggregate_status, group_by_status.
  set (docs := List.filter (fun b => Nat.eqb (user b) uid) l).
  destruct (fold_group_add docs []) as (Hc & Hn & Ht).
  specialize (Hn (List.NoDup_nil _)).
  destruct (updateStats_fold _ (mkStats 0 0 0 0) Hn _ eq_refl) as (H1 & H2 & H3 & H4).
  assert (Hk : forall k,
    (if existsb (String.eqb k)
          (group_keys (fold_left (fun a b => group_add (status b) a) docs []))
     then group_count k (fold_left (fun a b => group_add (status b) a) docs [])
     else 0) = count_status uid k l).
  { intros k. rewrite count_status_filter. fold docs.
    destruct (existsb (String.eqb k) _) eqn:E.
    - rewrite Hc. reflexivity.
    - pose proof (Hc k) as Hck. simpl in Hck. rewrite <- Hck.
      symmetry. apply group_count_absent.
      intros Hin. apply not_true_iff_false in E. apply E.
      apply existsb_exists. exists k. split; [exact Hin|apply String.eqb_refl]. }
  rewrite H1, H2, H3, H4.
  cbn [totalBooks booksRead currentlyReading toRead].
  rewrite !Hk, Ht. repeat split; reflexivity.
Qed.

Lemma count_books_split (uid : nat) (l : list Book) :
  (forall b, In b l -> user b = uid -> In (status b) status_enum) ->
  count_books uid l
  = count_status uid "Read" l + count_status uid "Reading" l
    + count_status uid "To Read" l.
Proof.
  unfold count_books, count_status.
  induction l as [|b r IH]; intros H; simpl; [reflexivity|].
  destruct (Nat.eqb (user b) uid) eqn:E; simpl.
  - apply Nat.eqb_eq in E.
    destruct (H b (or_introl eq_refl) E) as [Hs|[Hs|[Hs|[]]]];
      rewrite <- Hs; simpl; rewrite IH by (intros; apply H; simpl; auto); lia.
  - apply IH. intros; apply H; simpl; auto.
Qed.

(** C10.  After a recomputation, when every book of the user has one of
    the three enum literals as its status, the snapshot has
    totalBooks = booksRead + currentlyReading + toRead, and each of the
    three counters is the number of the user's books with that status. *)
Theorem updateStats_partition (old : Stats) (uid : nat) (l : list Book) :
  (forall b, In b l -> user b = uid -> In (status b) status_enum) ->
  totalBooks (updateStats old uid l)
  = booksRead (updateStats old uid l) + currentlyReading (updateStats old uid l)
    + toRead (updateStats old uid l)
  /\ booksRead (updateStats old uid l) = count_status uid "Read" l
  /\ currentlyReading (updateStats old uid l) = count_status uid "Reading" l
  /\ toRead (updateStats old uid l) = count_status uid "To Read" l.
Proof.
  intros H. destruct (updateStats_exact old uid l) as (H1 & H2 & H3 & H4).
  rewrite H1, H2, H3, H4, (count_books_split uid l H). auto.
Qed.

Lemma updateStats_partition_witness :
  totalBooks (updateStats stats_default 1 shelf)
  = booksRead (updateStats stats_default 1 shelf)
    + currentlyReading (updateStats stats_default 1 shelf)
    + toRead (updateStats stats_default 1 shelf)
  /\ booksRead (updateStats stats_default 1 shelf) = count_status 1 "Read" shelf
  /\ currentlyReading (updateStats stats_default 1 shelf) = count_status 1 "Reading" shelf
  /\ toRead (updateStats stats_default 1 shelf) = count_status 1 "To Read" shelf.
Proof.
  apply (updateStats_partition stats_default 1 shelf).
  intros b Hin _. simpl in Hin.
  destruct Hin as [<-|[<-|[<-|[<-|[]]]]]; simpl; auto.
Defined.

(** A status outside the enum is counted in [totalBooks] and in none of
    the three counters. *)
Lemma updateStats_foreign_status :
  updateStats stats_default 1
    [ sample_book 0 1 "Dune" "Read" 10; sample_book 1 1 "Emma" "Abandoned" 20 ]
  = mkStats 2 1 0 0.
Proof. reflexivity. Qed.

(** The snapshot is overwritten as a whole: the result does not depend on
    the previous one. *)
Lemma updateStats_overwrites (old old' : Stats) (uid : nat) (l : list Book) :
  updateStats old uid l = updateStats old' uid l.
Proof. reflexivity. Qed.

(** ** The operations of the model *)

Lemma post_updateStats_frame (env : Env) (doc : Book) (d : Db) :
  books (post_updateStats env doc d) = books d
  /\ nextId (post_updateStats env doc d) = nextId d.
Proof.
  unfold post_updateStats. destruct (users d !! user doc); [|auto].
  destruct (statsFault env); auto.
Qed.

Lemma post_updateStats_recomputes (env : Env) (doc : Book) (d : Db) (old : Stats) :
  statsFault env = false -> users d !! user doc = Some old ->
  users (post_updateStats env doc d) !! user doc
  = Some (updateStats old (user doc) (books d)).
Proof.
  intros Hf Hu. unfold post_updateStats. rewrite Hu, Hf. simpl.
  apply lookup_insert_eq.
Qed.

Lemma post_updateStats_fault (env : Env) (doc : Book) (d : Db) :
  statsFault env = true -> post_updateStats env doc d = d.
Proof.
  intros Hf. unfold post_updateStats. rewrite Hf.
  destruct (users d !! user doc); reflexivity.
Qed.

Lemma Book_save_inr (env : Env) (m : bool) (doc doc' : Book) (d d' : Db) :
  Book_save env m doc d = inr (doc', d') ->
  doc' = pre_save (now env) m doc
  /\ d' = post_updateStats env doc' (mkDb (books d ++ [doc']) (users d) (S (nextId d)))
  /\ books d' = (books d ++ [doc'])%list
  /\ nextId d' = S (nextId d)
  /\ writeFault env = false
  /\ Schema.validate_doc doc = [].
Proof.
  unfold Book_save. destruct (Schema.validate_doc doc) eqn:Hv; [|discriminate].
  destruct (writeFault env); [discriminate|].
  unfold run_pre, run_post. simpl. intros H. inversion H; subst.
  destruct (post_updateStats_frame env (pre_save (now env) m doc)
              (mkDb (books d ++ [pre_save (now env) m doc]) (users d) (S (nextId d))))
    as [Hb Hn].
  rewrite Hb, Hn. repeat split; reflexivity.
Qed.

Lemma Book_findOneAndUpdate_inr (env : Env) (id uid : nat) (u : Update)
    (rv : bool) (d d' : Db) (res : option Book) :
  Book_findOneAndUpdate env id uid u rv d = inr (res, d') ->
  match res with
  | None => findOne id uid d = None /\ d' = d
  | Some b' =>
      exists b, findOne id uid d = Some b
                /\ b' = apply_set (cast_update u) b
                /\ d' = mkDb (replace_book b' (books d)) (users d) (nextId d)
  end.
Proof.
  unfold Book_findOneAndUpdate.
  destruct (if rv then validate_update (cast_update u) else []); [|discriminate].
  destruct (findOne id uid d) as [b|].
  - destruct (writeFault env); [discriminate|].
    unfold run_pre, run_post. simpl. intros H. inversion H; subst. eauto.
  - intros H. inversion H; subst. auto.
Qed.

Lemma Book_findOneAndDelete_inr (env : Env) (id uid : nat) (d d' : Db)
    (res : option Book) :
  Book_findOneAndDelete env id uid d = inr (res, d') ->
  match res with
  | None => findOne id uid d = None /\ d' = d
  | Some b =>
      findOne id uid d = Some b
      /\ d' = post_updateStats env b (mkDb (remove_book id (books d)) (users d) (nextId d))
  end.
Proof.
  unfold Book_findOneAndDelete. destruct (findOne id uid d) as [b|].
  - destruct (writeFault env); [discriminate|].
    unfold run_post. simpl. intros H. inversion H; subst. auto.
  - intros H. inversion H; subst. auto.
Qed.

(** ** The status rule on create and on update *)

Lemma post_applies_status_rule (env : Env) (uid : nat) (file : option string)
    (body : Body) (w w' : World) (msg : string) (b : Book) :
  Router.post_handler env uid file body w = (w', mkResponse 201 (BookCreated msg b)) ->
  In b (books (db w'))
  /\ (status b = "Reading" -> dateStarted b = Some (now env))
  /\ (status b = "Read" ->
      dateFinished b = Some (now env) /\ readingDuration b = None)
  /\ (status b = "To Read" -> dateStarted b = None /\ dateFinished b = None).
Proof.
  unfold Router.post_handler. destruct (Joi.validate body) as [|value]; [discriminate|].
  destruct (Book_save _ _ _ _) as [[?|]|[book' db']] eqn:E; try discriminate.
  intros H. inversion H; subst. clear H.
  apply Book_save_inr in E. destruct E as (Hb & _ & Hbooks & _).
  split; [simpl; rewrite Hbooks; apply in_or_app; simpl; auto|].
  set (doc := new_Book env (db w) uid (Router.fields_of_value value) (cover_path file)) in *.
  assert (Hs : dateStarted doc = None) by reflexivity.
  assert (Hf : dateFinished doc = None) by reflexivity.
  assert (Hr : readingDuration doc = None) by reflexivity.
  destruct (pre_save_frame (now env) true doc) as (_ & _ & Hst & _).
  rewrite Hb in *. rewrite Hst. clear Hb Hst Hbooks. clearbody doc.
  split; [|split].
  - intros E. apply pre_save_reading; auto.
  - intros E. destruct (pre_save_read (now env) doc E Hf) as [H1 H2].
    split; [exact H1|]. rewrite Hs in H2. rewrite H2. exact Hr.
  - intros E. unfold pre_save, status_is. rewrite E. simpl. rewrite E. auto.
Qed.

(** C1, at the failing input.  A "To Read" book without a start date is
    updated to "Reading" (validated router) or to "Read" (older router):
    the update is stored with the new status, and neither [dateStarted]
    nor [dateFinished] is stamped, because the update goes through
    [findOneAndUpdate], for which no hook is registered.  Likewise a book
    created as "Reading" and updated to "Read" keeps its start date and
    gets neither a finish date nor a duration. *)
Theorem update_skips_status_rule :
  (exists b,
      Router.put_handler later 1 0 None (body_of "Dune" "Herbert" "Reading") one_book
      = (mkWorld (mkDb [b] (users (db one_book)) 1) ∅,
         mkResponse 200 (BookUpdated "Book updated successfully" b))
      /\ status b = "Reading" /\ dateStarted b = None)
  /\ (exists b,
      LegacyRouter.put_handler later 1 0 None (body_of "Dune" "Herbert" "Read") one_book
      = (mkWorld (mkDb [b] (users (db one_book)) 1) ∅, mkResponse 200 (BookJson b))
      /\ status b = "Read" /\ dateFinished b = None /\ readingDuration b = None)
  /\ (exists b,
      snd (Router.put_handler later 1 0 None (body_of "Dune" "Herbert" "Read")
             reading_book)
      = mkResponse 200 (BookUpdated "Book updated successfully" b)
      /\ status b = "Read" /\ dateStarted b = Some 1000%Z
      /\ dateFinished b = None /\ readingDuration b = None).
Proof.
  split; [|split]; eexists; (split; [vm_compute; reflexivity|]); vm_compute; auto.
Qed.

(** ** Recomputation of the snapshot *)

(** After a successful create the owner's snapshot is the aggregate over
    the books as they now are. *)
Lemma post_recomputes_stats (env : Env) (uid : nat) (file : option string)
    (body : Body) (w w' : World) (r : Response) (old : Stats) :
  Router.post_handler env uid file body w = (w', r) ->
  code r = 201 -> statsFault env = false -> users (db w) !! uid = Some old ->
  users (db w') !! uid = Some (updateStats old uid (books (db w'))).
Proof.
  unfold Router.post_handler. destruct (Joi.validate body) as [|value].
  { intros H; inversion H; subst; discriminate. }
  destruct (Book_save _ _ _ _) as [[?|]|[book' db']] eqn:E;
    intros H; inversion H; subst; try discriminate.
  intros _ Hf Hu. apply Book_save_inr in E.
  destruct E as (Hb & Hd & Hbooks & _). simpl.
  assert (Huser : user book' = uid).
  { rewrite Hb. destruct (pre_save_frame (now env) true
      (new_Book env (db w) uid (Router.fields_of_value value) (cover_path file)))
      as (_ & Hu' & _). rewrite Hu'. reflexivity. }
  rewrite Hbooks. rewrite Hd. rewrite <- Huser.
  rewrite (post_updateStats_recomputes env book'
             (mkDb (books (db w) ++ [book']) (users (db w)) (S (nextId (db w))))
             old Hf).
  - reflexivity.
  - simpl. rewrite Huser. exact Hu.
Qed.

(** After a successful delete as well. *)
Lemma delete_recomputes_stats (env : Env) (uid id : nat) (w w' : World)
    (r : Response) (old : Stats) :
  Router.delete_handler env uid id w = (w', r) ->
  code r = 200 -> statsFault env = false -> users (db w) !! uid = Some old ->
  users (db w') !! uid = Some (updateStats old uid (books (db w'))).
Proof.
  unfold Router.delete_handler.
  destruct (Book_findOneAndDelete env id uid (db w)) as [?|[[b|] db']] eqn:E;
    intros H; inversion H; subst; try discriminate.
  intros _ Hf Hu. apply Book_findOneAndDelete_inr in E. destruct E as [Hfind Hd].
  assert (Huser : user b = uid).
  { unfold findOne in Hfind. apply find_some in Hfind. destruct Hfind as [_ Hc].
    apply andb_true_iff in Hc. destruct Hc as [_ Hc]. apply Nat.eqb_eq, Hc. }
  simpl. rewrite Hd.
  destruct (post_updateStats_frame env b
              (mkDb (remove_book id (books (db w))) (users (db w)) (nextId (db w))))
    as [Hb _].
  rewrite Hb. simpl. rewrite <- Huser.
  apply (post_updateStats_recomputes env b
           (mkDb (remove_book id (books (db w))) (users (db w)) (nextId (db w)))
           old Hf).
  simpl. rewrite Huser. exact Hu.
Qed.

Lemma Book_save_statsFault (env : Env) (m : bool) (doc : Book) (d : Db) :
  Book_save (with_statsFault true env) m doc d
  = match Book_save (with_statsFault false env) m doc d with
    | inl e => inl e
    | inr (b, d') => inr (b, mkDb (books d') (users d) (nextId d'))
    end.
Proof.
  unfold Book_save, run_pre, run_post. simpl.
  destruct (Schema.validate_doc doc); [|reflexivity].
  destruct (writeFault env); [reflexivity|].
  rewrite post_updateStats_fault by reflexivity.
  destruct (post_updateStats_frame (with_statsFault false env)
              (pre_save (now env) m doc)
              (mkDb (books d ++ [pre_save (now env) m doc]) (users d) (S (nextId d))))
    as [Hb Hn].
  rewrite Hb, Hn. reflexivity.
Qed.

Lemma Book_findOneAndDelete_statsFault (env : Env) (id uid : nat) (d : Db) :
  Book_findOneAndDelete (with_statsFault true env) id uid d
  = match Book_findOneAndDelete (with_statsFault false env) id uid d with
    | inl e => inl e
    | inr (b, d') => inr (b, mkDb (books d') (users d) (nextId d'))
    end.
Proof.
  unfold Book_findOneAndDelete, run_post. simpl.
  destruct (findOne id uid d) as [b|]; [|destruct d; reflexivity].
  destruct (writeFault env); [reflexivity|].
  rewrite post_updateStats_fault by reflexivity.
  destruct (post_updateStats_frame (with_statsFault false env) b
              (mkDb (remove_book id (books d)) (users d) (nextId d)))
    as [Hb Hn].
  rewrite Hb, Hn. reflexivity.
Qed.

(** A failure of the recomputation leaves the book operation as it is: the
    books, the upload directory and the response are those of the run in
    which the recomputation succeeds. *)
Lemma stats_fault_no_rollback (env : Env) (uid id : nat) (file : option string)
    (body : Body) (w : World) :
  let ok := with_statsFault false env in
  let ko := with_statsFault true env in
  (books (db (fst (Router.post_handler ko uid file body w)))
   = books (db (fst (Router.post_handler ok uid file body w)))
   /\ disk (fst (Router.post_handler ko uid file body w))
      = disk (fst (Router.post_handler ok uid file body w))
   /\ snd (Router.post_handler ko uid file body w)
      = snd (Router.post_handler ok uid file body w))
  /\ (books (db (fst (Router.delete_handler ko uid id w)))
      = books (db (fst (Router.delete_handler ok uid id w)))
      /\ disk (fst (Router.delete_handler ko uid id w))
         = disk (fst (Router.delete_handler ok uid id w))
      /\ snd (Router.delete_handler ko uid id w)
         = snd (Router.delete_handler ok uid id w)).
Proof.
  cbv zeta. split.
  - unfold Router.post_handler. destruct (Joi.validate body) as [|value]; [auto|].
    rewrite Book_save_statsFault.
    change (new_Book (with_statsFault true env)) with (new_Book (with_statsFault false env)).
    destruct (Book_save _ _ _ _) as [[?|]|[b d']]; simpl; auto.
  - unfold Router.delete_handler. rewrite Book_findOneAndDelete_statsFault.
    destruct (Book_findOneAndDelete _ _ _ _) as [?|[[b|] d']]; simpl; auto.
Qed.

(** C2, at the failing input.  User 1 has one book, "To Read", and the
    snapshot (1, 0, 0, 1).  The book is updated to "Read" through either
    router: the update succeeds, and the snapshot is still (1, 0, 0, 1)
    while the aggregate over the books is (1, 1, 0, 0). *)
Theorem update_skips_stats :
  users (db one_book) !! 1 = Some (mkStats 1 0 0 1)
  /\ (let w2 := fst (Router.put_handler later 1 0 None
                       (body_of "Dune" "Herbert" "Read") one_book) in
      code (snd (Router.put_handler later 1 0 None
                   (body_of "Dune" "Herbert" "Read") one_book)) = 200
      /\ users (db w2) !! 1 = Some (mkStats 1 0 0 1)
      /\ updateStats (mkStats 1 0 0 1) 1 (books (db w2)) = mkStats 1 1 0 0)
  /\ (let w2 := fst (LegacyRouter.put_handler later 1 0 None
                       (body_of "Dune" "Herbert" "Read") one_book) in
      code (snd (LegacyRouter.put_handler later 1 0 None
                   (body_of "Dune" "Herbert" "Read") one_book)) = 200
      /\ users (db w2) !! 1 = Some (mkStats 1 0 0 1)
      /\ updateStats (mkStats 1 0 0 1) 1 (books (db w2)) = mkStats 1 1 0 0).
Proof. vm_compute. repeat split; reflexivity. Qed.

(** ** Histories: what a call does to the collection *)

Lemma app_nil_both {A} (l1 l2 : list A) : (l1 ++ l2)%list = [] -> l1 = [] /\ l2 = [].
Proof. destruct l1; simpl; [auto|discriminate]. Qed.

Lemma status_path_enum (s : string) :
  Schema.status_path (Some s) = [] -> in_status_enum s = true.
Proof.
  unfold Schema.status_path, Schema.orElse, Schema.required, Schema.enum.
  destruct (Str.truthy s); [|discriminate].
  destruct (in_status_enum s); [reflexivity|discriminate].
Qed.

(** A document that passes the schema's validators has a status of the
    enum. *)
Lemma validate_doc_status (doc : Book) :
  Schema.validate_doc doc = [] -> in_status_enum (status doc) = true.
Proof.
  unfold Schema.validate_doc. intros H.
  apply app_nil_both in H as [_ H]. apply app_nil_both in H as [_ H].
  apply app_nil_both in H as [_ H]. apply app_nil_both in H as [H _].
  apply status_path_enum, H.
Qed.

(** So has an update that passes the update validators, if it sets one. *)
Lemma validate_update_status (u : Update) :
  validate_update u = [] -> status_in_enum (u_status u).
Proof.
  unfold validate_update. intros H.
  apply app_nil_both in H as [_ H]. apply app_nil_both in H as [_ H].
  apply app_nil_both in H as [_ H]. apply app_nil_both in H as [H _].
  unfold status_in_enum. destruct (u_status u) as [s|]; [|exact I].
  apply status_path_enum, H.
Qed.

Lemma Book_save_change (Pu : Update -> Prop) (env : Env) (m : bool)
    (doc doc' : Book) (d d' : Db) :
  _id doc = nextId d ->
  Book_save env m doc d = inr (doc', d') -> db_change Pu d d'.
Proof.
  intros Hid H. apply Book_save_inr in H.
  destruct H as (Hdoc & _ & Hb & Hn & _ & Hv).
  destruct (pre_save_frame (now env) m doc) as (Hi & _ & Hst & _).
  apply change_insert with (doc := doc'); auto; rewrite Hdoc.
  - rewrite Hi. exact Hid.
  - rewrite Hst. apply validate_doc_status, Hv.
Qed.

Lemma Book_findOneAndUpdate_validated (env : Env) (id uid : nat) (u : Update)
    (d : Db) (r : option Book * Db) :
  Book_findOneAndUpdate env id uid u true d = inr r ->
  validate_update (cast_update u) = [].
Proof.
  unfold Book_findOneAndUpdate.
  destruct (validate_update (cast_update u)); [reflexivity|discriminate].
Qed.

Lemma Book_findOneAndUpdate_change (Pu : Update -> Prop) (env : Env)
    (id uid : nat) (u : Update) (rv : bool) (d d' : Db) (res : option Book) :
  Pu (cast_update u) ->
  Book_findOneAndUpdate env id uid u rv d = inr (res, d') -> db_change Pu d d'.
Proof.
  intros Hu H. apply Book_findOneAndUpdate_inr in H. destruct res as [b'|].
  - destruct H as (b & Hfind & Hb' & Hd). subst d' b'.
    apply change_update with (b := b) (u := cast_update u); auto.
    unfold findOne in Hfind. apply find_some in Hfind. tauto.
  - destruct H as [_ ->]. apply change_none; reflexivity.
Qed.

Lemma Book_findOneAndDelete_change (Pu : Update -> Prop) (env : Env)
    (id uid : nat) (d d' : Db) (res : option Book) :
  Book_findOneAndDelete env id uid d = inr (res, d') -> db_change Pu d d'.
Proof.
  intros H. apply Book_findOneAndDelete_inr in H. destruct res as [b|].
  - destruct H as [_ ->].
    destruct (post_updateStats_frame env b
                (mkDb (remove_book id (books d)) (users d) (nextId d))) as [Hb Hn].
    apply change_remove with (id := id); [rewrite Hb|rewrite Hn]; reflexivity.
  - destruct H as [_ ->]. apply change_none; reflexivity.
Qed.

Lemma db_change_refl (Pu : Update -> Prop) (d : Db) : db_change Pu d d.
Proof. apply change_none; reflexivity. Qed.

#[local] Hint Resolve db_change_refl : core.

Lemma Router_post_change (Pu : Update -> Prop) (env : Env) (uid : nat)
    (file : option string) (body : Body) (w : World) :
  db_change Pu (db w) (db (fst (Router.post_handler env uid file body w))).
Proof.
  unfold Router.post_handler. destruct (Joi.validate body) as [|value]; simpl; auto.
  destruct (Book_save _ _ _ _) as [[?|]|[b d']] eqn:E; simpl; auto.
  eapply Book_save_change; [|exact E]. reflexivity.
Qed.

(** The update of the validated router sets neither date and has passed
    the update validators. *)
Lemma Router_put_change (Pu : Update -> Prop) (env : Env) (uid id : nat)
    (file : option string) (body : Body) (w : World) :
  (forall u, u_dateStarted u = None -> u_dateFinished u = None ->
             validate_update u = [] -> Pu u) ->
  db_change Pu (db w) (db (fst (Router.put_handler env uid id file body w))).
Proof.
  intros HPu. unfold Router.put_handler.
  destruct (Joi.validate body) as [|value]; simpl; auto.
  destruct (findOne id uid (db w)) as [existing|]; simpl; auto.
  destruct file as [name|];
    (destruct (Book_findOneAndUpdate _ _ _ _ _ _) as [[?|]|[[b|] d']] eqn:E;
     simpl; auto;
     (eapply Book_findOneAndUpdate_change; [|exact E]);
     (apply HPu; [reflexivity|reflexivity|]);
     apply (Book_findOneAndUpdate_validated _ _ _ _ _ _ E)).
Qed.

Lemma Router_delete_change (Pu : Update -> Prop) (env : Env) (uid id : nat)
    (w : World) :
  db_change Pu (db w) (db (fst (Router.delete_handler env uid id w))).
Proof.
  unfold Router.delete_handler.
  destruct (Book_findOneAndDelete _ _ _ _) as [?|[[b|] d']] eqn:E; simpl; auto.
  eapply Book_findOneAndDelete_change; exact E.
Qed.

Lemma with_upload_change (Pu : Update -> Prop) (env : Env)
    (part : option FilePart)
    (handler : option string -> World -> World * Response) (w : World) :
  (forall file w1, db_change Pu (db w1) (db (fst (handler file w1)))) ->
  db_change Pu (db w) (db (fst (Router.with_upload env part handler w))).
Proof.
  intros H. unfold Router.with_upload.
  destruct (Upload.uploadSingle env part (disk w)) as [[err|file] d]; simpl; auto.
  apply (H file (mkWorld (db w) (Upload.optimizeImage file d))).
Qed.

Lemma Legacy_post_change (Pu : Update -> Prop) (env : Env) (uid : nat)
    (file : option string) (body : Body) (w : World) :
  db_change Pu (db w) (db (fst (LegacyRouter.post_handler env uid file body w))).
Proof.
  unfold LegacyRouter.post_handler.
  destruct (LegacyRouter.fields_of_body _ _) as [fields|]; simpl; auto.
  destruct (Book_save _ _ _ _) as [?|[b d']] eqn:E; simpl; auto.
  eapply Book_save_change; [|exact E]. reflexivity.
Qed.

(** The update of the older router sets what the body carries. *)
Lemma Legacy_put_change (Pu : Update -> Prop) (env : Env) (uid id : nat)
    (file : option string) (body : Body) (w : World) :
  (forall u, u_dateStarted u = b_dateStarted body ->
             u_dateFinished u = b_dateFinished body ->
             u_status u = b_status body -> Pu u) ->
  db_change Pu (db w) (db (fst (LegacyRouter.put_handler env uid id file body w))).
Proof.
  intros HPu. unfold LegacyRouter.put_handler.
  destruct (LegacyRouter.fields_of_body _ _) as [fields|] eqn:F; simpl; auto.
  destruct (Book_findOneAndUpdate _ _ _ _ _ _) as [?|[[b|] d']] eqn:E; simpl; auto.
  eapply Book_findOneAndUpdate_change; [|exact E].
  unfold LegacyRouter.fields_of_body in F.
  destruct (LegacyRouter.cast_num (b_pageCount body));
    destruct (LegacyRouter.cast_num (b_rating body)); inversion F; subst.
  apply HPu; reflexivity.
Qed.

Lemma Legacy_delete_change (Pu : Update -> Prop) (env : Env) (uid id : nat)
    (w : World) :
  db_change Pu (db w) (db (fst (LegacyRouter.delete_handler env uid id w))).
Proof.
  unfold LegacyRouter.delete_handler.
  destruct (Book_findOneAndDelete _ _ _ _) as [?|[[b|] d']] eqn:E; simpl; auto.
  eapply Book_findOneAndDelete_change; exact E.
Qed.

(** One call is one change of the collection; its update spares the dates
    and keeps the status in the enum, unless the call is an update through
    the older router whose body carries a date or a status outside the
    enum. *)
Lemma step_change (c : Call) (w : World) :
  db_change (spares c) (db w) (db (step w c)).
Proof.
  destruct c; simpl.
  - apply with_upload_change. intros. apply Router_post_change.
  - apply with_upload_change. intros. apply Router_put_change.
    intros u Hs Hf Hv. split; [auto|split; [auto|]].
    intros _. apply validate_update_status, Hv.
  - apply Router_delete_change.
  - apply Legacy_post_change.
  - apply Legacy_put_change. intros u Hs Hf Hst. unfold spares. simpl.
    rewrite Hs, Hf, Hst. split; [|split]; intros H.
    + destruct (b_dateStarted body); [discriminate|reflexivity].
    + destruct (b_dateFinished body); [discriminate|reflexivity].
    + unfold status_in_enum. destruct (b_status body) as [s|]; [|exact I].
      apply negb_false_iff, H.
  - apply Legacy_delete_change.
Qed.

(** The statuses stay in the enum along a change whose update keeps them
    there. *)
Lemma db_change_all_enum (Pu : Update -> Prop) (d d' : Db) :
  (forall u, Pu u -> status_in_enum (u_status u)) ->
  db_change Pu d d' -> all_enum d -> all_enum d'.
Proof.
  intros HPu Hc Hall. destruct Hc; unfold all_enum; rewrite Hb.
  - exact Hall.
  - intros b Hin. apply in_app_or in Hin.
    destruct Hin as [Hin|[<-|[]]]; [auto|exact Hs].
  - intros b' Hin'. unfold replace_book in Hin'. apply in_map_iff in Hin'.
    destruct Hin' as (x & Hx & Hinx).
    destruct (Nat.eqb (_id x) (_id (apply_set u b))); subst b'; [|auto].
    simpl. specialize (HPu u Hu). unfold status_in_enum in HPu.
    destruct (u_status u); [exact HPu|auto].
  - intros b Hin. unfold remove_book in Hin. apply filter_In in Hin.
    apply Hall; tauto.
Qed.

(** Every stored status is one of the three literals after any history in
    which no update through the older router carries another one. *)
Lemma run_all_enum (cs : list Call) (w : World) :
  forallb (fun c => negb (sets_foreign_status c)) cs = true ->
  all_enum (db w) -> all_enum (db (run w cs)).
Proof.
  revert w. induction cs as [|c cs IH]; intros w Hok H; [exact H|].
  simpl in Hok. apply andb_true_iff in Hok. destruct Hok as [Hc Hcs].
  unfold run. simpl. apply IH; [exact Hcs|].
  apply (db_change_all_enum (spares c) (db w)); [|apply step_change|exact H].
  intros u (_ & _ & Hu). apply Hu. apply negb_true_iff, Hc.
Qed.

(** Hence, along such a history, every recomputation gives a snapshot
    whose total is the sum of the three counters. *)
Lemma snapshot_partition_along (cs : list Call) (w : World) (uid : nat)
    (old : Stats) :
  forallb (fun c => negb (sets_foreign_status c)) cs = true ->
  all_enum (db w) ->
  totalBooks (updateStats old uid (books (db (run w cs))))
  = booksRead (updateStats old uid (books (db (run w cs))))
    + currentlyReading (updateStats old uid (books (db (run w cs))))
    + toRead (updateStats old uid (books (db (run w cs)))).
Proof.
  intros Hok Hall.
  destruct (updateStats_exact old uid (books (db (run w cs)))) as (H1 & H2 & H3 & H4).
  rewrite H1, H2, H3, H4. apply count_books_split.
  intros b Hin _. pose proof (run_all_enum cs w Hok Hall b Hin) as H.
  unfold in_status_enum in H. apply existsb_exists in H.
  destruct H as (s & Hs & E). apply String.eqb_eq in E. subst s. exact Hs.
Qed.

(** Without that proviso it does not: a status stored by the older
    router's update is counted in the total only. *)
Lemma snapshot_partition_broken :
  let w1 := fst (LegacyRouter.put_handler later 1 0 None
                   (body_of "Dune" "Herbert" "Abandoned") one_book) in
  let w2 := fst (Router.post_handler later 1 None
                   (body_of "Emma" "Austen" "To Read") w1) in
  users (db w2) !! 1 = Some (mkStats 2 0 0 1).
Proof. vm_compute. reflexivity. Qed.

Lemma distinct_ids_unique (l : list Book) (a b : Book) :
  distinct_ids l = true -> In a l -> In b l -> _id a = _id b -> a = b.
Proof.
  induction l as [|x r IH]; simpl; [tauto|].
  intros Hd Ha Hb Hid. apply andb_true_iff in Hd. destruct Hd as [Hx Hr].
  apply negb_true_iff in Hx.
  assert (Hno : forall y, In y r -> _id y <> _id x).
  { intros y Hy E. apply not_true_iff_false in Hx. apply Hx.
    apply existsb_exists. exists y. split; [exact Hy|]. apply Nat.eqb_eq, E. }
  destruct Ha as [<-|Ha], Hb as [<-|Hb]; auto.
  - exfalso. apply (Hno b Hb). congruence.
  - exfalso. apply (Hno a Ha). congruence.
Qed.

Lemma wf_holds (w : World) (id : nat) (b : Book) (Q : Book -> Prop) :
  db_wf (db w) = true -> book_by_id id w = Some b -> Q b ->
  holds_for id Q (db w).
Proof.
  unfold db_wf, book_by_id. intros Hwf Hfind HQ.
  apply andb_true_iff in Hwf. destruct Hwf as [Hd Hlt].
  apply find_some in Hfind. destruct Hfind as [Hin Hid]. apply Nat.eqb_eq in Hid.
  split.
  - rewrite forallb_forall in Hlt. specialize (Hlt b Hin).
    apply Nat.ltb_lt in Hlt. lia.
  - intros b2 Hin2 Hid2.
    rewrite (distinct_ids_unique _ b2 b Hd Hin2 Hin); [exact HQ|congruence].
Qed.

(** *** The validated router along a history *)

Lemma Router_post_router_change (env : Env) (uid : nat) (file : option string)
    (body : Body) (w : World) :
  router_change (db w) (db (fst (Router.post_handler env uid file body w))).
Proof.
  unfold Router.post_handler.
  destruct (Joi.validate body) as [|value]; simpl; [apply router_none; reflexivity|].
  destruct (Book_save _ _ _ _) as [[?|]|[b d']] eqn:E; simpl;
    try (apply router_none; reflexivity).
  apply Book_save_inr in E. destruct E as (Hdoc & _ & Hb & Hn & _).
  set (doc := new_Book env (db w) uid (Router.fields_of_value value) (cover_path file)) in *.
  destruct (pre_save_frame (now env) true doc) as (Hi & _).
  destruct (pre_save_new (now env) true doc eq_refl eq_refl eq_refl) as [Hd Hr].
  rewrite <- Hdoc in Hi, Hd, Hr.
  apply router_insert with (doc := b); auto.
Qed.

Lemma Router_put_router_change (env : Env) (uid id : nat) (file : option string)
    (body : Body) (w : World) :
  router_change (db w) (db (fst (Router.put_handler env uid id file body w))).
Proof.
  unfold Router.put_handler.
  destruct (Joi.validate body) as [|value]; simpl; [apply router_none; reflexivity|].
  destruct (findOne id uid (db w)) as [existing|]; simpl;
    [|apply router_none; reflexivity].
  destruct file as [name|];
    (destruct (Book_findOneAndUpdate _ _ _ _ _ _) as [[?|]|[[b|] d']] eqn:E;
     simpl; try (apply router_none; reflexivity);
     apply Book_findOneAndUpdate_inr in E;
     [ destruct E as (b0 & Hfind & Hb' & Hd); subst d';
       apply router_update with (b := b0) (b' := b);
       try (rewrite Hb'; reflexivity); try reflexivity;
       unfold findOne in Hfind; apply find_some in Hfind; tauto
     | destruct E as [_ ->]; apply router_none; reflexivity ]).
Qed.

Lemma Router_delete_router_change (env : Env) (uid id : nat) (w : World) :
  router_change (db w) (db (fst (Router.delete_handler env uid id w))).
Proof.
  unfold Router.delete_handler.
  destruct (Book_findOneAndDelete _ _ _ _) as [?|[[b|] d']] eqn:E; simpl;
    try (apply router_none; reflexivity).
  apply Book_findOneAndDelete_inr in E. destruct E as [_ ->].
  destruct (post_updateStats_frame env b
              (mkDb (remove_book id (books (db w))) (users (db w)) (nextId (db w))))
    as [Hb Hn].
  apply router_remove with (id := id); [rewrite Hb|rewrite Hn]; reflexivity.
Qed.

Lemma with_upload_router_change (env : Env) (part : option FilePart)
    (handler : option string -> World -> World * Response) (w : World) :
  (forall file w1, router_change (db w1) (db (fst (handler file w1)))) ->
  router_change (db w) (db (fst (Router.with_upload env part handler w))).
Proof.
  intros H. unfold Router.with_upload.
  destruct (Upload.uploadSingle env part (disk w)) as [[err|file] d]; simpl.
  - apply router_none; reflexivity.
  - apply (H file (mkWorld (db w) (Upload.optimizeImage file d))).
Qed.

(** One call of the validated router is one such change. *)
Lemma validated_step_change (c : Call) (w : World) :
  validated c = true -> router_change (db w) (db (step w c)).
Proof.
  destruct c; simpl; try discriminate; intros _.
  - apply with_upload_router_change. intros. apply Router_post_router_change.
  - apply with_upload_router_change. intros. apply Router_put_router_change.
  - apply Router_delete_router_change.
Qed.

(** What holds of the books with one identifier, and depends on the dates
    and the duration only, holds after the change. *)
Lemma router_change_holds (Q : Book -> Prop) (id : nat) (d d' : Db) :
  (forall b b', Q b -> dateStarted b' = dateStarted b ->
                dateFinished b' = dateFinished b ->
                readingDuration b' = readingDuration b -> Q b') ->
  router_change d d' -> holds_for id Q d -> holds_for id Q d'.
Proof.
  intros HQ Hc [Hlt Hall]. destruct Hc; unfold holds_for; rewrite Hb, Hn.
  - auto.
  - split; [lia|]. intros b Hin Hidb. apply in_app_or in Hin.
    destruct Hin as [Hin|[<-|[]]]; [auto|lia].
  - split; [exact Hlt|]. intros x Hin' Hid'.
    unfold replace_book in Hin'. apply in_map_iff in Hin'.
    destruct Hin' as (y & Hy & Hiny).
    destruct (Nat.eqb (_id y) (_id b')) eqn:E.
    + subst x. apply (HQ b b'); auto. apply Hall; [exact Hin|congruence].
    + subst x. auto.
  - split; [exact Hlt|]. intros b Hin Hidb.
    unfold remove_book in Hin. apply filter_In in Hin. apply Hall; tauto.
Qed.

Lemma run_router_holds (Q : Book -> Prop) (id : nat) :
  (forall b b', Q b -> dateStarted b' = dateStarted b ->
                dateFinished b' = dateFinished b ->
                readingDuration b' = readingDuration b -> Q b') ->
  forall (cs : list Call) (w : World),
    forallb validated cs = true ->
    holds_for id Q (db w) -> holds_for id Q (db (run w cs)).
Proof.
  intros HQ. induction cs as [|c cs IH]; intros w Hok H; [exact H|].
  simpl in Hok. apply andb_true_iff in Hok. destruct Hok as [Hc Hcs].
  unfold run. simpl. apply IH; [exact Hcs|].
  apply (router_change_holds Q id (db w)); [exact HQ| |exact H].
  apply validated_step_change, Hc.
Qed.

(** What holds of every stored book, depends on the dates and the
    duration only, and holds of a document with at most one date and no
    duration, holds of every stored book after the history. *)
Lemma run_router_all (Q : Book -> Prop) :
  (forall b b', Q b -> dateStarted b' = dateStarted b ->
                dateFinished b' = dateFinished b ->
                readingDuration b' = readingDuration b -> Q b') ->
  (forall doc, dateStarted doc = None \/ dateFinished doc = None ->
               readingDuration doc = None -> Q doc) ->
  forall (cs : list Call) (w : World),
    forallb validated cs = true ->
    (forall b, In b (books (db w)) -> Q b) ->
    forall b, In b (books (db (run w cs))) -> Q b.
Proof.
  intros HQ Hnew. induction cs as [|c cs IH]; intros w Hok H; [exact H|].
  simpl in Hok. apply andb_true_iff in Hok. destruct Hok as [Hc Hcs].
  unfold run. simpl. apply IH; [exact Hcs|].
  destruct (validated_step_change c w Hc); rewrite Hb.
  - exact H.
  - intros x Hin. apply in_app_or in Hin.
    destruct Hin as [Hin|[<-|[]]]; [auto|apply Hnew; assumption].
  - intros x Hin'. unfold replace_book in Hin'. apply in_map_iff in Hin'.
    destruct Hin' as (y & Hy & Hiny).
    destruct (Nat.eqb (_id y) (_id b')); subst x; [|auto].
    apply (HQ b b'); auto.
  - intros x Hin. unfold remove_book in Hin. apply filter_In in Hin.
    apply H; tauto.
Qed.

(** C3.  Along every history of creates, updates and deletes through the
    validated router, a stored book keeps the [dateStarted] and the
    [dateFinished] it had: a date that is set is never overwritten, and a
    date that is not set is never set.  So a book that was created as
    "To Read" and whose status becomes "Reading" for the first time by an
    update has no start date, then and ever after. *)
Theorem dates_fixed_at_creation (cs : list Call) (w : World) (id : nat)
    (b b' : Book) :
  forallb validated cs = true ->
  db_wf (db w) = true ->
  book_by_id id w = Some b ->
  book_by_id id (run w cs) = Some b' ->
  dateStarted b' = dateStarted b /\ dateFinished b' = dateFinished b.
Proof.
  intros Hok Hwf Hb Hb'.
  unfold book_by_id in Hb'. apply find_some in Hb'. destruct Hb' as [Hin' Hid'].
  apply Nat.eqb_eq in Hid'.
  assert (H : holds_for id
                (fun x => dateStarted x = dateStarted b
                          /\ dateFinished x = dateFinished b) (db (run w cs))).
  { apply run_router_holds; [|exact Hok|apply (wf_holds w id b _ Hwf Hb); auto].
    intros x x' [H1 H2] Hs Hf _. rewrite Hs, Hf. auto. }
  destruct H as [_ H]. apply H; assumption.
Qed.

Lemma dates_fixed_at_creation_witness :
  exists b',
    book_by_id 0
      (run one_book
         [CallPut later (plain_request 1 0 (body_of "Dune" "Herbert" "Reading"))])
    = Some b'
    /\ status b' = "Reading" /\ dateStarted b' = None.
Proof.
  eexists. split; [vm_compute; reflexivity|]. split; [reflexivity|].
  refine (proj1 (dates_fixed_at_creation
                   [CallPut later (plain_request 1 0 (body_of "Dune" "Herbert" "Reading"))]
                   one_book 0 (sample_book 0 1 "Dune" "To Read" 1000) _ _ _ _ _));
    vm_compute; reflexivity.
Defined.



(** ** Ownership *)

Lemma findOne_Some (id uid : nat) (d : Db) (b : Book) :
  findOne id uid d = Some b -> In b (books d) /\ _id b = id /\ user b = uid.
Proof.
  unfold findOne. intros H. apply find_some in H. destruct H as [Hin Hc].
  apply andb_true_iff in Hc. destruct Hc as [H1 H2].
  apply Nat.eqb_eq in H1. apply Nat.eqb_eq in H2. auto.
Qed.

(** A book of another user is not found by the scoped query. *)
Lemma findOne_foreign (id u : nat) (d : Db) (B : Book) :
  db_wf d = true -> In B (books d) -> _id B = id -> user B <> u ->
  findOne id u d = None.
Proof.
  intros Hwf Hin Hid Hu. destruct (findOne id u d) as [x|] eqn:E; [|reflexivity].
  apply findOne_Some in E. destruct E as (Hx & Hxid & Hxu).
  unfold db_wf in Hwf. apply andb_true_iff in Hwf. destruct Hwf as [Hd _].
  rewrite (distinct_ids_unique _ x B Hd Hx Hin) in Hxu; congruence.
Qed.

(** Nor is an identifier that no book has. *)
Lemma findOne_absent (id u : nat) (w : World) :
  book_by_id id w = None -> findOne id u (db w) = None.
Proof.
  intros H. destruct (findOne id u (db w)) as [x|] eqn:E; [|reflexivity].
  apply findOne_Some in E. destruct E as (Hin & Hid & _).
  unfold book_by_id in H. pose proof (find_none _ _ H x Hin) as Hn.
  simpl in Hn. rewrite Hid, Nat.eqb_refl in Hn. discriminate.
Qed.

(** ** Uploaded files on the failure paths *)

Lemma filename_truthy (env : Env) (file : FilePart) :
  Str.truthy (Upload.filename env file) = true.
Proof. reflexivity. Qed.

Lemma difference_without (name : string) (d : Disk) : name ∉ d ∖ {[ name ]}.
Proof. rewrite elem_of_difference, elem_of_singleton. tauto. Qed.

Lemma written_then_removed (name : string) (d : Disk) :
  ({[ name ]} ∪ d) ∖ {[ name ]} ⊆ d.
Proof.
  intros x. rewrite elem_of_difference, elem_of_union, elem_of_singleton. tauto.
Qed.

Lemma cleanup_removes (name : string) (d : Disk) :
  Str.truthy name = true -> name ∉ cleanup (Some name) d.
Proof.
  intros H. unfold cleanup, Upload.deleteUploadedFile. rewrite H.
  apply difference_without.
Qed.





(** What an accepted upload is: the file is in the directory under the
    generated name. *)
Lemma uploadSingle_accepted (env : Env) (part : option FilePart) (d0 d : Disk)
    (name : string) :
  Upload.uploadSingle env part d0 = (inr (Some name), d) ->
  Str.truthy name = true /\ d = {[ name ]} ∪ d0.
Proof.
  unfold Upload.uploadSingle. destruct part as [file|]; [|discriminate].
  destruct (negb (String.eqb (fieldname file) "coverImage")); [discriminate|].
  destruct (negb (Upload.fileFilter file)); [discriminate|].
  destruct (Upload.fileSize env <? size file)%Z; [discriminate|].
  intros H. inversion H; subst. split; [apply filename_truthy|reflexivity].
Qed.



(** ** Rejected uploads *)

Lemma fileSize_default (env : Env) :
  MAX_FILE_SIZE env = None -> Upload.fileSize env = (5 * 1024 * 1024)%Z.
Proof. intros H. unfold Upload.fileSize. rewrite H. reflexivity. Qed.

Lemma with_upload_filter (env : Env) (file : FilePart)
    (handler : option string -> World -> World * Response) (w : World) :
  fieldname file = "coverImage" -> Upload.fileFilter file = false ->
  Router.with_upload env (Some file) handler w
  = (w, mkResponse 400 (Message "Only image files (JPEG, PNG, GIF, WebP) are allowed.")).
Proof.
  intros Hn Hf. unfold Router.with_upload, Upload.uploadSingle.
  rewrite Hn, Hf. destruct w; reflexivity.
Qed.

Lemma with_upload_limit (env : Env) (file : FilePart)
    (handler : option string -> World -> World * Response) (w : World) :
  fieldname file = "coverImage" -> Upload.fileFilter file = true ->
  (Upload.fileSize env < size file)%Z ->
  Router.with_upload env (Some file) handler w
  = (mkWorld (db w) (({[ Upload.filename env file ]} ∪ disk w)
                       ∖ {[ Upload.filename env file ]}),
     mkResponse 400 (Message "File too large. Maximum size is 5MB.")).
Proof.
  intros Hn Hf Hs. unfold Router.with_upload, Upload.uploadSingle.
  rewrite Hn, Hf. apply Z.ltb_lt in Hs. rewrite Hs. reflexivity.
Qed.

(** C7 (as amended).  For a create or an update that brings a file under
    the expected field: a file whose declared content type does not start
    with [image/] is answered 400 with the image-only message, and the
    store and the upload directory are unchanged; an image above the
    configured ceiling (5 MiB when none is configured) is answered 400
    with the file-too-large message, no book is created or modified, and
    the file is not in the upload directory. *)
Theorem upload_rejected (env : Env) (req : Request) (w : World) (file : FilePart) :
  req_part req = Some file -> fieldname file = "coverImage" ->
  (Upload.fileFilter file = false ->
   Router.POST env req w
   = (w, mkResponse 400 (Message "Only image files (JPEG, PNG, GIF, WebP) are allowed."))
   /\ Router.PUT env req w
      = (w, mkResponse 400 (Message "Only image files (JPEG, PNG, GIF, WebP) are allowed.")))
  /\ (Upload.fileFilter file = true -> (Upload.fileSize env < size file)%Z ->
      forall route, route = Router.POST \/ route = Router.PUT ->
      snd (route env req w)
      = mkResponse 400 (Message "File too large. Maximum size is 5MB.")
      /\ db (fst (route env req w)) = db w
      /\ (Upload.filename env file ∉ disk (fst (route env req w)))
      /\ disk (fst (route env req w)) ⊆ disk w)
  /\ (MAX_FILE_SIZE env = None -> Upload.fileSize env = (5 * 1024 * 1024)%Z).
Proof.
  intros Hp Hn. split; [|split].
  - intros Hf. unfold Router.POST, Router.PUT. rewrite Hp.
    split; apply with_upload_filter; assumption.
  - intros Hf Hs route [-> | ->]; unfold Router.POST, Router.PUT; rewrite Hp;
      rewrite (with_upload_limit env file _ w Hn Hf Hs); simpl;
      (split; [reflexivity|]); (split; [reflexivity|]);
      (split; [apply difference_without|apply written_then_removed]).
  - apply fileSize_default.
Qed.

Lemma upload_rejected_witness :
  Router.POST env0 (upload_request text_file) (mkWorld empty_db ∅)
  = (mkWorld empty_db ∅,
     mkResponse 400 (Message "Only image files (JPEG, PNG, GIF, WebP) are allowed."))
  /\ snd (Router.POST env0 (upload_request big_png) (mkWorld empty_db ∅))
     = mkResponse 400 (Message "File too large. Maximum size is 5MB.").
Proof.
  split.
  - destruct (upload_rejected env0 (upload_request text_file) (mkWorld empty_db ∅)
                text_file eq_refl eq_refl) as (H & _ & _).
    destruct (H eq_refl) as [Hpost _]. exact Hpost.
  - destruct (upload_rejected env0 (upload_request big_png) (mkWorld empty_db ∅)
                big_png eq_refl eq_refl) as (_ & H & _).
    assert (Hs : (Upload.fileSize env0 < size big_png)%Z) by (vm_compute; reflexivity).
    destruct (H eq_refl Hs Router.POST (or_introl eq_refl)) as [Hr _]. exact Hr.
Defined.

(** C7 as stated fails on the status: an image of 8 MB is answered 400, not
    413, and a text file is answered 400, not 415. *)
Lemma upload_status_counterexample :
  (Upload.fileSize env0 < size big_png)%Z
  /\ code (snd (Router.POST env0 (upload_request big_png) (mkWorld empty_db ∅))) = 400
  /\ code (snd (Router.POST env0 (upload_request big_png) (mkWorld empty_db ∅))) <> 413
  /\ Upload.fileFilter text_file = false
  /\ code (snd (Router.POST env0 (upload_request text_file) (mkWorld empty_db ∅))) = 400
  /\ code (snd (Router.POST env0 (upload_request text_file) (mkWorld empty_db ∅))) <> 415.
Proof. vm_compute. repeat split; congruence. Qed.

(** ** The search *)

Lemma mem_syntax_chars (c : ascii) :
  RegExp.mem c RegExp.syntax_chars = false ->
  Ascii.eqb "\" c = false /\ Ascii.eqb "^" c = false /\ Ascii.eqb "$" c = false
  /\ Ascii.eqb "." c = false /\ Ascii.eqb "|" c = false /\ Ascii.eqb "?" c = false
  /\ Ascii.eqb "*" c = false /\ Ascii.eqb "+" c = false /\ Ascii.eqb "(" c = false
  /\ Ascii.eqb ")" c = false /\ Ascii.eqb "[" c = false /\ Ascii.eqb "{" c = false.
Proof.
  unfold RegExp.syntax_chars. cbn [RegExp.mem]. intros H.
  repeat (apply orb_false_iff in H; destruct H as [? H]).
  repeat split; assumption.
Qed.

(** A character that is not of the syntax is a term of its own. *)
Lemma feed_literal (st : RegExp.State) (c : ascii) :
  RegExp.mode st = RegExp.Plain ->
  RegExp.mem c RegExp.syntax_chars = false ->
  RegExp.feed st c = inl (RegExp.push (RegExp.Char c) RegExp.Atom st).
Proof.
  intros Hm Hc. apply mem_syntax_chars in Hc.
  destruct Hc as (H1 & H2 & H3 & H4 & H5 & H6 & H7 & H8 & H9 & H10 & H11 & H12).
  unfold RegExp.feed. rewrite Hm, H1, H2, H3, H4, H5, H6, H7, H8, H9, H10, H11, H12.
  reflexivity.
Qed.

Lemma parse_literal (q : string) :
  literal_query q = true ->
  forall ts p,
    RegExp.parse (RegExp.mkState [] (RegExp.mkFrame [] ts) p RegExp.Plain) q
    = RegExp.Pattern (fold_left (fun acc t => RegExp.Seq t acc) ts (literals q)).
Proof.
  induction q as [|c r IH]; intros H ts p; [reflexivity|].
  unfold literal_query in H. cbn [Str.forallb] in H.
  apply andb_true_iff in H. destruct H as [Hc Hr]. apply negb_true_iff in Hc.
  cbn [RegExp.parse].
  rewrite (feed_literal (RegExp.mkState [] (RegExp.mkFrame [] ts) p RegExp.Plain)
             c eq_refl Hc).
  unfold RegExp.push. cbn [RegExp.outer RegExp.top RegExp.alts RegExp.terms].
  rewrite (IH Hr). reflexivity.
Qed.

(** A query without characters of the pattern syntax compiles to the
    sequence of its characters. *)
Lemma compile_literal (q : string) :
  literal_query q = true -> RegExp.compile q = RegExp.Pattern (literals q).
Proof. intros H. unfold RegExp.compile. rewrite (parse_literal q H). reflexivity. Qed.

Lemma matches_here_literals (q s : string) (bol : bool) :
  RegExp.match_at (literals q) bol s (fun _ _ => true) = true <-> prefix_ci q s.
Proof.
  unfold prefix_ci. revert s bol. induction q as [|c r IH]; intros s bol;
    cbn [literals RegExp.match_at].
  - split; [intros _; exists (lower_string s); reflexivity|reflexivity].
  - destruct s as [|a s']; simpl.
    + split; [discriminate|intros [post H]; discriminate].
    + rewrite andb_true_iff, IH. split.
      * intros [Hc [post Hp]]. apply Ascii.eqb_eq in Hc.
        exists post. rewrite Hp, Hc. reflexivity.
      * intros [post Hp]. inversion Hp as [[Hc Hr]]. split.
        -- apply Ascii.eqb_eq. congruence.
        -- exists post. exact Hr.
Qed.

Lemma occurs_ci_step (q s : string) :
  occurs_ci q s
  <-> prefix_ci q s
      \/ match s with
         | EmptyString => False
         | String _ s' => occurs_ci q s'
         end.
Proof.
  unfold occurs_ci, prefix_ci. split.
  - intros (pre & post & H). destruct pre as [|a pre'].
    + left. exists post. exact H.
    + right. destruct s as [|c s']; simpl in H; [discriminate|].
      inversion H. exists pre', post. assumption.
  - intros [[post H]|H].
    + exists "", post. exact H.
    + destruct s as [|c s']; [contradiction|].
      destruct H as (pre & post & H).
      exists (String (Str.lower c) pre), post. simpl. rewrite H. reflexivity.
Qed.

(** The pattern of a literal query matches exactly where the query occurs
    case-insensitively. *)
Lemma search_literals (q s : string) (bol : bool) :
  RegExp.search (literals q) bol s = true <-> occurs_ci q s.
Proof.
  revert bol. induction s as [|c s' IH]; intros bol.
  - rewrite occurs_ci_step. cbn [RegExp.search].
    rewrite orb_false_r, matches_here_literals. tauto.
  - rewrite occurs_ci_step. cbn [RegExp.search].
    rewrite orb_true_iff, matches_here_literals, IH. tauto.
Qed.

Lemma test_literals (q s : string) :
  RegExp.test (literals q) s = true <-> occurs_ci q s.
Proof. apply search_literals. Qed.

Lemma field_matches_literals (q : string) (v : option string) :
  Search.field_matches (literals q) v = true <-> occurs_in_field q v.
Proof.
  unfold Search.field_matches, occurs_in_field. destruct v as [s|].
  - rewrite test_literals. split; [eauto|].
    intros (s0 & E & H). inversion E; subst. exact H.
  - split; [discriminate|]. intros (s0 & E & _). discriminate.
Qed.

Lemma book_matches_literals (q : string) (b : Book) :
  Search.book_matches (literals q) b = true <-> occurs_in_book q b.
Proof.
  unfold Search.book_matches, occurs_in_book.
  rewrite !orb_true_iff, !field_matches_literals, existsb_exists.
  assert (Ht : (exists x, In x (tags b) /\ RegExp.test (literals q) x = true)
               <-> (exists t, In t (tags b) /\ occurs_ci q t)).
  { split; intros (t & Hin & H); exists t; (split; [exact Hin|]);
      apply test_literals; exact H. }
  rewrite Ht. tauto.
Qed.

#[local] Instance newer_first_total : Total newer_first.
Proof. intros a b. unfold newer_first. lia. Qed.

#[local] Instance newer_first_trans : Transitive newer_first.
Proof. intros a b c. unfold newer_first. lia. Qed.

Lemma find_spec (uid : nat) (re : RegExp.Re) (l : list Book) :
  (forall b, In b (Search.find uid re l)
             <-> In b l /\ user b = uid /\ Search.book_matches re b = true)
  /\ StronglySorted newer_first (Search.find uid re l)
  /\ (List.NoDup l -> List.NoDup (Search.find uid re l)).
Proof.
  unfold Search.find.
  set (hits := List.filter (fun b => Nat.eqb (user b) uid && Search.book_matches re b) l).
  pose proof (merge_sort_Permutation newer_first hits) as Hperm.
  split; [|split].
  - intros b. rewrite <- !list_elem_of_In. rewrite Hperm. rewrite !list_elem_of_In.
    unfold hits. rewrite filter_In, andb_true_iff, Nat.eqb_eq. tauto.
  - apply StronglySorted_merge_sort; apply _.
  - intros Hnd. apply (Permutation_NoDup (l := hits)).
    + symmetry. exact Hperm.
    + unfold hits. apply List.NoDup_filter, Hnd.
Qed.

(** For every non-empty query that holds no character of the pattern
    syntax, the search answers 200 with exactly those of the caller's
    books in which the query occurs case-insensitively as a substring of
    the title, author, genre, description, notes or a tag, each once,
    newest first. *)
Lemma search_literal (uid : nat) (q : string) (w : World) :
  q <> "" -> literal_query q = true ->
  exists l,
    Search.search_handler uid (Some q) w = Some (mkResponse 200 (BookList l))
    /\ (forall b, In b l
                  <-> In b (books (db w)) /\ user b = uid /\ occurs_in_book q b)
    /\ StronglySorted newer_first l
    /\ (List.NoDup (books (db w)) -> List.NoDup l).
Proof.
  intros Hq Hlit. exists (Search.find uid (literals q) (books (db w))).
  destruct (find_spec uid (literals q) (books (db w))) as (Hin & Hs & Hnd).
  split; [|split; [|split]]; auto.
  - unfold Search.search_handler. destruct q as [|c r]; [congruence|].
    simpl Str.truthy. simpl negb. cbv iota.
    rewrite (compile_literal _ Hlit). reflexivity.
  - intros b. rewrite Hin, book_matches_literals. tauto.
Qed.

(** C8, at the failing inputs.  The route hands the raw query to the
    [RegExp] constructor.  The query [.] is answered with the caller's
    book, in which no dot occurs; the query [C++] is answered 500, though
    the text occurs in the title of a book of the caller, because the
    constructor throws; the query [d.ne] finds "Dune". *)
Theorem search_reads_query_as_pattern :
  (exists b,
      Search.search_handler 1 (Some ".") one_book
      = Some (mkResponse 200 (BookList [b]))
      /\ In b (books (db one_book)) /\ ~ occurs_in_book "." b)
  /\ (Search.search_handler 1 (Some "C++") cpp_shelf
      = Some (mkResponse 500 (Message "Server error during search"))
      /\ exists b, In b (books (db cpp_shelf)) /\ user b = 1
                   /\ occurs_in_book "C++" b)
  /\ (exists b,
        Search.search_handler 1 (Some "d.ne") one_book
        = Some (mkResponse 200 (BookList [b]))
        /\ ~ occurs_in_book "d.ne" b).
Proof.
  assert (Hno : forall q b,
             Search.book_matches (literals q) b = false -> ~ occurs_in_book q b).
  { intros q b H Hocc. apply (book_matches_literals q b) in Hocc. congruence. }
  split; [|split].
  - eexists. split; [vm_compute; reflexivity|]. split; [vm_compute; auto|].
    apply Hno. vm_compute. reflexivity.
  - split; [vm_compute; reflexivity|].
    eexists. split; [vm_compute; left; reflexivity|]. split; [reflexivity|].
    left. eexists. split; [reflexivity|].
    exists "the ", " programming language". reflexivity.
  - eexists. split; [vm_compute; reflexivity|].
    apply Hno. vm_compute. reflexivity.
Qed.

(** ** Ownership along the routes *)

Lemma uploadSingle_result (env : Env) (part : option FilePart) (d1 d2 : Disk) :
  fst (Upload.uploadSingle env part d1) = fst (Upload.uploadSingle env part d2).
Proof.
  unfold Upload.uploadSingle. destruct part as [file|]; [|reflexivity].
  destruct (negb (String.eqb (fieldname file) "coverImage")); [reflexivity|].
  destruct (negb (Upload.fileFilter file)); [reflexivity|].
  destruct (Upload.fileSize env <? size file)%Z; reflexivity.
Qed.

(** Every error the upload chain raises is answered 400. *)
Lemma uploadSingle_error (env : Env) (part : option FilePart) (d : Disk)
    (err : UploadError) :
  fst (Upload.uploadSingle env part d) = inl err ->
  code (Upload.handleUploadError err) = 400.
Proof.
  unfold Upload.uploadSingle. destruct part as [file|]; [|discriminate].
  destruct (negb (String.eqb (fieldname file) "coverImage"));
    [intros H; inversion H; reflexivity|].
  destruct (negb (Upload.fileFilter file)); [intros H; inversion H; reflexivity|].
  destruct (Upload.fileSize env <? size file)%Z;
    [intros H; inversion H; reflexivity|discriminate].
Qed.

(** What the three routes answer when the scoped query finds nothing. *)
Lemma Router_not_found (env : Env) (req : Request) (w : World) :
  findOne (req_id req) (req_user req) (db w) = None ->
  Router.GET req w = mkResponse 404 (Message "Book not found")
  /\ Router.DELETE env req w = (w, mkResponse 404 (Message "Book not found"))
  /\ db (fst (Router.PUT env req w)) = db w
  /\ snd (Router.PUT env req w)
     = match fst (Upload.uploadSingle env (req_part req) (disk w)) with
       | inl err => Upload.handleUploadError err
       | inr _ =>
           match Joi.validate (req_body req) with
           | Joi.Ok _ => mkResponse 404 (Message "Book not found")
           | Joi.Error details =>
               mkResponse 400 (ValidationDetails "Validation error" details)
           end
       end.
Proof.
  intros H. unfold Router.GET, Router.DELETE, Router.PUT, Router.get_handler,
    Router.delete_handler, Router.with_upload, Book_findOneAndDelete.
  rewrite H. split; [reflexivity|]. split; [reflexivity|].
  destruct (Upload.uploadSingle env (req_part req) (disk w)) as [[err|file] d];
    simpl; [auto|].
  unfold Router.put_handler. simpl. rewrite H.
  destruct (Joi.validate (req_body req)); auto.
Qed.

(** A book of another user is still in the collection, as it was, after
    any request of the caller. *)
Lemma replace_book_keeps (b' B : Book) (l : list Book) :
  In B l -> _id B <> _id b' -> In B (replace_book b' l).
Proof.
  intros Hin Hne. unfold replace_book. apply in_map_iff. exists B.
  split; [|exact Hin]. apply Nat.eqb_neq in Hne. rewrite Hne. reflexivity.
Qed.

Lemma foreign_survives_post (env : Env) (uid : nat) (file : option string)
    (body : Body) (w : World) (B : Book) :
  In B (books (db w)) ->
  In B (books (db (fst (Router.post_handler env uid file body w)))).
Proof.
  intros Hin. unfold Router.post_handler.
  destruct (Joi.validate body) as [|value]; simpl; [exact Hin|].
  destruct (Book_save _ _ _ _) as [[?|]|[b d']] eqn:E; simpl; try exact Hin.
  apply Book_save_inr in E. destruct E as (_ & _ & Hb & _).
  rewrite Hb. apply in_or_app. left. exact Hin.
Qed.

Lemma foreign_survives_put (env : Env) (uid id : nat) (file : option string)
    (body : Body) (w : World) (B : Book) :
  db_wf (db w) = true -> In B (books (db w)) -> user B <> uid ->
  In B (books (db (fst (Router.put_handler env uid id file body w)))).
Proof.
  intros Hwf Hin Hu. unfold Router.put_handler.
  destruct (Joi.validate body) as [|value]; simpl; [exact Hin|].
  destruct (findOne id uid (db w)) as [existing|]; simpl; [|exact Hin].
  unfold db_wf in Hwf. apply andb_true_iff in Hwf. destruct Hwf as [Hd _].
  destruct file as [name|];
    (destruct (Book_findOneAndUpdate _ _ _ _ _ _) as [[?|]|[[b|] d']] eqn:E;
     simpl; try exact Hin;
     apply Book_findOneAndUpdate_inr in E;
     [ destruct E as (b0 & Hfind & Hb' & ->); simpl;
       apply findOne_Some in Hfind; destruct Hfind as (Hin0 & Hid0 & Hu0);
       apply replace_book_keeps; [exact Hin|];
       intros Heq; apply Hu;
       rewrite (distinct_ids_unique _ B b0 Hd Hin Hin0); [exact Hu0|];
       rewrite Heq, Hb'; reflexivity
     | destruct E as [_ ->]; exact Hin ]).
Qed.

Lemma foreign_survives_delete (env : Env) (uid id : nat) (w : World) (B : Book) :
  db_wf (db w) = true -> In B (books (db w)) -> user B <> uid ->
  In B (books (db (fst (Router.delete_handler env uid id w)))).
Proof.
  intros Hwf Hin Hu. unfold Router.delete_handler.
  destruct (Book_findOneAndDelete _ _ _ _) as [?|[[b|] d']] eqn:E; simpl;
    try exact Hin.
  apply Book_findOneAndDelete_inr in E. destruct E as [Hfind ->].
  destruct (post_updateStats_frame env b
              (mkDb (remove_book id (books (db w))) (users (db w)) (nextId (db w))))
    as [Hb _].
  rewrite Hb. simpl. unfold remove_book. apply filter_In. split; [exact Hin|].
  apply negb_true_iff, Nat.eqb_neq. intros Heq.
  apply findOne_Some in Hfind. destruct Hfind as (Hin0 & Hid0 & Hu0).
  unfold db_wf in Hwf. apply andb_true_iff in Hwf. destruct Hwf as [Hd _].
  apply Hu. rewrite (distinct_ids_unique _ B b Hd Hin Hin0); [exact Hu0|congruence].
Qed.

Lemma with_upload_In (env : Env) (part : option FilePart)
    (handler : option string -> World -> World * Response) (w : World) (B : Book) :
  In B (books (db w)) ->
  (forall file d, In B (books (db (fst (handler file (mkWorld (db w) d)))))) ->
  In B (books (db (fst (Router.with_upload env part handler w)))).
Proof.
  intros Hin H. unfold Router.with_upload.
  destruct (Upload.uploadSingle env part (disk w)) as [[err|file] d]; simpl;
    [exact Hin|apply H].
Qed.

Lemma list_handler_spec (uid : nat) (w : World) (l : list Book) :
  Collection.list_handler uid w = mkResponse 200 (BookList l) ->
  forall b, In b l <-> In b (books (db w)) /\ user b = uid.
Proof.
  unfold Collection.list_handler. intros H. inversion H as [Hl]. clear H Hl.
  intros b. rewrite <- !list_elem_of_In.
  rewrite (merge_sort_Permutation newer_first _). rewrite !list_elem_of_In.
  rewrite filter_In, Nat.eqb_eq. tauto.
Qed.

(** C5 (as amended).  For a book B that the caller U does not own: a get
    and a delete targeting B answer 404 "Book not found" and change
    nothing; an update targeting B answers what the upload chain answers
    when it rejects the file part (400), else 400 with the validation
    details when the body does not pass validation, else 404, and changes
    no book; each of the three answers is the one the same request gets
    for an identifier that no book has, and none is 403.  No request of U
    reads or changes B: B is in the collection after any create, update
    or delete by U, and is in no answer of U's list and search. *)
Theorem foreign_book_not_found (env : Env) (req : Request) (w w0 : World)
    (B : Book) :
  db_wf (db w) = true -> In B (books (db w)) ->
  _id B = req_id req -> user B <> req_user req ->
  book_by_id (req_id req) w0 = None ->
  (Router.GET req w = mkResponse 404 (Message "Book not found")
   /\ Router.DELETE env req w = (w, mkResponse 404 (Message "Book not found"))
   /\ db (fst (Router.PUT env req w)) = db w
   /\ snd (Router.PUT env req w)
      = match fst (Upload.uploadSingle env (req_part req) (disk w)) with
        | inl err => Upload.handleUploadError err
        | inr _ =>
            match Joi.validate (req_body req) with
            | Joi.Ok _ => mkResponse 404 (Message "Book not found")
            | Joi.Error details =>
                mkResponse 400 (ValidationDetails "Validation error" details)
            end
        end
   /\ (code (snd (Router.PUT env req w)) = 404
       \/ code (snd (Router.PUT env req w)) = 400))
  /\ (Router.GET req w = Router.GET req w0
      /\ snd (Router.DELETE env req w) = snd (Router.DELETE env req w0)
      /\ snd (Router.PUT env req w) = snd (Router.PUT env req w0))
  /\ (forall env' req',
        req_user req' = req_user req ->
        In B (books (db (fst (Router.POST env' req' w))))
        /\ In B (books (db (fst (Router.PUT env' req' w))))
        /\ In B (books (db (fst (Router.DELETE env' req' w)))))
  /\ (forall l, Collection.list_handler (req_user req) w
                = mkResponse 200 (BookList l) -> ~ In B l)
  /\ (forall query l,
        Search.search_handler (req_user req) query w
        = Some (mkResponse 200 (BookList l)) -> ~ In B l).
Proof.
  intros Hwf Hin Hid Hu H0.
  pose proof (findOne_foreign (req_id req) (req_user req) (db w) B Hwf Hin Hid Hu)
    as Hnone.
  pose proof (findOne_absent (req_id req) (req_user req) w0 H0) as Hnone0.
  destruct (Router_not_found env req w Hnone) as (Hg & Hd & Hdb & Hp).
  destruct (Router_not_found env req w0 Hnone0) as (Hg0 & Hd0 & _ & Hp0).
  split; [|split; [|split; [|split]]].
  - split; [exact Hg|]. split; [exact Hd|]. split; [exact Hdb|].
    split; [exact Hp|]. rewrite Hp.
    destruct (fst (Upload.uploadSingle env (req_part req) (disk w))) as [err|file] eqn:E.
    + right. apply (uploadSingle_error _ _ _ _ E).
    + destruct (Joi.validate (req_body req)); simpl; auto.
  - rewrite Hg, Hg0, Hd, Hd0, Hp, Hp0.
    rewrite (uploadSingle_result env (req_part req) (disk w) (disk w0)). auto.
  - intros env' req' Hreq. split; [|split].
    + unfold Router.POST. apply with_upload_In; [exact Hin|].
      intros file d. apply foreign_survives_post. exact Hin.
    + unfold Router.PUT. apply with_upload_In; [exact Hin|].
      intros file d. apply foreign_survives_put; [exact Hwf|exact Hin|congruence].
    + unfold Router.DELETE. apply foreign_survives_delete;
        [exact Hwf|exact Hin|congruence].
  - intros l Hl HB. apply (list_handler_spec _ _ _ Hl) in HB. tauto.
  - intros query l Hl HB. unfold Search.search_handler in Hl.
    destruct query as [q0|]; [|discriminate].
    destruct (negb (Str.truthy q0)); [discriminate|].
    destruct (RegExp.compile q0) as [re| |]; try discriminate.
    inversion Hl; subst.
    apply (proj1 (find_spec (req_user req) re (books (db w)))) in HB. tauto.
Qed.

Lemma foreign_book_not_found_witness :
  Router.GET (plain_request 2 0 (body_of "Dune" "Herbert" "Read")) one_book
  = mkResponse 404 (Message "Book not found")
  /\ snd (Router.PUT later (plain_request 2 0 (body_of "Dune" "Herbert" "Read")) one_book)
     = mkResponse 404 (Message "Book not found")
  /\ snd (Router.DELETE later (plain_request 2 0 (body_of "Dune" "Herbert" "Read")) one_book)
     = mkResponse 404 (Message "Book not found").
Proof.
  destruct (foreign_book_not_found later
              (plain_request 2 0 (body_of "Dune" "Herbert" "Read"))
              one_book (mkWorld empty_db ∅)
              (sample_book 0 1 "Dune" "To Read" 1000))
    as ((Hg & Hd & _ & Hp & _) & _);
    [reflexivity|vm_compute; auto|reflexivity|simpl; lia|reflexivity|].
  split; [exact Hg|]. split; [exact Hp|]. rewrite Hd. reflexivity.
Defined.

(** C5 as stated fails for the update: a body without a title is answered
    400 before the book is looked up, and so is a file part that the
    upload chain rejects. *)
Lemma foreign_update_counterexample :
  (exists B, In B (books (db one_book)) /\ _id B = 0 /\ user B <> 2)
  /\ snd (Router.PUT later (plain_request 2 0 no_body) one_book)
     = mkResponse 400 (ValidationDetails "Validation error" [("title", "any.required")])
  /\ code (snd (Router.PUT later (plain_request 2 0 no_body) one_book)) <> 404
  /\ code (snd (Router.PUT later
                  (mkRequest 2 0 (Some text_file) (body_of "Dune" "Herbert" "Read"))
                  one_book)) = 400.
Proof.
  split; [|split; [reflexivity|split; [vm_compute; discriminate|reflexivity]]].
  eexists. split; [vm_compute; left; reflexivity|]. split; [reflexivity|simpl; lia].
Qed.

(** ** The external search *)

(** C9 (as amended).  With an empty or missing query the route answers 400
    and sends nothing; with a query and no integration key it answers 500
    "Google Books API not configured" and sends nothing; only otherwise
    does it send one lookup, and it answers 200 with the normalized list
    (empty when the answer has no items), or 500 when the lookup fails. *)
Theorem search_external_gates (env : Env) (upstream : External.Upstream)
    (query : option string) :
  (Str.truthy (External.or_else query "") = false ->
   External.search_external env upstream query
   = (mkResponse 400 (Message "Query is required"), []))
  /\ (Str.truthy (External.or_else query "") = true ->
      External.truthy_opt (GOOGLE_BOOKS_API_KEY env) = None ->
      External.search_external env upstream query
      = (mkResponse 500 (Message "Google Books API not configured"), []))
  /\ (forall k,
        Str.truthy (External.or_else query "") = true ->
        External.truthy_opt (GOOGLE_BOOKS_API_KEY env) = Some k ->
        let call := External.mkLookup (External.or_else query "") 10 k in
        snd (External.search_external env upstream query) = [call]
        /\ fst (External.search_external env upstream query)
           = match upstream call with
             | None =>
                 mkResponse 500 (Message "Error searching external book database")
             | Some None => mkResponse 200 (ExternalBooks [])
             | Some (Some items) =>
                 mkResponse 200 (ExternalBooks (map External.normalize items))
             end)
  /\ (snd (External.search_external env upstream query) <> [] ->
      Str.truthy (External.or_else query "") = true
      /\ External.truthy_opt (GOOGLE_BOOKS_API_KEY env) <> None).
Proof.
  unfold External.search_external.
  destruct (Str.truthy (External.or_else query "")) eqn:Hq; simpl.
  - destruct (External.truthy_opt (GOOGLE_BOOKS_API_KEY env)) as [k|] eqn:Hk.
    + split; [discriminate|]. split; [discriminate|]. split.
      * intros k' _ E. inversion E; subst.
        destruct (upstream _) as [[items|]|]; split; reflexivity.
      * intros _. split; [reflexivity|discriminate].
    + split; [discriminate|]. split; [reflexivity|]. split; [discriminate|].
      simpl. intros H. contradiction.
  - split; [reflexivity|]. split; [discriminate|]. split; [discriminate|].
    simpl. intros H. contradiction.
Qed.

Lemma search_external_gates_witness :
  External.search_external env_with_key one_volume (Some "dune")
  = (mkResponse 200
       (ExternalBooks
          [ mkExternalBook "Dune" "Frank Herbert" (Some "Fiction") ""
              (Some "9780441013593") "1965" (Some 412%Z) None "en" ]),
     [External.mkLookup "dune" 10 "k3y"])
  /\ External.search_external env0 one_volume (Some "dune")
     = (mkResponse 500 (Message "Google Books API not configured"), []).
Proof.
  destruct (search_external_gates env_with_key one_volume (Some "dune"))
    as (_ & _ & H & _).
  destruct (H "k3y" eq_refl eq_refl) as [Hcalls Hresp].
  destruct (search_external_gates env0 one_volume (Some "dune"))
    as (_ & H0 & _).
  split; [|exact (H0 eq_refl eq_refl)].
  rewrite (surjective_pairing (External.search_external env_with_key one_volume (Some "dune"))).
  rewrite Hcalls, Hresp. reflexivity.
Defined.

(** C9 as stated fails on the status: with a query and no integration key
    the answer is 500, not 503. *)
Lemma search_external_status_counterexample :
  External.truthy_opt (GOOGLE_BOOKS_API_KEY env0) = None
  /\ code (fst (External.search_external env0 one_volume (Some "dune"))) = 500
  /\ code (fst (External.search_external env0 one_volume (Some "dune"))) <> 503.
Proof. repeat split; discriminate. Qed.

(** * Further properties *)

(** ** The auth middleware *)

Lemma startsWith_split (p s : string) :
  Str.startsWith p s = true -> s = p ++ Str.drop (String.length p) s.
Proof.
  revert s. induction p as [|a p IH]; intros s; simpl; [reflexivity|].
  destruct s as [|b s]; [discriminate|].
  intros H. apply andb_true_iff in H as [Hab Hp].
  apply Ascii.eqb_eq in Hab. subst b.
  transitivity (String a (p ++ Str.drop (String.length p) s));
    [f_equal; apply IH, Hp|reflexivity].
Qed.

Section AuthProperties.

Variable jwt_verify : string -> option string -> Auth.VerifyResult.
Variable JWT_SECRET : option string.

(** [auth] lets a request through only with a header [Bearer <token>]
    whose non-empty token the library verifies to a payload naming a user
    that is in the store, and that user is the one attached; every other
    request is answered 401. *)
Theorem auth_admits (authHeader : option string) (d : Db) :
  match Auth.auth jwt_verify JWT_SECRET authHeader d with
  | inr user =>
      exists token,
        authHeader = Some ("Bearer " ++ token) /\ token <> ""
        /\ jwt_verify token JWT_SECRET = Auth.Decoded (Some user)
        /\ is_Some (users d !! user)
  | inl r => code r = 401
  end.
Proof.
  unfold Auth.auth. destruct authHeader as [h|]; [|reflexivity].
  destruct (Str.truthy h); cbn [negb orb]; [|reflexivity].
  destruct (Str.startsWith "Bearer " h) eqn:Hs; cbn [negb orb]; [|reflexivity].
  destruct (Str.truthy (Str.drop 7 h)) eqn:Ht; cbn [negb]; [|reflexivity].
  destruct (jwt_verify (Str.drop 7 h) JWT_SECRET) as [[u|]| | |] eqn:Hv;
    try reflexivity.
  unfold Auth.findById. destruct (users d !! u) as [st|] eqn:Hu; [|reflexivity].
  exists (Str.drop 7 h). split; [|split; [|split]].
  - f_equal. apply (startsWith_split "Bearer " h Hs).
  - intros E. rewrite E in Ht. discriminate.
  - exact Hv.
  - eauto.
Qed.

End AuthProperties.

(** ** The table of GET routes *)

Lemma dispatch_segment (s : string) :
  Routes.dispatch [s]
  = if String.eqb (lower_string s) "search-external" then Some Routes.SearchExternal
    else if String.eqb (lower_string s) "search" then Some Routes.SearchOwn
    else if Str.truthy s then Some Routes.GetById
    else None.
Proof.
  unfold Routes.dispatch, Routes.get_routes.
  cbn [List.find fst Routes.pattern_matches].
  change (lower_string "search-external") with "search-external".
  change (lower_string "search") with "search".
  destruct (String.eqb (lower_string s) "search-external"); [reflexivity|].
  destruct (String.eqb (lower_string s) "search"); [reflexivity|].
  destruct s; reflexivity.
Qed.

(** No path reaches the handlers of [/stats], [/genres] and [/authors]:
    a path of one segment other than [search-external] and [search] goes
    to the handler of [/:id], which is registered before them. *)
Theorem dispatch_shadowed (path : list string) :
  Routes.dispatch path <> Some Routes.GetStats
  /\ Routes.dispatch path <> Some Routes.GetGenres
  /\ Routes.dispatch path <> Some Routes.GetAuthors
  /\ (forall s, path = [s] -> s <> "" ->
      lower_string s <> "search-external" -> lower_string s <> "search" ->
      Routes.dispatch path = Some Routes.GetById).
Proof.
  destruct path as [|s [|s' rest]].
  - split; [discriminate|split; [discriminate|split; [discriminate|]]].
    intros s E. discriminate.
  - rewrite dispatch_segment.
    destruct (String.eqb (lower_string s) "search-external") eqn:E1.
    { split; [discriminate|split; [discriminate|split; [discriminate|]]].
      intros s0 E _ H _. inversion E; subst.
      apply String.eqb_eq in E1. contradiction. }
    destruct (String.eqb (lower_string s) "search") eqn:E2.
    { split; [discriminate|split; [discriminate|split; [discriminate|]]].
      intros s0 E _ _ H. inversion E; subst.
      apply String.eqb_eq in E2. contradiction. }
    destruct s as [|c s0].
    + split; [discriminate|split; [discriminate|split; [discriminate|]]].
      intros s0 E H. inversion E; subst. contradiction.
    + split; [discriminate|split; [discriminate|split; [discriminate|]]].
      intros; reflexivity.
  - split; [discriminate|split; [discriminate|split; [discriminate|]]].
    intros s0 E. discriminate.
Qed.

Lemma dispatch_shadowed_witness :
  Routes.dispatch ["stats"] = Some Routes.GetById
  /\ Routes.dispatch ["genres"] = Some Routes.GetById
  /\ Routes.dispatch ["authors"] = Some Routes.GetById.
Proof.
  split; [|split].
  - apply (proj2 (proj2 (proj2 (dispatch_shadowed ["stats"]))) "stats");
      [reflexivity|discriminate..].
  - apply (proj2 (proj2 (proj2 (dispatch_shadowed ["genres"]))) "genres");
      [reflexivity|discriminate..].
  - apply (proj2 (proj2 (proj2 (dispatch_shadowed ["authors"]))) "authors");
      [reflexivity|discriminate..].
Defined.

(** ** The list route *)

(** The list route answers with exactly the caller's books, each as often
    as it is stored, newest first; a book of another user is never in the
    answer. *)
Theorem list_own_books (uid : nat) (w : World) :
  exists l,
    Collection.list_handler uid w = mkResponse 200 (BookList l)
    /\ (forall b, In b l <-> In b (books (db w)) /\ user b = uid)
    /\ StronglySorted newer_first l
    /\ length l = count_books uid (books (db w)).
Proof.
  eexists. split; [reflexivity|].
  pose proof (merge_sort_Permutation newer_first
                (List.filter (fun b => Nat.eqb (user b) uid) (books (db w)))) as Hp.
  split; [|split].
  - intros b. rewrite <- !list_elem_of_In, Hp, !list_elem_of_In, filter_In, Nat.eqb_eq.
    tauto.
  - apply StronglySorted_merge_sort; apply _.
  - rewrite Hp. reflexivity.
Qed.

(** Whatever the query, all the search route returns is in the answer of
    the list route. *)
Theorem search_within_list (uid : nat) (query : option string) (w : World)
    (found : list Book) :
  Search.search_handler uid query w = Some (mkResponse 200 (BookList found)) ->
  exists l,
    Collection.list_handler uid w = mkResponse 200 (BookList l)
    /\ forall b, In b found -> In b l.
Proof.
  intros H. eexists. split; [reflexivity|]. intros b Hb.
  unfold Search.search_handler in H. destruct query as [q|]; [|discriminate].
  destruct (negb (Str.truthy q)); [discriminate|].
  destruct (RegExp.compile q) as [re| |]; try discriminate.
  inversion H; subst found. clear H.
  apply (proj1 (find_spec uid re (books (db w)))) in Hb. destruct Hb as (Hin & Hu & _).
  apply list_elem_of_In. rewrite merge_sort_Permutation.
  apply list_elem_of_In, filter_In. rewrite Hu, Nat.eqb_refl. auto.
Qed.

Lemma search_within_list_witness :
  exists l,
    Collection.list_handler 1 one_book = mkResponse 200 (BookList l)
    /\ In (sample_book 0 1 "Dune" "To Read" 1000) l.
Proof.
  destruct (search_within_list 1 (Some "d.n") one_book
              [sample_book 0 1 "Dune" "To Read" 1000])
    as (l & Hl & Hin); [vm_compute; reflexivity|].
  exists l. split; [exact Hl|]. apply Hin. left. reflexivity.
Defined.

(** ** Trimming *)

Lemma trim_start_head (s : string) :
  match Str.trim_start s with
  | EmptyString => True
  | String c _ => Str.is_space c = false
  end.
Proof.
  induction s as [|c r IH]; simpl; [exact I|].
  destruct (Str.is_space c) eqn:E; [exact IH|exact E].
Qed.

Lemma trim_start_fixed (s : string) :
  match s with
  | EmptyString => True
  | String c _ => Str.is_space c = false
  end ->
  Str.trim_start s = s.
Proof. destruct s as [|c r]; simpl; [reflexivity|]. intros ->. reflexivity. Qed.

Lemma trim_end_head (s : string) :
  match s with
  | EmptyString => True
  | String c _ => Str.is_space c = false
  end ->
  match Str.trim_end s with
  | EmptyString => s = EmptyString
  | String c _ => Str.is_space c = false
  end.
Proof.
  destruct s as [|c r]; simpl; [reflexivity|]. intros Hc.
  destruct (Str.trim_end r); [rewrite Hc|]; exact Hc.
Qed.

Lemma trim_end_idem (s : string) : Str.trim_end (Str.trim_end s) = Str.trim_end s.
Proof.
  induction s as [|c r IH]; simpl; [reflexivity|].
  destruct (Str.trim_end r) as [|c' r'] eqn:E.
  - destruct (Str.is_space c) eqn:Ec; simpl; [reflexivity|]. rewrite Ec. reflexivity.
  - simpl. simpl in IH. rewrite IH. reflexivity.
Qed.

(** Trimming twice is trimming once. *)
Lemma trim_idem (s : string) : Str.trim (Str.trim s) = Str.trim s.
Proof.
  unfold Str.trim.
  rewrite (trim_start_fixed (Str.trim_end (Str.trim_start s))).
  - apply trim_end_idem.
  - pose proof (trim_end_head (Str.trim_start s) (trim_start_head s)) as H.
    destruct (Str.trim_end (Str.trim_start s)); [exact I|exact H].
Qed.

Lemma trim_start_length (s : string) :
  String.length (Str.trim_start s) <= String.length s.
Proof.
  induction s as [|c r IH]; simpl; [lia|].
  destruct (Str.is_space c); simpl; lia.
Qed.

Lemma trim_end_length (s : string) :
  String.length (Str.trim_end s) <= String.length s.
Proof.
  induction s as [|c r IH]; simpl; [lia|].
  destruct (Str.trim_end r); [destruct (Str.is_space c)|]; simpl in *; lia.
Qed.

Lemma trim_length (s : string) : String.length (Str.trim s) <= String.length s.
Proof.
  unfold Str.trim. pose proof (trim_end_length (Str.trim_start s)).
  pose proof (trim_start_length s). lia.
Qed.

(** ** The Joi schema *)

(** What a string rule has checked when it reports nothing. *)
Lemma string_rule_ok (path : string) (required allowEmpty : bool)
    (max : option nat) (pattern : string -> bool) (v r : option string) :
  Joi.string_rule path required allowEmpty max pattern v = ([], r) ->
  match v with
  | None => required = false /\ r = None
  | Some raw =>
      r = Some (Str.trim raw)
      /\ (Str.trim raw = "" -> allowEmpty = true)
      /\ (Str.trim raw <> "" ->
          pattern (Str.trim raw) = true
          /\ match max with
             | Some m => String.length (Str.trim raw) <= m
             | None => True
             end)
  end.
Proof.
  unfold Joi.string_rule. destruct v as [raw|].
  - destruct (Str.trim raw) as [|c s] eqn:E.
    + destruct allowEmpty; intros H; inversion H; subst.
      split; [reflexivity|]. split; [reflexivity|congruence].
    + destruct max as [m|].
      * destruct (Nat.ltb m (String.length (String c s))) eqn:El; [discriminate|].
        destruct (pattern (String c s)) eqn:Ep; intros H; inversion H; subst.
        split; [reflexivity|]. split; [discriminate|]. intros _.
        split; [reflexivity|]. apply Nat.ltb_ge in El. exact El.
      * destruct (pattern (String c s)) eqn:Ep; intros H; inversion H; subst.
        split; [reflexivity|]. split; [discriminate|]. intros _. auto.
  - destruct required; intros H; inversion H; auto.
Qed.

(** A string rule accepts again what it has returned. *)
Lemma string_rule_again (path : string) (required allowEmpty : bool)
    (max : option nat) (pattern : string -> bool) (v : option string) (s : string) :
  Joi.string_rule path required allowEmpty max pattern v = ([], Some s) ->
  Joi.string_rule path required allowEmpty max pattern (Some s) = ([], Some s).
Proof.
  intros H. pose proof (string_rule_ok _ _ _ _ _ _ _ H) as Hok.
  destruct v as [raw|]; [|destruct Hok; discriminate].
  destruct Hok as (Hr & _ & _). inversion Hr; subst s.
  unfold Joi.string_rule in *. rewrite trim_idem. exact H.
Qed.

Lemma string_rule_again_opt (path : string) (allowEmpty : bool)
    (max : option nat) (pattern : string -> bool) (v r : option string) :
  Joi.string_rule path false allowEmpty max pattern v = ([], r) ->
  Joi.string_rule path false allowEmpty max pattern r = ([], r).
Proof.
  intros H. destruct r as [s|].
  - eapply string_rule_again, H.
  - reflexivity.
Qed.

Lemma inject_Z_integer (z : Z) : is_integer (inject_Z z) = true.
Proof. unfold is_integer. simpl. rewrite Z.mod_1_r. reflexivity. Qed.

Lemma inject_Z_to_integer (z : Z) : to_integer (inject_Z z) = z.
Proof. unfold to_integer. simpl. apply Z.div_1_r. Qed.

Lemma number_rule_ok (path : string) (lo hi : Z) (v : NumField) (r : option Z) :
  Joi.number_rule path lo hi v = ([], r) ->
  match v with
  | NumAbsent => r = None
  | NumEmpty | NumInvalid => False
  | NumNum q =>
      is_integer q = true /\ r = Some (to_integer q)
      /\ (lo <= to_integer q <= hi)%Z
  end.
Proof.
  unfold Joi.number_rule. destruct v as [| | |q]; [congruence|discriminate..|].
  destruct (is_integer q); [|discriminate]. cbn [negb].
  destruct (to_integer q <? lo)%Z eqn:E1; [discriminate|].
  destruct (hi <? to_integer q)%Z eqn:E2; [discriminate|].
  intros H. inversion H. split; [reflexivity|]. split; [reflexivity|]. lia.
Qed.

Lemma tag_items_ok (l r : list string) :
  Joi.tag_items l = ([], r) ->
  r = map Str.trim l
  /\ Forall (fun t => t <> "" /\ String.length t <= 30) r.
Proof.
  revert r. induction l as [|t l IH]; intros r; cbn [Joi.tag_items].
  - intros H. inversion H. split; [reflexivity|constructor].
  - destruct (Joi.string_rule "tags" true false (Some 30) Joi.any_string (Some t))
      as [[|e es] [t'|]] eqn:E; try discriminate.
    + destruct (Joi.tag_items l) as [e r'] eqn:El.
      intros H. inversion H; subst. destruct (IH r' eq_refl) as [Hr Hf].
      apply string_rule_ok in E. destruct E as (Ht & He & Hp).
      inversion Ht; subst t'. split; [cbn [map]; rewrite <- Hr; reflexivity|].
      constructor; [|exact Hf].
      assert (Hne : Str.trim t <> "") by (intros E0; specialize (He E0); discriminate).
      split; [exact Hne|]. apply Hp, Hne.
    + apply string_rule_ok in E. destruct E as (Ht & _). discriminate.
Qed.

Lemma tag_items_again (l r : list string) :
  Joi.tag_items l = ([], r) -> Joi.tag_items r = ([], r).
Proof.
  revert r. induction l as [|t l IH]; intros r; cbn [Joi.tag_items].
  - intros H. inversion H. reflexivity.
  - destruct (Joi.string_rule "tags" true false (Some 30) Joi.any_string (Some t))
      as [[|e es] [t'|]] eqn:E; try discriminate.
    + destruct (Joi.tag_items l) as [e r'] eqn:El.
      intros H. inversion H; subst. cbn [Joi.tag_items].
      rewrite (string_rule_again _ _ _ _ _ _ _ E), (IH r' eq_refl). reflexivity.
    + apply string_rule_ok in E. destruct E as (Ht & _). discriminate.
Qed.

Lemma tags_rule_ok (v r : option (list string)) :
  Joi.tags_rule v = ([], r) ->
  match v with
  | None => r = None
  | Some l =>
      r = Some (map Str.trim l) /\ length l <= 10
      /\ Forall (fun t => t <> "" /\ String.length t <= 30) (map Str.trim l)
  end.
Proof.
  unfold Joi.tags_rule. destruct v as [l|]; [|congruence].
  destruct (Joi.tag_items l) as [[|e es] l'] eqn:E; [|discriminate].
  destruct (Nat.ltb 10 (length l')) eqn:El; [discriminate|].
  intros H. inversion H; subst. apply tag_items_ok in E. destruct E as [-> Hf].
  apply Nat.ltb_ge in El. rewrite length_map in El. auto.
Qed.

Lemma tags_rule_again (v r : option (list string)) :
  Joi.tags_rule v = ([], r) -> Joi.tags_rule r = ([], r).
Proof.
  unfold Joi.tags_rule. destruct v as [l|]; [|intros H; inversion H; reflexivity].
  destruct (Joi.tag_items l) as [[|e es] l'] eqn:E; [|discriminate].
  destruct (Nat.ltb 10 (length l')) eqn:El; [discriminate|].
  intros H. inversion H; subst. rewrite (tag_items_again _ _ E), El. reflexivity.
Qed.

(** A successful validation, rule by rule. *)
Lemma validate_Ok_inv (b : Body) (v : Value) :
  Joi.validate b = Joi.Ok v ->
  Joi.string_rule "title" true false (Some 200) Joi.any_string (b_title b)
  = ([], Some (v_title v))
  /\ Joi.string_rule "author" true false (Some 100) Joi.any_string (b_author b)
     = ([], Some (v_author v))
  /\ Joi.string_rule "genre" false true (Some 50) Joi.any_string (b_genre b)
     = ([], v_genre v)
  /\ Joi.status_rule (b_status b) = ([], v_status v)
  /\ Joi.string_rule "description" false true (Some 2000) Joi.any_string (b_description b)
     = ([], v_description v)
  /\ Joi.string_rule "isbn" false true None Joi.isbn_pattern (b_isbn b)
     = ([], v_isbn v)
  /\ Joi.string_rule "publishedDate" false true None Joi.any_string (b_publishedDate b)
     = ([], v_publishedDate v)
  /\ Joi.number_rule "pageCount" 1 50000 (b_pageCount b) = ([], v_pageCount v)
  /\ Joi.number_rule "rating" 1 5 (b_rating b) = ([], v_rating v)
  /\ Joi.string_rule "notes" false true (Some 1000) Joi.any_string (b_notes b)
     = ([], v_notes v)
  /\ Joi.tags_rule (b_tags b) = ([], v_tags v).
Proof.
  unfold Joi.validate.
  destruct (Joi.string_rule "title" _ _ _ _ _) as [e1 t].
  destruct (Joi.string_rule "author" _ _ _ _ _) as [e2 a].
  destruct (Joi.string_rule "genre" _ _ _ _ _) as [e3 g].
  destruct (Joi.status_rule _) as [e4 s].
  destruct (Joi.string_rule "description" _ _ _ _ _) as [e5 d].
  destruct (Joi.string_rule "isbn" _ _ _ _ _) as [e6 i].
  destruct (Joi.string_rule "publishedDate" _ _ _ _ _) as [e7 p].
  destruct (Joi.number_rule "pageCount" _ _ _) as [e8 pc].
  destruct (Joi.number_rule "rating" _ _ _) as [e9 r].
  destruct (Joi.string_rule "notes" _ _ _ _ _) as [e10 n].
  destruct (Joi.tags_rule _) as [e11 tg].
  destruct e1; [|discriminate]. destruct e2; [|discriminate].
  destruct e3; [|discriminate]. destruct e4; [|discriminate].
  destruct e5; [|discriminate]. destruct e6; [|discriminate].
  destruct e7; [|discriminate]. destruct e8; [|discriminate].
  destruct e9; [|discriminate]. destruct e10; [|discriminate].
  destruct e11; [|discriminate]. simpl.
  destruct t; [|discriminate]. destruct a; [|discriminate].
  intros H. inversion H; subst. simpl. repeat split; reflexivity.
Qed.

(** A value that the validation returns is normalized: title and author
    are the trimmed submitted texts, not empty and within their bounds;
    the status is one of the three literals, "To Read" when none was
    submitted; page count and rating lie in their ranges; there are at
    most ten tags, each trimmed, not empty and of at most thirty
    characters. *)
Theorem validate_value (b : Body) (v : Value) :
  Joi.validate b = Joi.Ok v ->
  (exists t, b_title b = Some t /\ v_title v = Str.trim t)
  /\ v_title v <> "" /\ String.length (v_title v) <= 200
  /\ (exists a, b_author b = Some a /\ v_author v = Str.trim a)
  /\ v_author v <> "" /\ String.length (v_author v) <= 100
  /\ In (v_status v) status_enum
  /\ (b_status b = None -> v_status v = "To Read")
  /\ (forall z, v_pageCount v = Some z -> (1 <= z <= 50000)%Z)
  /\ (forall z, v_rating v = Some z -> (1 <= z <= 5)%Z)
  /\ (forall l, v_tags v = Some l ->
      length l <= 10
      /\ Forall (fun t => t <> "" /\ String.length t <= 30 /\ Str.trim t = t) l).
Proof.
  intros H. apply validate_Ok_inv in H.
  destruct H as (Ht & Ha & _ & Hs & _ & _ & _ & Hp & Hr & _ & Htg).
  apply string_rule_ok in Ht. apply string_rule_ok in Ha.
  apply number_rule_ok in Hp. apply number_rule_ok in Hr.
  apply tags_rule_ok in Htg.
  destruct (b_title b) as [t|]; [|destruct Ht; discriminate].
  destruct (b_author b) as [a|]; [|destruct Ha; discriminate].
  destruct Ht as (Et & Ht0 & Ht1). destruct Ha as (Ea & Ha0 & Ha1).
  inversion Et as [Et']. inversion Ea as [Ea'].
  assert (Htne : Str.trim t <> "") by (intros E; specialize (Ht0 E); discriminate).
  assert (Hane : Str.trim a <> "") by (intros E; specialize (Ha0 E); discriminate).
  split; [exists t; split; [reflexivity|exact Et']|]. rewrite Et', Ea'.
  split; [exact Htne|]. split; [apply Ht1, Htne|].
  split; [exists a; split; [reflexivity|reflexivity]|].
  split; [exact Hane|]. split; [apply Ha1, Hane|].
  split; [|split; [|split; [|split]]].
  - unfold Joi.status_rule in Hs. destruct (b_status b) as [s|].
    + destruct (in_status_enum s) eqn:E; inversion Hs; subst.
      unfold in_status_enum in E. apply existsb_exists in E.
      destruct E as (x & Hx & E). apply String.eqb_eq in E. subst x. exact Hx.
    + inversion Hs. simpl. auto.
  - intros E. rewrite E in Hs. inversion Hs. reflexivity.
  - intros z Ez. destruct (b_pageCount b); [congruence|contradiction..|].
    destruct Hp as (_ & Hp1 & Hp2). congruence.
  - intros z Ez. destruct (b_rating b); [congruence|contradiction..|].
    destruct Hr as (_ & Hr1 & Hr2). congruence.
  - intros l El. destruct (b_tags b) as [l0|]; [|congruence].
    destruct Htg as (E & Hlen & Hf). rewrite El in E. inversion E; subst l.
    rewrite length_map. split; [exact Hlen|].
    apply List.Forall_forall. intros x Hx.
    rewrite List.Forall_forall in Hf. destruct (Hf x Hx) as [H1 H2].
    split; [exact H1|]. split; [exact H2|].
    apply in_map_iff in Hx. destruct Hx as (y & <- & _). apply trim_idem.
Qed.

Lemma validate_value_witness :
  In (v_status (mkValue "Dune" "Herbert" None "To Read" None None None None None None None))
     status_enum.
Proof.
  destruct (validate_value
              (mkBody (Some "  Dune ") (Some "Herbert") None None None None None
                 NumAbsent NumAbsent None None None None None)
              (mkValue "Dune" "Herbert" None "To Read" None None None None None None None)
              eq_refl)
    as (_ & _ & _ & _ & _ & _ & H & _).
  exact H.
Defined.

Lemma status_rule_again (v : option string) (s : string) :
  Joi.status_rule v = ([], s) -> Joi.status_rule (Some s) = ([], s).
Proof.
  unfold Joi.status_rule. destruct v as [s0|].
  - destruct (in_status_enum s0) eqn:E; intros H; inversion H; subst.
    rewrite E. reflexivity.
  - intros H. inversion H. reflexivity.
Qed.

Lemma number_rule_again (path : string) (lo hi : Z) (v : NumField) (r : option Z) :
  Joi.number_rule path lo hi v = ([], r) ->
  Joi.number_rule path lo hi
    (match r with Some z => NumNum (inject_Z z) | None => NumAbsent end) = ([], r).
Proof.
  intros H. apply number_rule_ok in H.
  destruct v as [| | |q]; [subst; reflexivity|contradiction..|].
  destruct H as (_ & -> & Hq). unfold Joi.number_rule.
  rewrite inject_Z_integer, inject_Z_to_integer. cbn [negb].
  destruct (to_integer q <? lo)%Z eqn:E1; [apply Z.ltb_lt in E1; lia|].
  destruct (hi <? to_integer q)%Z eqn:E2; [apply Z.ltb_lt in E2; lia|].
  reflexivity.
Qed.

(** Validation is idempotent: a value that it returns, submitted again as
    a body, is accepted and returned unchanged. *)
Theorem validate_again (b : Body) (v : Value) :
  Joi.validate b = Joi.Ok v -> Joi.validate (body_of_value v) = Joi.Ok v.
Proof.
  intros H. apply validate_Ok_inv in H.
  destruct H as (Ht & Ha & Hg & Hs & Hd & Hi & Hp & Hpc & Hr & Hn & Htg).
  unfold Joi.validate, body_of_value.
  cbn [b_title b_author b_genre b_status b_description b_isbn b_publishedDate
       b_pageCount b_rating b_notes b_tags].
  rewrite (string_rule_again _ _ _ _ _ _ _ Ht), (string_rule_again _ _ _ _ _ _ _ Ha),
    (string_rule_again_opt _ _ _ _ _ _ Hg), (status_rule_again _ _ Hs),
    (string_rule_again_opt _ _ _ _ _ _ Hd), (string_rule_again_opt _ _ _ _ _ _ Hi),
    (string_rule_again_opt _ _ _ _ _ _ Hp), (number_rule_again _ _ _ _ _ Hpc),
    (number_rule_again _ _ _ _ _ Hr), (string_rule_again_opt _ _ _ _ _ _ Hn),
    (tags_rule_again _ _ Htg).
  destruct v; reflexivity.
Qed.

Lemma validate_again_witness :
  Joi.validate
    (body_of_value (mkValue "Dune" "Herbert" (Some "") "Read" None None None
                      (Some 412%Z) None None (Some ["sf"; "classic"])))
  = Joi.Ok (mkValue "Dune" "Herbert" (Some "") "Read" None None None
              (Some 412%Z) None None (Some ["sf"; "classic"])).
Proof.
  apply (validate_again
           (mkBody (Some " Dune") (Some "Herbert ") (Some "  ") (Some "Read") None
              None None (NumNum (824 # 2)) NumAbsent None (Some [" sf"; "classic "])
              (Some 5%Z) None None)).
  reflexivity.
Defined.

(** ** From the Joi schema to the model's validators *)

Lemma string_rule_trimmed (path : string) (required allowEmpty : bool)
    (max : option nat) (pattern : string -> bool) (v r : option string) :
  Joi.string_rule path required allowEmpty max pattern v = ([], r) ->
  option_map Str.trim r = r.
Proof.
  intros H. apply string_rule_ok in H. destruct v as [raw|].
  - destruct H as (-> & _). simpl. rewrite trim_idem. reflexivity.
  - destruct H as (_ & ->). reflexivity.
Qed.









(** ** The two ISBN checks *)

Lemma digit_not_hyphen (c : ascii) :
  Str.is_digit c = true -> Ascii.eqb c "-"%char = false.
Proof.
  intros H. destruct (Ascii.eqb c "-"%char) eqn:E; [|reflexivity].
  apply Ascii.eqb_eq in E. subst c. discriminate.
Qed.

Lemma digits_filter (s : string) :
  Str.forallb Str.is_digit s = true ->
  Str.filter (fun c => negb (Ascii.eqb c "-"%char)) s = s
  /\ Str.forallb (fun c => Str.is_digit c || Ascii.eqb c "-"%char) s = true.
Proof.
  induction s as [|c r IH]; simpl; [auto|].
  intros H. apply andb_true_iff in H as [Hc Hr]. destruct (IH Hr) as [H1 H2].
  rewrite (digit_not_hyphen c Hc), Hc, H1, H2. auto.
Qed.

(** On a text of digits only, the Joi schema accepts every length from 10
    to 17, and the model accepts the lengths 10 and 13 (and the empty
    text): a text of 11, 12 or 14 to 17 digits passes the first check and
    fails the second. *)
Theorem isbn_checks_on_digits (s : string) :
  Str.forallb Str.is_digit s = true ->
  (Joi.isbn_pattern s = true <-> 10 <= String.length s <= 17)
  /\ (Schema.isbn_validator s = true
      <-> s = "" \/ String.length s = 10 \/ String.length s = 13).
Proof.
  intros H. destruct (digits_filter s H) as [Hf Hp]. split.
  - unfold Joi.isbn_pattern. rewrite Hp. cbn [andb].
    rewrite andb_true_iff, !Nat.leb_le. tauto.
  - unfold Schema.isbn_validator. destruct s as [|c r]; [simpl; tauto|].
    cbn [Str.truthy negb]. rewrite Hf, H. cbn [andb].
    rewrite orb_true_iff, !Nat.eqb_eq. split; [tauto|].
    intros [E|E]; [discriminate|exact E].
Qed.

Lemma isbn_checks_on_digits_witness :
  Joi.isbn_pattern "12345678901" = true
  /\ Schema.isbn_validator "12345678901" = false.
Proof.
  destruct (isbn_checks_on_digits "12345678901" eq_refl) as [H1 H2].
  split; [apply H1; simpl; lia|].
  destruct (Schema.isbn_validator "12345678901") eqn:E; [|reflexivity].
  destruct (proj1 H2 eq_refl) as [H|[H|H]]; discriminate.
Defined.

(** ** Create, read, update and delete in sequence *)

Lemma find_app_None {A} (f : A -> bool) (l1 l2 : list A) :
  List.find f l1 = None -> List.find f (l1 ++ l2) = List.find f l2.
Proof.
  induction l1 as [|x r IH]; simpl; [reflexivity|].
  destruct (f x); [discriminate|exact IH].
Qed.

Lemma distinct_ids_app (l : list Book) (b : Book) :
  distinct_ids l = true ->
  forallb (fun x => negb (Nat.eqb (_id x) (_id b))) l = true ->
  distinct_ids (l ++ [b]) = true.
Proof.
  induction l as [|x r IH]; simpl; [reflexivity|].
  intros Hd Hn. apply andb_true_iff in Hd as [Hx Hr].
  apply andb_true_iff in Hn as [Hxb Hrb].
  rewrite (IH Hr Hrb), andb_true_r. rewrite existsb_app. simpl.
  apply negb_true_iff in Hx. rewrite Hx. simpl.
  rewrite orb_false_r. rewrite Nat.eqb_sym. exact Hxb.
Qed.

(** A book that was created is what a get by its identifier returns to its
    owner, and nobody else finds it; the store stays well formed. *)
Lemma create_then_get_handler (env : Env) (uid : nat) (file : option string)
    (body : Body) (w w' : World) (msg : string) (b : Book) :
  db_wf (db w) = true ->
  Router.post_handler env uid file body w
  = (w', mkResponse 201 (BookCreated msg b)) ->
  Router.get_handler uid (_id b) w' = mkResponse 200 (BookJson b)
  /\ (forall u, u <> uid ->
      Router.get_handler u (_id b) w' = mkResponse 404 (Message "Book not found"))
  /\ db_wf (db w') = true.
Proof.
  intros Hwf H. unfold Router.post_handler in H.
  destruct (Joi.validate body) as [|value]; [discriminate|].
  destruct (Book_save _ _ _ _) as [[?|]|[b' d']] eqn:E; try discriminate.
  inversion H; subst. clear H.
  apply Book_save_inr in E. destruct E as (Hb & _ & Hbooks & Hn & _).
  destruct (pre_save_frame (now env) true
              (new_Book env (db w) uid (Router.fields_of_value value) (cover_path file)))
    as (Hid & Hu & _).
  rewrite <- Hb in Hid, Hu. simpl in Hid, Hu.
  unfold db_wf in Hwf. apply andb_true_iff in Hwf as [Hd Hlt].
  assert (Hfresh : forall x, In x (books (db w)) -> Nat.eqb (_id x) (_id b) = false).
  { intros x Hx. rewrite forallb_forall in Hlt. specialize (Hlt x Hx).
    apply Nat.ltb_lt in Hlt. apply Nat.eqb_neq. lia. }
  assert (Hnone : forall u,
            List.find (fun x => Nat.eqb (_id x) (_id b) && Nat.eqb (user x) u)
              (books (db w)) = None).
  { intros u. destruct (List.find _ (books (db w))) as [x|] eqn:F; [|reflexivity].
    apply find_some in F. destruct F as [Hx Hc].
    rewrite (Hfresh x Hx) in Hc. discriminate. }
  split; [|split].
  - unfold Router.get_handler, findOne. simpl. rewrite Hbooks.
    rewrite (find_app_None _ _ _ (Hnone uid)). simpl.
    rewrite Nat.eqb_refl, Hu, Nat.eqb_refl. reflexivity.
  - intros u Hne. unfold Router.get_handler, findOne. simpl. rewrite Hbooks.
    rewrite (find_app_None _ _ _ (Hnone u)). simpl.
    rewrite Nat.eqb_refl, Hu. apply Nat.eqb_neq in Hne.
    rewrite (Nat.eqb_sym uid u), Hne. reflexivity.
  - unfold db_wf. simpl. rewrite Hbooks, Hn. apply andb_true_iff. split.
    + apply distinct_ids_app; [exact Hd|]. apply forallb_forall.
      intros x Hx. rewrite (Hfresh x Hx). reflexivity.
    + rewrite forallb_app. apply andb_true_iff. split.
      * apply forallb_forall. intros x Hx. rewrite forallb_forall in Hlt.
        specialize (Hlt x Hx). apply Nat.ltb_lt in Hlt. apply Nat.ltb_lt. lia.
      * simpl. rewrite Hid. rewrite andb_true_r. apply Nat.ltb_lt. lia.
Qed.

Lemma find_filter {A} (f g : A -> bool) (l : list A) :
  (forall x, f x = true -> g x = true) ->
  List.find f (List.filter g l) = List.find f l.
Proof.
  intros H. induction l as [|x r IH]; simpl; [reflexivity|].
  destruct (g x) eqn:G; simpl.
  - destruct (f x); [reflexivity|exact IH].
  - destruct (f x) eqn:F; [rewrite (H x F) in G; discriminate|exact IH].
Qed.

(** After a successful delete nobody finds the book any more, and a get
    of any other identifier answers as before. *)
Lemma delete_then_get_handler (env : Env) (uid id : nat) (w w' : World) (r : Response) :
  Router.delete_handler env uid id w = (w', r) -> code r = 200 ->
  (forall u, Router.get_handler u id w' = mkResponse 404 (Message "Book not found"))
  /\ (forall u id', id' <> id ->
      Router.get_handler u id' w' = Router.get_handler u id' w).
Proof.
  unfold Router.delete_handler.
  destruct (Book_findOneAndDelete env id uid (db w)) as [?|[[b|] d']] eqn:E;
    intros H; inversion H; subst; try discriminate.
  intros _. apply Book_findOneAndDelete_inr in E. destruct E as [_ ->].
  destruct (post_updateStats_frame env b
              (mkDb (remove_book id (books (db w))) (users (db w)) (nextId (db w))))
    as [Hb _].
  split.
  - intros u. unfold Router.get_handler, findOne. simpl. rewrite Hb. simpl.
    destruct (List.find _ (remove_book id (books (db w)))) as [x|] eqn:F; [|reflexivity].
    apply find_some in F. destruct F as [Hx Hc]. unfold remove_book in Hx.
    apply filter_In in Hx. destruct Hx as [_ Hx].
    apply andb_true_iff in Hc as [Hc _]. rewrite Hc in Hx. discriminate.
  - intros u id' Hne. unfold Router.get_handler, findOne. simpl. rewrite Hb. simpl.
    unfold remove_book. rewrite find_filter; [reflexivity|].
    intros x Hx. apply andb_true_iff in Hx as [Hx _]. apply Nat.eqb_eq in Hx.
    apply negb_true_iff, Nat.eqb_neq. lia.
Qed.

Lemma find_replace (id uid : nat) (b b' : Book) (l : list Book) :
  List.find (fun x => Nat.eqb (_id x) id && Nat.eqb (user x) uid) l = Some b ->
  _id b' = id -> user b' = uid ->
  List.find (fun x => Nat.eqb (_id x) id && Nat.eqb (user x) uid) (replace_book b' l)
  = Some b'.
Proof.
  intros Hf Hid Hu. induction l as [|x r IH]; simpl in *; [discriminate|].
  rewrite Hid. destruct (Nat.eqb (_id x) id) eqn:E; simpl in *.
  - rewrite Hid, Hu, !Nat.eqb_refl. reflexivity.
  - rewrite E. simpl. apply IH, Hf.
Qed.

(** A successful update changes the validated fields and nothing else:
    the identifier, the owner, the three derived fields and the creation
    time stay, the cover stays unless a file came; and a get returns the
    updated book. *)
Lemma update_then_get_handler (env : Env) (uid id : nat) (file : option string)
    (body : Body) (w w' : World) (msg : string) (b : Book) :
  Router.put_handler env uid id file body w
  = (w', mkResponse 200 (BookUpdated msg b)) ->
  exists existing value,
    findOne id uid (db w) = Some existing
    /\ Joi.validate body = Joi.Ok value
    /\ Router.get_handler uid id w' = mkResponse 200 (BookJson b)
    /\ _id b = id /\ user b = uid /\ createdAt b = createdAt existing
    /\ dateStarted b = dateStarted existing
    /\ dateFinished b = dateFinished existing
    /\ readingDuration b = readingDuration existing
    /\ title b = Some (v_title value) /\ author b = Some (v_author value)
    /\ status b = v_status value
    /\ coverImage b = match file with
                      | Some name => Some ("/uploads/" ++ name)
                      | None => coverImage existing
                      end.
Proof.
  unfold Router.put_handler.
  destruct (Joi.validate body) as [|value] eqn:Hv; [discriminate|].
  destruct (findOne id uid (db w)) as [existing|] eqn:Hf; [|discriminate].
  pose proof (validate_Ok_inv body value Hv) as Hinv.
  destruct Hinv as (Ht & Ha & _).
  pose proof (string_rule_trimmed _ _ _ _ _ _ _ Ht) as Tt.
  pose proof (string_rule_trimmed _ _ _ _ _ _ _ Ha) as Ta.
  simpl in Tt, Ta. inversion Tt as [Tt']. inversion Ta as [Ta'].
  pose proof (findOne_Some _ _ _ _ Hf) as (_ & Hid & Hu).
  destruct file as [name|];
    (destruct (Book_findOneAndUpdate _ _ _ _ _ _) as [[?|]|[[b'|] d']] eqn:E;
     try discriminate;
     intros H; inversion H; subst b' w' msg; clear H;
     apply Book_findOneAndUpdate_inr in E;
     destruct E as (b0 & Hf0 & Hb & Hd); rewrite Hf in Hf0; inversion Hf0; subst b0;
     exists existing, value;
     split; [reflexivity|]; split; [reflexivity|];
     split;
     [ unfold Router.get_handler, findOne; rewrite Hd; simpl;
       unfold findOne in Hf;
       rewrite (find_replace id uid existing b (books (db w)) Hf);
       [reflexivity|rewrite Hb; exact Hid|rewrite Hb; exact Hu]
     | rewrite Hb; simpl; rewrite ?Tt', ?Ta'; repeat split; assumption ]).
Qed.

(** ** Cover files along create, update and delete *)


Lemma drop_uploads (name : string) :
  Str.drop (String.length "/uploads/") ("/uploads/" ++ name) = name.
Proof. reflexivity. Qed.

(** The cover path the routes store is the path of the file they
    delete. *)
Lemma delete_cover_path (b : Book) (name : string) (d : Disk) :
  coverImage b = Some ("/uploads/" ++ name) -> name <> "" ->
  delete_cover b d = d ∖ {[ name ]}.
Proof.
  intros Hc Hn. unfold delete_cover. rewrite Hc.
  change (Str.truthy ("/uploads/" ++ name) && Str.startsWith "/uploads/" ("/uploads/" ++ name))
    with true.
  cbv iota. rewrite drop_uploads. unfold Upload.deleteUploadedFile.
  destruct name; [contradiction|reflexivity].
Qed.




(** An update that brings a file and fails after the book was found
    (the model's validators reject it, or the write fails) has already
    deleted the file of the cover the book has: the stored book is
    unchanged and still names that cover, whose file is gone. *)
Theorem failed_update_loses_cover (env : Env) (req : Request) (w : World)
    (name old : string) (d : Disk) (existing : Book) (value : Value) :
  Upload.uploadSingle env (req_part req) (disk w) = (inr (Some name), d) ->
  Joi.validate (req_body req) = Joi.Ok value ->
  findOne (req_id req) (req_user req) (db w) = Some existing ->
  coverImage existing = Some ("/uploads/" ++ old) -> old <> "" ->
  code (snd (Router.PUT env req w)) <> 200 ->
  db (fst (Router.PUT env req w)) = db w
  /\ findOne (req_id req) (req_user req) (db (fst (Router.PUT env req w)))
     = Some existing
  /\ (old ∉ disk (fst (Router.PUT env req w)))
  /\ (name ∉ disk (fst (Router.PUT env req w))).
Proof.
  intros Hup Hv Hf Hc Hold.
  destruct (uploadSingle_accepted _ _ _ _ _ Hup) as [Hn ->].
  unfold Router.PUT, Router.with_upload. rewrite Hup.
  unfold Upload.optimizeImage, Router.put_handler. simpl. rewrite Hv, Hf.
  assert (Hdisk : forall x : Disk,
             x = cleanup (Some name) (delete_cover existing ({[ name ]} ∪ disk w)) ->
             (old ∉ x) /\ (name ∉ x)).
  { intros x ->. unfold cleanup, Upload.deleteUploadedFile. rewrite Hn.
    rewrite (delete_cover_path existing old _ Hc Hold).
    rewrite !elem_of_difference, !elem_of_singleton. tauto. }
  destruct (Book_findOneAndUpdate _ _ _ _ _ _) as [[?|]|[[b|] d']] eqn:E; simpl;
    intros H; try congruence;
    (split; [reflexivity|]; split; [exact Hf|]; apply Hdisk; reflexivity).
Qed.

Lemma failed_update_loses_cover_witness :
  let w := fst (Router.POST env0 (upload_request small_png) (mkWorld empty_db ∅)) in
  let req :=
    mkRequest 1 0 (Some small_png)
      (mkBody (Some "Dune") (Some "Herbert") None None None (Some "12345678901")
         None NumAbsent NumAbsent None None None None None) in
  code (snd (Router.PUT later req w)) = 400
  /\ (exists b, findOne 0 1 (db (fst (Router.PUT later req w))) = Some b
                /\ coverImage b = Some "/uploads/book-cover-1000-7.png")
  /\ ("book-cover-1000-7.png" ∉ disk (fst (Router.PUT later req w))).
Proof.
  cbv zeta. split; [vm_compute; reflexivity|].
  destruct (failed_update_loses_cover later
              (mkRequest 1 0 (Some small_png)
                 (mkBody (Some "Dune") (Some "Herbert") None None None
                    (Some "12345678901") None NumAbsent NumAbsent None None None
                    None None))
              (fst (Router.POST env0 (upload_request small_png) (mkWorld empty_db ∅)))
              "book-cover-5000-7.png" "book-cover-1000-7.png"
              ({[ "book-cover-5000-7.png" ]} ∪ {[ "book-cover-1000-7.png" ]} ∪ ∅)
              (mkBook 0 1 (Some "Dune") (Some "Herbert") None "To Read" None None
                 None None None None (Some "/uploads/book-cover-1000-7.png") []
                 None None None 1000)
              (mkValue "Dune" "Herbert" None "To Read" None (Some "12345678901")
                 None None None None None))
    as (_ & H2 & H3 & _);
    [vm_compute; reflexivity|reflexivity|reflexivity|reflexivity|discriminate
    |vm_compute; discriminate|].
  split; [|exact H3]. eexists. split; [exact H2|reflexivity].
Defined.



(** ** The snapshot after a create and after a delete *)

(** After a create or a delete that succeeds, while the recomputation
    does not fail, the owner's snapshot holds the numbers of the owner's
    books as they now are: all of them, and those of each status. *)
Theorem snapshot_after_create_and_delete (env : Env) (req : Request)
    (w : World) (old : Stats) :
  statsFault env = false ->
  users (db w) !! req_user req = Some old ->
  let counts (l : list Book) :=
    mkStats (count_books (req_user req) l) (count_status (req_user req) "Read" l)
      (count_status (req_user req) "Reading" l)
      (count_status (req_user req) "To Read" l) in
  (code (snd (Router.POST env req w)) = 201 ->
   users (db (fst (Router.POST env req w))) !! req_user req
   = Some (counts (books (db (fst (Router.POST env req w))))))
  /\ (code (snd (Router.DELETE env req w)) = 200 ->
      users (db (fst (Router.DELETE env req w))) !! req_user req
      = Some (counts (books (db (fst (Router.DELETE env req w)))))).
Proof.
  intros Hs Hu. cbv zeta.
  assert (Hx : forall l,
             updateStats old (req_user req) l
             = mkStats (count_books (req_user req) l)
                 (count_status (req_user req) "Read" l)
                 (count_status (req_user req) "Reading" l)
                 (count_status (req_user req) "To Read" l)).
  { intros l. destruct (updateStats_exact old (req_user req) l) as (H1 & H2 & H3 & H4).
    destruct (updateStats old (req_user req) l). simpl in *. congruence. }
  split.
  - unfold Router.POST, Router.with_upload.
    destruct (Upload.uploadSingle env (req_part req) (disk w)) as [[err|file] d] eqn:Eu.
    + assert (Hc : code (Upload.handleUploadError err) = 400).
      { apply (uploadSingle_error env (req_part req) (disk w)). rewrite Eu. reflexivity. }
      simpl. rewrite Hc. discriminate.
    + intros Hc. rewrite <- Hx.
      destruct (Router.post_handler env (req_user req) file (req_body req)
                  (mkWorld (db w) (Upload.optimizeImage file d))) as [w' r] eqn:E.
      apply (post_recomputes_stats _ _ _ _ _ _ _ old E); auto.
  - unfold Router.DELETE. intros Hc. rewrite <- Hx.
    destruct (Router.delete_handler env (req_user req) (req_id req) w) as [w' r] eqn:E.
    apply (delete_recomputes_stats _ _ _ _ _ _ old E); auto.
Qed.

Lemma snapshot_after_create_and_delete_witness :
  users (db (fst (Router.POST later
                    (plain_request 1 0 (body_of "Emma" "Austen" "Reading")) one_book)))
    !! 1
  = Some (mkStats 2 0 1 1).
Proof.
  destruct (snapshot_after_create_and_delete later
              (plain_request 1 0 (body_of "Emma" "Austen" "Reading")) one_book
              (mkStats 1 0 0 1) eq_refl eq_refl) as [H _].
  refine (eq_trans (H _) _); [reflexivity|vm_compute; reflexivity].
Defined.

(** A failure of the recomputation changes neither the answer of a
    create or a delete nor the books and files they leave. *)
Theorem stats_failure_is_silent (env : Env) (req : Request) (w : World) :
  let ok := with_statsFault false env in
  let ko := with_statsFault true env in
  (snd (Router.POST ko req w) = snd (Router.POST ok req w)
   /\ books (db (fst (Router.POST ko req w))) = books (db (fst (Router.POST ok req w)))
   /\ disk (fst (Router.POST ko req w)) = disk (fst (Router.POST ok req w)))
  /\ (snd (Router.DELETE ko req w) = snd (Router.DELETE ok req w)
      /\ books (db (fst (Router.DELETE ko req w)))
         = books (db (fst (Router.DELETE ok req w)))
      /\ disk (fst (Router.DELETE ko req w)) = disk (fst (Router.DELETE ok req w))).
Proof.
  cbv zeta. split.
  - unfold Router.POST, Router.with_upload.
    assert (Hu : Upload.uploadSingle (with_statsFault true env) (req_part req) (disk w)
                 = Upload.uploadSingle (with_statsFault false env) (req_part req) (disk w))
      by reflexivity.
    rewrite Hu.
    destruct (Upload.uploadSingle (with_statsFault false env) (req_part req) (disk w))
      as [[err|file] d]; [auto|].
    destruct (stats_fault_no_rollback env (req_user req) (req_id req) file
                (req_body req) (mkWorld (db w) (Upload.optimizeImage file d)))
      as [(H1 & H2 & H3) _].
    auto.
  - destruct (stats_fault_no_rollback env (req_user req) (req_id req) None
                (req_body req) w) as [_ (H1 & H2 & H3)].
    unfold Router.DELETE. auto.
Qed.

(** ** No duration through the routes *)

(** From a store in which no book has a [readingDuration], and so from
    the empty store, no history of creates, updates and deletes stores a
    book with one; and from a store in which no book has both dates, none
    stores a book that has both. *)
Theorem duration_never_recorded (cs : list Call) (w : World) :
  forallb validated cs = true ->
  (forall b, In b (books (db w)) ->
             readingDuration b = None
             /\ (dateStarted b = None \/ dateFinished b = None)) ->
  forall b, In b (books (db (run w cs))) ->
            readingDuration b = None
            /\ (dateStarted b = None \/ dateFinished b = None).
Proof.
  intros Hok Hall.
  apply (run_router_all
           (fun b => readingDuration b = None
                     /\ (dateStarted b = None \/ dateFinished b = None))); auto.
  intros b b' [H1 H2] Hs Hf Hr. rewrite Hs, Hf, Hr. auto.
Qed.

Lemma duration_never_recorded_witness :
  forallb (fun b => unset (readingDuration b))
    (books (db (run (mkWorld empty_db ∅)
                  [ CallPost env0 (plain_request 1 0 (body_of "Dune" "Herbert" "Reading"));
                    CallPut later (plain_request 1 0 (body_of "Dune" "Herbert" "Read")) ])))
  = true.
Proof.
  apply forallb_forall. intros b Hb.
  destruct (duration_never_recorded
              [ CallPost env0 (plain_request 1 0 (body_of "Dune" "Herbert" "Reading"));
                CallPut later (plain_request 1 0 (body_of "Dune" "Herbert" "Read")) ]
              (mkWorld empty_db ∅) eq_refl) with (b := b) as [H _].
  - intros x [].
  - exact Hb.
  - rewrite H. reflexivity.
Defined.

(** ** The dashboard and the form against the routes *)








(** With no filter set the page shows every book of the list, in the
    order of the list. *)
Theorem dashboard_unfiltered (books : list Book) :
  Forall (fun b => title b <> None) books ->
  Dashboard.filteredBooks "" "" "" books = Some books.
Proof.
  induction 1 as [|b r Hb _ IH]; [reflexivity|].
  cbn [Dashboard.filteredBooks]. rewrite IH.
  unfold Dashboard.keeps. destruct (title b) as [t|]; [|congruence].
  destruct (lower_string t); reflexivity.
Qed.

Lemma dashboard_unfiltered_witness :
  Dashboard.filteredBooks "" "" "" shelf = Some shelf.
Proof.
  apply dashboard_unfiltered. repeat constructor; discriminate.
Defined.

Lemma chip_fold (l : list Book) (acc : gmap string nat) (s : string) :
  Dashboard.chip
    (fold_left
       (fun acc book => <[ status book := default 0 (acc !! status book) + 1 ]> acc)
       l acc) s
  = Dashboard.chip acc s + count_occ_status s l.
Proof.
  revert acc. induction l as [|b r IH]; intros acc; simpl.
  - unfold count_occ_status. simpl. lia.
  - rewrite IH. unfold Dashboard.chip, count_occ_status. simpl.
    destruct (String.eqb (status b) s) eqn:E.
    + apply String.eqb_eq in E. subst s. rewrite lookup_insert_eq. simpl. lia.
    + apply String.eqb_neq in E. rewrite lookup_insert_ne by exact E. lia.
Qed.

Lemma filter_length_Permutation {A} (f : A -> bool) (l l' : list A) :
  Permutation l l' -> length (List.filter f l) = length (List.filter f l').
Proof.
  induction 1 as [|x l l' _ IH|x y l|l l' l'' _ IH1 _ IH2]; simpl.
  - reflexivity.
  - destruct (f x); simpl; congruence.
  - destruct (f x); destruct (f y); reflexivity.
  - congruence.
Qed.

Lemma filter_filter {A} (f g : A -> bool) (l : list A) :
  List.filter f (List.filter g l) = List.filter (fun x => g x && f x) l.
Proof.
  induction l as [|x r IH]; simpl; [reflexivity|].
  destruct (g x); simpl; [|exact IH]. destruct (f x); simpl; congruence.
Qed.

(** The chips of the page, computed from the answer of the list route,
    show the counters of a snapshot recomputed on the same store: each
    status chip the counter of that status, and the total the length of
    the list. *)
Theorem dashboard_chips (uid : nat) (w : World) (l : list Book) (old : Stats) :
  Collection.list_handler uid w = mkResponse 200 (BookList l) ->
  let stats := updateStats old uid (books (db w)) in
  Dashboard.chip (Dashboard.getStatusCounts l) "Read" = booksRead stats
  /\ Dashboard.chip (Dashboard.getStatusCounts l) "Reading" = currentlyReading stats
  /\ Dashboard.chip (Dashboard.getStatusCounts l) "To Read" = toRead stats
  /\ length l = totalBooks stats.
Proof.
  intros H. unfold Collection.list_handler in H. inversion H as [Hl]. clear H.
  cbv zeta.
  destruct (updateStats_exact old uid (books (db w))) as (H1 & H2 & H3 & H4).
  rewrite H1, H2, H3, H4.
  pose proof (merge_sort_Permutation newer_first
                (List.filter (fun b => Nat.eqb (user b) uid) (books (db w)))) as Hp.
  assert (Hc : forall s,
             Dashboard.chip
               (Dashboard.getStatusCounts
                  (merge_sort newer_first
                     (List.filter (fun b => Nat.eqb (user b) uid) (books (db w))))) s
             = count_status uid s (books (db w))).
  { intros s. unfold Dashboard.getStatusCounts. rewrite chip_fold.
    unfold Dashboard.chip. rewrite lookup_empty. simpl.
    unfold count_occ_status.
    rewrite (filter_length_Permutation _ _ _ Hp), filter_filter. reflexivity. }
  rewrite !Hc. repeat split. rewrite Hp. reflexivity.
Qed.

Lemma dashboard_chips_witness :
  Dashboard.chip (Dashboard.getStatusCounts [sample_book 0 1 "Dune" "To Read" 1000])
    "To Read" = 1.
Proof.
  destruct (dashboard_chips 1 one_book [sample_book 0 1 "Dune" "To Read" 1000]
              stats_default eq_refl) as (_ & _ & H & _).
  exact H.
Defined.

(** A form whose page count or rating is left empty, as both are when the
    form opens for a new book, is rejected by the create route and by the
    update route with 400, and nothing is stored: the client sends the
    empty text, which the schema does not take for a number. *)
Lemma number_rule_empty (path : string) (lo hi : Z) (r : option Z) :
  Joi.number_rule path lo hi NumEmpty <> ([], r).
Proof. discriminate. Qed.

Lemma validate_empty_number (b : Body) :
  b_pageCount b = NumEmpty \/ b_rating b = NumEmpty ->
  exists details, Joi.validate b = Joi.Error details.
Proof.
  intros H. destruct (Joi.validate b) as [details|v] eqn:E; [eauto|].
  apply validate_Ok_inv in E.
  destruct E as (_ & _ & _ & _ & _ & _ & _ & Hp & Hr & _).
  destruct H as [H|H]; rewrite H in *; discriminate.
Qed.

Theorem form_needs_numbers (env : Env) (uid id : nat) (f : BookForm.FormData)
    (w : World) :
  BookForm.f_pageCount f = NumEmpty \/ BookForm.f_rating f = NumEmpty ->
  (code (snd (Router.POST env (BookForm.request uid id f) w)) = 400
   /\ db (fst (Router.POST env (BookForm.request uid id f) w)) = db w)
  /\ (code (snd (Router.PUT env (BookForm.request uid id f) w)) = 400
      /\ db (fst (Router.PUT env (BookForm.request uid id f) w)) = db w).
Proof.
  intros H.
  destruct (validate_empty_number (req_body (BookForm.request uid id f)) H)
    as [details Hv].
  unfold Router.POST, Router.PUT, Router.with_upload.
  destruct (Upload.uploadSingle env (req_part (BookForm.request uid id f)) (disk w))
    as [[err|file] d] eqn:Eu.
  - assert (Hc : code (Upload.handleUploadError err) = 400).
    { apply (uploadSingle_error env (req_part (BookForm.request uid id f)) (disk w)).
      rewrite Eu. reflexivity. }
    simpl. auto.
  - unfold Router.post_handler, Router.put_handler. rewrite Hv. simpl. auto.
Qed.

Lemma form_needs_numbers_witness :
  code (snd (Router.POST env0
               (BookForm.request 1 0
                  (BookForm.mkFormData "Dune" "Herbert" "" "To Read" "" "" ""
                     NumEmpty NumEmpty "" None))
               (mkWorld empty_db ∅))) = 400
  /\ BookForm.f_pageCount (BookForm.initial None) = NumEmpty.
Proof.
  split; [|reflexivity].
  apply (form_needs_numbers env0 1 0
           (BookForm.mkFormData "Dune" "Herbert" "" "To Read" "" "" ""
              NumEmpty NumEmpty "" None) (mkWorld empty_db ∅)).
  left. reflexivity.
Defined.

(** ** The status rule on create, and the stored statuses *)

(** A create that succeeds stores the book with the stamp of its status:
    the current time as [dateStarted] for "Reading", as [dateFinished]
    for "Read", no date for "To Read"; never both dates, and never a
    duration. *)
Theorem create_applies_status_rule (env : Env) (req : Request) (w w' : World)
    (msg : string) (b : Book) :
  Router.POST env req w = (w', mkResponse 201 (BookCreated msg b)) ->
  In b (books (db w'))
  /\ In (status b) status_enum
  /\ (status b = "Reading" -> dateStarted b = Some (now env) /\ dateFinished b = None)
  /\ (status b = "Read" -> dateFinished b = Some (now env) /\ dateStarted b = None)
  /\ (status b = "To Read" -> dateStarted b = None /\ dateFinished b = None)
  /\ readingDuration b = None.
Proof.
  unfold Router.POST, Router.with_upload.
  destruct (Upload.uploadSingle env (req_part req) (disk w)) as [[err|file] d] eqn:Eu.
  { intros H. inversion H as [[Hw Hr]].
    assert (Hc : code (Upload.handleUploadError err) = 400).
    { apply (uploadSingle_error env (req_part req) (disk w)). rewrite Eu. reflexivity. }
    rewrite Hr in Hc. discriminate. }
  intros H.
  pose proof H as H0. unfold Router.post_handler in H0.
  destruct (Joi.validate (req_body req)) as [|value] eqn:Hv; [discriminate|].
  destruct (Book_save _ _ _ _) as [[?|]|[b' d']] eqn:E; try discriminate.
  inversion H0; subst w' b' msg. clear H0.
  apply Book_save_inr in E. destruct E as (Hb & _ & _ & _ & _ & Hval).
  destruct (post_applies_status_rule _ _ _ _ _ _ _ _ H) as (Hin & Hr & Hd & Ht).
  set (doc := new_Book env (db (mkWorld (db w) (Upload.optimizeImage file d)))
                (req_user req) (Router.fields_of_value value) (cover_path file)) in *.
  destruct (pre_save_new (now env) true doc eq_refl eq_refl eq_refl) as [Hone Hdur].
  rewrite <- Hb in Hone, Hdur.
  assert (Hst : in_status_enum (status b) = true).
  { rewrite Hb. destruct (pre_save_frame (now env) true doc) as (_ & _ & Hs & _).
    rewrite Hs. apply validate_doc_status, Hval. }
  split; [exact Hin|]. split.
  { unfold in_status_enum in Hst. apply existsb_exists in Hst.
    destruct Hst as (x & Hx & Ex). apply String.eqb_eq in Ex. subst x. exact Hx. }
  split.
  { intros Es. specialize (Hr Es). split; [exact Hr|].
    destruct Hone as [Hone|Hone]; [congruence|exact Hone]. }
  split.
  { intros Es. destruct (Hd Es) as [Hf _]. split; [exact Hf|].
    destruct Hone as [Hone|Hone]; [exact Hone|congruence]. }
  split; [exact Ht|exact Hdur].
Qed.

Lemma create_applies_status_rule_witness :
  exists b,
    In b (books (db reading_book)) /\ status b = "Reading"
    /\ dateStarted b = Some 1000%Z.
Proof.
  exists (mkBook 0 1 (Some "Dune") (Some "Herbert") None "Reading" None None None
            None None None None [] (Some 1000%Z) None None 1000).
  destruct (create_applies_status_rule env0
              (plain_request 1 0 (body_of "Dune" "Herbert" "Reading"))
              (mkWorld empty_db ∅) reading_book "Book added successfully"
              (mkBook 0 1 (Some "Dune") (Some "Herbert") None "Reading" None None None
                 None None None None [] (Some 1000%Z) None None 1000))
    as (Hin & _ & Hr & _); [vm_compute; reflexivity|].
  split; [|split; [reflexivity|apply Hr; reflexivity]].
  vm_compute. left. reflexivity.
Defined.

(** Every book that the validated router stores has one of the three
    statuses of the enum, whatever the history of creates, updates and
    deletes, if the books it started from had. *)
Theorem stored_status_in_enum (cs : list Call) (w : World) (b : Book) :
  forallb validated cs = true ->
  (forall x, In x (books (db w)) -> In (status x) status_enum) ->
  In b (books (db (run w cs))) -> In (status b) status_enum.
Proof.
  intros Hok Hall Hin.
  assert (Hns : forallb (fun c => negb (sets_foreign_status c)) cs = true).
  { apply forallb_forall. intros c Hc. rewrite forallb_forall in Hok.
    specialize (Hok c Hc). destruct c; try discriminate; reflexivity. }
  assert (He : all_enum (db w)).
  { intros x Hx. specialize (Hall x Hx). unfold in_status_enum.
    apply existsb_exists. exists (status x). split; [exact Hall|apply String.eqb_refl]. }
  pose proof (run_all_enum cs w Hns He b Hin) as H.
  unfold in_status_enum in H. apply existsb_exists in H.
  destruct H as (x & Hx & Ex). apply String.eqb_eq in Ex. subst x. exact Hx.
Qed.

Lemma stored_status_in_enum_witness :
  Forall (fun b => In (status b) status_enum)
    (books (db (run one_book sample_history))).
Proof.
  apply List.Forall_forall. intros b.
  apply (stored_status_in_enum sample_history one_book b eq_refl).
  intros x Hx. vm_compute in Hx. destruct Hx as [<-|[]]. vm_compute. auto.
Defined.

(** ** The search on literal queries, at an input *)

Lemma search_literal_witness :
  exists l,
    Search.search_handler 1 (Some "dUn") one_book = Some (mkResponse 200 (BookList l))
    /\ (forall b, In b l
                  <-> In b (books (db one_book)) /\ user b = 1 /\ occurs_in_book "dUn" b).
Proof.
  destruct (search_literal 1 "dUn" one_book) as (l & H1 & H2 & _);
    [discriminate|reflexivity|].
  exists l. split; assumption.
Defined.

(** ** The same along the routes *)

(** A route with the upload chain in front answers what the chain's error
    handler answers, or what its handler answers on the directory the
    chain leaves. *)
Lemma with_upload_inv (env : Env) (part : option FilePart)
    (handler : option string -> World -> World * Response) (w w' : World)
    (r : Response) :
  Router.with_upload env part handler w = (w', r) ->
  (code r = 400 /\ db w' = db w
   /\ exists err, fst (Upload.uploadSingle env part (disk w)) = inl err)
  \/ exists file d,
       Upload.uploadSingle env part (disk w) = (inr file, d)
       /\ handler file (mkWorld (db w) d) = (w', r).
Proof.
  unfold Router.with_upload.
  destruct (Upload.uploadSingle env part (disk w)) as [[err|file] d] eqn:Eu.
  - intros H. inversion H; subst. left.
    split; [apply (uploadSingle_error env part (disk w)); rewrite Eu; reflexivity|].
    split; [reflexivity|]. exists err. reflexivity.
  - intros H. right. exists file, d. split; [reflexivity|exact H].
Qed.

(** A book that was created is what a get by its identifier returns to
    its owner, and nobody else finds it; the store stays well formed. *)
Theorem create_then_get (env : Env) (req : Request) (w w' : World)
    (msg : string) (b : Book) :
  db_wf (db w) = true ->
  Router.POST env req w = (w', mkResponse 201 (BookCreated msg b)) ->
  (forall req', req_id req' = _id b ->
     Router.GET req' w'
     = if Nat.eqb (req_user req') (req_user req)
       then mkResponse 200 (BookJson b)
       else mkResponse 404 (Message "Book not found"))
  /\ db_wf (db w') = true.
Proof.
  intros Hwf H. unfold Router.POST in H. apply with_upload_inv in H.
  destruct H as [(Hc & _)|(file & d & _ & H)]; [discriminate|].
  destruct (create_then_get_handler env (req_user req) file (req_body req)
              (mkWorld (db w) d) w' msg b Hwf H) as (Hg & Hn & Hwf').
  split; [|exact Hwf'].
  intros req' Hid. unfold Router.GET. rewrite Hid.
  destruct (Nat.eqb (req_user req') (req_user req)) eqn:E.
  - apply Nat.eqb_eq in E. rewrite E. exact Hg.
  - apply Nat.eqb_neq in E. apply Hn, E.
Qed.

Lemma create_then_get_witness :
  exists b,
    Router.GET (plain_request 1 0 no_body) reading_book = mkResponse 200 (BookJson b)
    /\ dateStarted b = Some 1000%Z.
Proof.
  exists (mkBook 0 1 (Some "Dune") (Some "Herbert") None "Reading" None
            None None None None None None [] (Some 1000%Z) None None 1000).
  split; [|reflexivity].
  refine (proj1 (create_then_get env0
                   (plain_request 1 0 (body_of "Dune" "Herbert" "Reading"))
                   (mkWorld empty_db ∅) reading_book "Book added successfully"
                   (mkBook 0 1 (Some "Dune") (Some "Herbert") None "Reading" None
                      None None None None None None [] (Some 1000%Z) None None 1000)
                   _ _) (plain_request 1 0 no_body) _); vm_compute; reflexivity.
Defined.

(** After a delete that succeeds nobody finds the book any more, and a
    get of any other identifier answers as before. *)
Theorem delete_then_get (env : Env) (req : Request) (w w' : World) (r : Response) :
  Router.DELETE env req w = (w', r) -> code r = 200 ->
  forall req',
    Router.GET req' w'
    = if Nat.eqb (req_id req') (req_id req)
      then mkResponse 404 (Message "Book not found")
      else Router.GET req' w.
Proof.
  intros H Hc req'. unfold Router.DELETE in H.
  destruct (delete_then_get_handler env (req_user req) (req_id req) w w' r H Hc)
    as [Hg Ho].
  unfold Router.GET. destruct (Nat.eqb (req_id req') (req_id req)) eqn:E.
  - apply Nat.eqb_eq in E. rewrite E. apply Hg.
  - apply Nat.eqb_neq in E. apply Ho, E.
Qed.

Lemma delete_then_get_witness :
  Router.GET (plain_request 1 0 no_body)
    (fst (Router.DELETE later (plain_request 1 0 no_body) one_book))
  = mkResponse 404 (Message "Book not found").
Proof.
  refine (delete_then_get later (plain_request 1 0 no_body) one_book
            (fst (Router.DELETE later (plain_request 1 0 no_body) one_book))
            (snd (Router.DELETE later (plain_request 1 0 no_body) one_book))
            _ _ (plain_request 1 0 no_body));
    vm_compute; reflexivity.
Defined.

(** An update that succeeds changes the validated fields and nothing
    else: the identifier, the owner, the two dates, the duration and the
    creation time stay, and the cover stays unless a file came; a get
    returns the updated book. *)
Theorem update_then_get (env : Env) (req : Request) (w w' : World)
    (msg : string) (b : Book) :
  Router.PUT env req w = (w', mkResponse 200 (BookUpdated msg b)) ->
  exists existing value,
    findOne (req_id req) (req_user req) (db w) = Some existing
    /\ Joi.validate (req_body req) = Joi.Ok value
    /\ Router.GET req w' = mkResponse 200 (BookJson b)
    /\ _id b = req_id req /\ user b = req_user req
    /\ createdAt b = createdAt existing
    /\ dateStarted b = dateStarted existing
    /\ dateFinished b = dateFinished existing
    /\ readingDuration b = readingDuration existing
    /\ title b = Some (v_title value) /\ author b = Some (v_author value)
    /\ status b = v_status value
    /\ coverImage b
       = match fst (Upload.uploadSingle env (req_part req) (disk w)) with
         | inr (Some name) => Some ("/uploads/" ++ name)
         | _ => coverImage existing
         end.
Proof.
  intros H. unfold Router.PUT in H. apply with_upload_inv in H.
  destruct H as [(Hc & _)|(file & d & Hu & H)]; [discriminate|].
  destruct (update_then_get_handler env (req_user req) (req_id req) file
              (req_body req) (mkWorld (db w) d) w' msg b H)
    as (existing & value & H1 & H2 & H3 & H4 & H5 & H6 & H7 & H8 & H9 & H10 & H11
        & H12 & H13).
  exists existing, value. rewrite Hu. simpl.
  repeat (split; [assumption|]). destruct file; exact H13.
Qed.

Lemma update_then_get_witness :
  exists b,
    Router.GET (plain_request 1 0 (body_of " Dune " "Herbert" "Read"))
      (fst (Router.PUT later (plain_request 1 0 (body_of " Dune " "Herbert" "Read"))
              reading_book))
    = mkResponse 200 (BookJson b)
    /\ title b = Some "Dune" /\ status b = "Read" /\ dateStarted b = Some 1000%Z.
Proof.
  destruct (update_then_get later
              (plain_request 1 0 (body_of " Dune " "Herbert" "Read")) reading_book
              (fst (Router.PUT later
                      (plain_request 1 0 (body_of " Dune " "Herbert" "Read"))
                      reading_book))
              "Book updated successfully"
              (mkBook 0 1 (Some "Dune") (Some "Herbert") None "Read" None None None
                 None None None None [] (Some 1000%Z) None None 1000))
    as (existing & value & Hf & Hv & Hg & _); [vm_compute; reflexivity|].
  eexists. split; [exact Hg|]. repeat split.
Defined.



(** ** An update without a status *)

(** An update that succeeds and whose body carries no status stores the
    status "To Read", whatever the status of the book was: the schema's
    default fills the missing key, and the route sets every key of the
    validated value. *)
Theorem update_without_status_resets (env : Env) (req : Request) (w w' : World)
    (msg : string) (b : Book) :
  b_status (req_body req) = None ->
  Router.PUT env req w = (w', mkResponse 200 (BookUpdated msg b)) ->
  status b = "To Read".
Proof.
  intros Hs H. unfold Router.PUT in H. apply with_upload_inv in H.
  destruct H as [(Hc & _)|(file & d & _ & H)]; [discriminate|].
  destruct (update_then_get_handler env (req_user req) (req_id req) file
              (req_body req) (mkWorld (db w) d) w' msg b H)
    as (existing & value & _ & Hv & _ & _ & _ & _ & _ & _ & _ & _ & _ & Hst & _).
  rewrite Hst. apply validate_Ok_inv in Hv.
  destruct Hv as (_ & _ & _ & Hv & _). rewrite Hs in Hv. inversion Hv. reflexivity.
Qed.

Lemma update_without_status_resets_witness :
  exists b,
    snd (Router.PUT later
           (plain_request 1 0
              (mkBody (Some "Dune") (Some "F. Herbert") None None None None None
                 NumAbsent NumAbsent None None None None None))
           reading_book)
    = mkResponse 200 (BookUpdated "Book updated successfully" b)
    /\ status b = "To Read" /\ dateStarted b = Some 1000%Z.
Proof.
  exists (mkBook 0 1 (Some "Dune") (Some "F. Herbert") None "To Read" None None
            None None None None None [] (Some 1000%Z) None None 1000).
  split; [vm_compute; reflexivity|]. split; [|reflexivity].
  apply (update_without_status_resets later
           (plain_request 1 0
              (mkBody (Some "Dune") (Some "F. Herbert") None None None None None
                 NumAbsent NumAbsent None None None None None))
           reading_book
           (fst (Router.PUT later
                   (plain_request 1 0
                      (mkBody (Some "Dune") (Some "F. Herbert") None None None None
                         None NumAbsent NumAbsent None None None None None))
                   reading_book))
           "Book updated successfully"); [reflexivity|vm_compute; reflexivity].
Defined.

(** ** The results of the external search *)

(** When the lookup answers with items, the route answers 200 with one
    result for each item, in order, and every result has a title and a
    language that are not empty and a page count that is not 0. *)
Theorem external_results_normalized (env : Env) (upstream : External.Upstream)
    (query : option string) (l : list ExternalBook) (calls : list External.Lookup) :
  External.search_external env upstream query
  = (mkResponse 200 (ExternalBooks l), calls) ->
  exists call,
    calls = [call]
    /\ length l = match upstream call with
                  | Some (Some items) => length items
                  | _ => 0
                  end
    /\ Forall (fun e => e_title e <> "" /\ e_language e <> ""
                        /\ e_pageCount e <> Some 0%Z) l.
Proof.
  unfold External.search_external.
  destruct (negb (Str.truthy (External.or_else query ""))); [discriminate|].
  destruct (External.truthy_opt (GOOGLE_BOOKS_API_KEY env)) as [k|]; [|discriminate].
  destruct (upstream _) as [[items|]|] eqn:Eu; [| |discriminate].
  - intros H. inversion H; subst. eexists. split; [reflexivity|].
    rewrite Eu, length_map. split; [reflexivity|].
    apply List.Forall_forall. intros e He. apply in_map_iff in He.
    destruct He as (vi & <- & _). unfold External.normalize. simpl.
    split; [|split].
    + unfold External.or_else. destruct (External.vi_title vi) as [[|c s]|]; discriminate.
    + unfold External.or_else. destruct (External.vi_language vi) as [[|c s]|]; discriminate.
    + destruct (External.vi_pageCount vi) as [n|]; [|discriminate].
      destruct (n =? 0)%Z eqn:E; [discriminate|].
      apply Z.eqb_neq in E. congruence.
  - intros H. inversion H; subst. eexists. split; [reflexivity|].
    rewrite Eu. split; [reflexivity|constructor].
Qed.

Lemma external_results_normalized_witness :
  exists l,
    fst (External.search_external env_with_key one_volume (Some "dune"))
    = mkResponse 200 (ExternalBooks l)
    /\ length l = 1.
Proof.
  destruct (external_results_normalized env_with_key one_volume (Some "dune")
              (map External.normalize [dune_volume])
              [External.mkLookup "dune" 10 "k3y"] eq_refl)
    as (call & Hc & Hl & _).
  eexists. split; [reflexivity|]. inversion Hc; subst call. exact Hl.
Defined.
